(** * SciPhi embedding pipeline: a shallow embedding of
      [sciphi/scripts/make_embeddings.py] and the properties of its
      stream reader, chunker, embedding store, metadata store and driver.

    Python values are modelled as follows.
    - [str] is [string]; one [ascii] stands for one character.  A text
      file holds one byte per character, as ASCII text does in every
      encoding Python reads text with by default; a property of what is
      read from an input file is stated for ASCII files.
    - [int] is [Z]; [len] results are [nat].
    - A value typed [Union[str, int]] (and the [None] the locals start
      with) is a [scalar].
    - A [dict] used as a lookup table is a [gmap]; a JSON object, whose
      key order is visible through [json.dumps], is an association list.
    - Exceptions are the constructors of [exn]; a call that can raise
      returns a [result], a call that also touches the disk is an [IO]. *)

From Stdlib Require Import ZArith Strings.String Strings.Ascii Strings.Byte.
From Stdlib Require Import DecimalString DecimalPos DecimalZ.
From stdpp Require Import gmap strings list.

Local Open Scope Z_scope.

(** ** Exceptions and the two monads *)

Inductive exn : Type :=
| KeyError
| IndexError
| ValueError
| FileNotFoundError
| JSONDecodeError
| UnboundLocalError
| OverflowError
| TypeError.

Inductive result (A : Type) : Type :=
| Ok (a : A)
| Raise (e : exn).
Arguments Ok {A} a.
Arguments Raise {A} e.

#[global] Instance result_ret : MRet result := fun _ a => Ok a.
#[global] Instance result_bind : MBind result := fun _ _ f m =>
  match m with
  | Ok a => f a
  | Raise e => Raise e
  end.

(** ** Python string primitives *)

Definition LF : ascii := "010"%char.
Definition CR : ascii := "013"%char.

Definition py_bool (s : string) : bool :=
  match s with
  | EmptyString => false
  | String _ _ => true
  end.

Fixpoint str_take (n : nat) (s : string) : string :=
  match n, s with
  | S n', String c s' => String c (str_take n' s')
  | _, _ => EmptyString
  end.

(** [s[:n]] for a Python int [n]: a negative bound counts from the end. *)
Definition py_slice_to (s : string) (n : Z) : string :=
  if 0 <=? n then str_take (Z.to_nat n) s
  else str_take (String.length s - Z.to_nat (- n)) s.

(** [str(n)] for an int. *)
Definition py_str (n : Z) : string := NilEmpty.string_of_int (Z.to_int n).

(** ** Scalars: the values of the fields of a record *)

Inductive scalar : Type :=
| SNone
| SInt (n : Z)
| SStr (s : string).

#[global] Instance scalar_eq_dec : EqDecision scalar.
Proof. solve_decision. Defined.

Definition scalar_to_sum (v : scalar) : unit + (Z + string) :=
  match v with
  | SNone => inl tt
  | SInt n => inr (inl n)
  | SStr s => inr (inr s)
  end.

Definition scalar_of_sum (x : unit + (Z + string)) : scalar :=
  match x with
  | inl _ => SNone
  | inr (inl n) => SInt n
  | inr (inr s) => SStr s
  end.

#[global] Instance scalar_countable : Countable scalar.
Proof.
  apply (inj_countable' scalar_to_sum scalar_of_sum).
  intros []; reflexivity.
Defined.

(** What an f-string writes for [{v}]. *)
Definition py_format (v : scalar) : string :=
  match v with
  | SNone => "None"
  | SInt n => py_str n
  | SStr s => s
  end.

(** ** The Chunker: [reconstitute_sentences_into_chunks] *)

(** A row of the dataframe: [row["document_id"]] and [row["text"]]. *)
Record SentenceRow : Type := {
  row_document_id : scalar;
  row_text : string
}.

Definition DataFrame : Type := list SentenceRow.

Definition Chunk : Type := scalar * scalar * string.

Definition chunk_document_id (c : Chunk) : scalar := c.1.1.
Definition chunk_title (c : Chunk) : scalar := c.1.2.
Definition chunk_text (c : Chunk) : string := c.2.

(** The locals of the function. *)
Record chunker_state : Type := {
  chunks : list Chunk;
  current_chunk : string;
  current_length : nat;
  title : scalar;
  document_id : scalar
}.

Definition chunker_init : chunker_state :=
  {| chunks := []; current_chunk := EmptyString; current_length := 0%nat;
     title := SNone; document_id := SNone |}.

(** [f"{title}:\n{body}"] *)
Definition title_prefixed (title : scalar) (body : string) : string :=
  py_format title +:+ String ":" (String LF EmptyString) +:+ body.

(** One iteration of the [for _, row in df.iterrows()] loop. *)
Definition chunker_step (ids_to_titles : gmap scalar scalar) (chunk_size : Z)
    (prepend_title_to_each_chunk truncate_long_chunks : bool)
    (st : chunker_state) (row : SentenceRow) : result chunker_state :=
  let document_id := row_document_id row in
  let sentence := row_text row in
  match ids_to_titles !! document_id with
  | None => Raise KeyError
  | Some title =>
      if chunk_size <? Z.of_nat (current_length st + String.length sentence)
      then
        let closed : Chunk :=
          (document_id, title,
           if truncate_long_chunks
           then py_slice_to (current_chunk st) chunk_size
           else current_chunk st) in
        let current_chunk :=
          if prepend_title_to_each_chunk
          then title_prefixed title sentence
          else sentence in
        Ok {| chunks := chunks st ++ [closed];
              current_chunk := current_chunk;
              current_length := String.length current_chunk;
              title := title;
              document_id := document_id |}
      else
        let current_chunk :=
          if py_bool (current_chunk st)
          then current_chunk st +:+ " "
          else current_chunk st in
        Ok {| chunks := chunks st;
              current_chunk := current_chunk +:+ sentence;
              current_length :=
                (current_length st + String.length sentence)%nat;
              title := title;
              document_id := document_id |}
  end.

Fixpoint chunker_loop (ids_to_titles : gmap scalar scalar) (chunk_size : Z)
    (prepend_title_to_each_chunk truncate_long_chunks : bool)
    (st : chunker_state) (df : DataFrame) : result chunker_state :=
  match df with
  | [] => Ok st
  | row :: rest =>
      st' ← chunker_step ids_to_titles chunk_size
              prepend_title_to_each_chunk truncate_long_chunks st row;
      chunker_loop ids_to_titles chunk_size
        prepend_title_to_each_chunk truncate_long_chunks st' rest
  end.

(** The [if current_chunk:] after the loop. *)
Definition final_flush (st : chunker_state) : list Chunk :=
  if py_bool (current_chunk st)
  then [(document_id st, title st,
         title_prefixed (title st) (current_chunk st))]
  else [].

Definition reconstitute_sentences_into_chunks (df : DataFrame)
    (ids_to_titles : gmap scalar scalar) (chunk_size : Z)
    (prepend_title_to_each_chunk truncate_long_chunks : bool)
    : result (list Chunk) :=
  st ← chunker_loop ids_to_titles chunk_size
         prepend_title_to_each_chunk truncate_long_chunks chunker_init df;
  Ok (chunks st ++ final_flush st).

(** ** The disk and the [IO] monad *)

(** A file is the list of its bytes.  A gzip file is modelled by the bytes
    of the text it decompresses to: members written by successive
    [gzip.open(..., "at")] calls decompress to the concatenation of what
    was written. *)
Definition IO (A : Type) : Type :=
  gmap string (list byte) → gmap string (list byte) * result A.

#[global] Instance IO_ret : MRet IO := fun _ a fs => (fs, Ok a).
#[global] Instance IO_bind : MBind IO := fun _ _ f m fs =>
  match m fs with
  | (fs', Ok a) => f a fs'
  | (fs', Raise e) => (fs', Raise e)
  end.

Definition io_raise {A : Type} (e : exn) : IO A := fun fs => (fs, Raise e).

Definition io_lift {A : Type} (r : result A) : IO A := fun fs => (fs, r).

(** [with open(path, "w") as f: f.write(text)] *)
Definition write_text (path : string) (text : string) : IO unit :=
  fun fs => (<[path := list_byte_of_string text]> fs, Ok tt).

(** [with open(path, "r") as f: f.read()] *)
Definition read_text (path : string) : IO string :=
  fun fs =>
    match fs !! path with
    | None => (fs, Raise FileNotFoundError)
    | Some bytes => (fs, Ok (string_of_list_byte bytes))
    end.

(** One [f_out.write(text)] on a file opened with [gzip.open(path, "at")]. *)
Definition gzip_append (path : string) (text : string) : IO unit :=
  fun fs =>
    (<[path := default [] (fs !! path) ++ list_byte_of_string text]> fs,
     Ok tt).

(** Opening in append mode creates the file when it is missing. *)
Definition gzip_open_at (path : string) : IO unit :=
  gzip_append path EmptyString.

(** Reading in text mode turns each of "\r\n" and "\r" into "\n". *)
Fixpoint universal_newlines (after_cr : bool) (s : string) : string :=
  match s with
  | EmptyString => EmptyString
  | String c s' =>
      if Ascii.eqb c CR then String LF (universal_newlines true s')
      else if Ascii.eqb c LF then
        if after_cr then universal_newlines false s'
        else String LF (universal_newlines false s')
      else String c (universal_newlines false s')
  end.

(** The lines a text file object iterates over, each with its "\n". *)
Fixpoint file_lines (s : string) : list string :=
  match s with
  | EmptyString => []
  | String c s' =>
      if Ascii.eqb c LF then String LF EmptyString :: file_lines s'
      else match file_lines s' with
           | [] => [String c EmptyString]
           | l :: ls => String c l :: ls
           end
  end.

(** [for line in gzip.open(path, "rt")], for a file of ASCII text.  (The
    code decodes other bytes with the encoding of the locale and raises
    [UnicodeDecodeError] where that fails.) *)
Definition gzip_read_lines (path : string) : IO (list string) :=
  text ← read_text path;
  mret (file_lines (universal_newlines false text)).

(** [str.isspace] on the first 256 code points. *)
Definition is_space (c : ascii) : bool :=
  match nat_of_ascii c with
  | 9 | 10 | 11 | 12 | 13 | 28 | 29 | 30 | 31 | 32 | 133 | 160 => true
  | _ => false
  end%nat.

Fixpoint py_lstrip (s : string) : string :=
  match s with
  | EmptyString => EmptyString
  | String c s' => if is_space c then py_lstrip s' else s
  end.

Fixpoint py_rstrip (s : string) : string :=
  match s with
  | EmptyString => EmptyString
  | String c s' =>
      match py_rstrip s' with
      | EmptyString => if is_space c then EmptyString else String c EmptyString
      | r => String c r
      end
  end.

Definition py_strip (s : string) : string := py_lstrip (py_rstrip s).

(** [s.split(sep)] for a one-character separator. *)
Fixpoint py_split (sep : ascii) (s : string) : list string :=
  match s with
  | EmptyString => [EmptyString]
  | String c s' =>
      if Ascii.eqb c sep then EmptyString :: py_split sep s'
      else match py_split sep s' with
           | [] => [String c EmptyString]
           | p :: ps => String c p :: ps
           end
  end.

Definition is_digit (c : ascii) : bool :=
  match c with
  | "0" | "1" | "2" | "3" | "4" | "5" | "6" | "7" | "8" | "9" => true
  | _ => false
  end%char.

(** The digits of an integer literal given to [int]: single underscores are
    allowed between digits and are dropped. *)
Fixpoint int_digits (after_digit : bool) (s : string) : option string :=
  match s with
  | EmptyString => if after_digit then Some EmptyString else None
  | String c s' =>
      if Ascii.eqb c "_" then
        if after_digit then int_digits false s' else None
      else if is_digit c then String c <$> int_digits true s'
      else None
  end.

Definition int_unsigned (s : string) : option Z :=
  digits ← int_digits false s;
  Z.of_uint <$> NilEmpty.uint_of_string digits.

(** [int(s)] for a string in base ten. *)
Definition py_int (s : string) : result Z :=
  let parsed :=
    match py_strip s with
    | String "+" body => int_unsigned body
    | String "-" body => Z.opp <$> int_unsigned body
    | body => int_unsigned body
    end in
  match parsed with
  | Some n => Ok n
  | None => Raise ValueError
  end.

(** [map(f, xs)] forced by [tuple] or a comprehension: the first failure
    is the one raised. *)
Fixpoint result_map {A B : Type} (f : A → result B) (xs : list A)
    : result (list B) :=
  match xs with
  | [] => Ok []
  | x :: rest =>
      y ← f x;
      ys ← result_map f rest;
      Ok (y :: ys)
  end.

(** ** numpy arrays and memory maps *)

Inductive dtype : Type :=
| float16 | float32 | float64
| int8 | int16 | int32 | int64
| uint8.

#[global] Instance dtype_eq_dec : EqDecision dtype.
Proof. solve_decision. Defined.

Definition itemsize (dt : dtype) : nat :=
  match dt with
  | int8 | uint8 => 1
  | float16 | int16 => 2
  | float32 | int32 => 4
  | float64 | int64 => 8
  end%nat.

(** An array is its dtype, its shape and its buffer in row-major order
    (what [tobytes()] returns). *)
Record ndarray : Type := {
  nd_dtype : dtype;
  nd_shape : list nat;
  nd_data : list byte
}.

Definition nd_size (shape : list nat) : nat := foldr Nat.mul 1%nat shape.

Definition nd_nbytes (dt : dtype) (shape : list nat) : nat :=
  (itemsize dt * nd_size shape)%nat.

(** The buffer has the size the dtype and shape ask for. *)
Definition nd_wf (a : ndarray) : Prop :=
  length (nd_data a) = nd_nbytes (nd_dtype a) (nd_shape a).

Definition nd_wfb (a : ndarray) : bool :=
  Nat.eqb (length (nd_data a)) (nd_nbytes (nd_dtype a) (nd_shape a)).

(** [a[idx]]: the sub-array at [idx] along the first axis; a negative
    index counts from the end. *)
Definition nd_getitem (a : ndarray) (idx : Z) : result ndarray :=
  match nd_shape a with
  | [] => Raise IndexError
  | n :: rest =>
      let i := if idx <? 0 then idx + Z.of_nat n else idx in
      if (0 <=? i) && (i <? Z.of_nat n) then
        let row := nd_nbytes (nd_dtype a) rest in
        Ok {| nd_dtype := nd_dtype a;
              nd_shape := rest;
              nd_data := take row (drop (Z.to_nat i * row) (nd_data a)) |}
      else Raise IndexError
  end.

(** [np.memmap(file_name, dtype=dt, mode="w+", shape=shape)]: the file is
    created or truncated, grown to the size of the array and mapped.  An
    empty file cannot be mapped.  The result names the mapping. *)
Record memmap : Type := {
  mm_file : string;
  mm_dtype : dtype;
  mm_shape : list nat
}.

Definition np_memmap_w (file_name : string) (dt : dtype) (shape : list nat)
    : IO memmap :=
  fun fs =>
    let nbytes := nd_nbytes dt shape in
    if Nat.eqb nbytes 0
    then (<[file_name := []]> fs, Raise ValueError)
    else (<[file_name := replicate nbytes x00]> fs,
          Ok {| mm_file := file_name; mm_dtype := dt; mm_shape := shape |}).

(** [memmap_array[:] = a[:]] followed by [flush()], for an array of the
    mapping's own dtype and shape that has an axis: the buffer of [a]
    becomes the file.  (An array without axes cannot be sliced: for it
    [a[:]] raises [IndexError].) *)
Definition memmap_assign (m : memmap) (a : ndarray) : IO unit :=
  fun fs => (<[mm_file m := nd_data a]> fs, Ok tt).

(** [np.memmap(file_name, dtype=dt, mode="r", shape=shape)]: the file must
    exist.  The length to map is the item size times the product of the
    dimensions: [mmap] refuses a negative length with [OverflowError],
    and an empty file or one shorter than that length with [ValueError];
    an array cannot have a negative dimension.  The array is read from
    the start of the file. *)
Definition np_memmap_r (file_name : string) (dt : dtype) (shape : list Z)
    : IO ndarray :=
  fun fs =>
    match fs !! file_name with
    | None => (fs, Raise FileNotFoundError)
    | Some bytes =>
        let nbytes := Z.of_nat (itemsize dt) * foldr Z.mul 1 shape in
        if nbytes <? 0 then (fs, Raise OverflowError)
        else if Nat.eqb (length bytes) 0
                || (Z.of_nat (length bytes) <? nbytes)
        then (fs, Raise ValueError)
        else if existsb (fun k => k <? 0) shape then (fs, Raise ValueError)
        else
          let shape := Z.to_nat <$> shape in
          (fs, Ok {| nd_dtype := dt; nd_shape := shape;
                     nd_data := take (nd_nbytes dt shape) bytes |})
    end.

(** ** The Embedding Store *)

Definition shape_path (file_name : string) : string := file_name +:+ ".shape".

Definition save_embeddings_to_memmap (embeddings : ndarray)
    (file_name : string) : IO unit :=
  let shape := nd_shape embeddings in
  write_text (shape_path file_name)
    (String.concat "," ((fun k => py_str (Z.of_nat k)) <$> shape));;
  memmap_array ← np_memmap_w file_name (nd_dtype embeddings) shape;
  memmap_assign memmap_array embeddings.

Definition _load_shape_from_file (file_name : string) : IO (list Z) :=
  shape_str ← read_text (shape_path file_name);
  io_lift (result_map py_int (py_split "," shape_str)).

(** ** Decoded JSON and records *)

(** What [json.loads] returns.  An object is the list of its members in
    the order of the dict, which [json.dumps] shows; [V] is the type of
    the values of the members, which the stream reader never looks at.
    A float is given by its [repr]. *)
#[warnings="-register-all"] Inductive json (V : Type) : Type :=
| JNull
| JBool (b : bool)
| JInt (n : Z)
| JFloat (repr : string)
| JString (s : string)
| JArray (items : list (json V))
| JObject (members : list (string * V)).
Arguments JNull {V}.
Arguments JBool {V} b.
Arguments JInt {V} n.
Arguments JFloat {V} repr.
Arguments JString {V} s.
Arguments JArray {V} items.
Arguments JObject {V} members.

(** A decoded line.  Records have the type the stream reader declares,
    [Dict[str, Union[str, int]]]: the values of their fields are
    [scalar]s. *)
Definition entry : Type := json scalar.

Definition is_object {V : Type} (v : json V) : bool :=
  match v with
  | JObject _ => true
  | _ => false
  end.

(** The values [in] can search: dicts, strs and lists. *)
Definition is_iterable {V : Type} (v : json V) : bool :=
  match v with
  | JObject _ | JString _ | JArray _ => true
  | _ => false
  end.

(** [s.startswith(p)] *)
Fixpoint str_prefix (p s : string) : bool :=
  match p, s with
  | EmptyString, _ => true
  | String a p', String b s' => Ascii.eqb a b && str_prefix p' s'
  | String _ _, EmptyString => false
  end.

(** [needle in hay] for two strs. *)
Fixpoint str_contains (needle hay : string) : bool :=
  str_prefix needle hay
  || match hay with
     | EmptyString => false
     | String _ hay' => str_contains needle hay'
     end.

Definition has_key {V : Type} (key : string) (members : list (string * V))
    : bool :=
  existsb (fun kv => String.eqb kv.1 key) members.

(** [key in v] for a str [key]: a key of a dict, a part of a str, an
    item of a list; the other values are not iterable. *)
Definition py_contains {V : Type} (key : string) (v : json V)
    : result bool :=
  match v with
  | JObject members => Ok (has_key key members)
  | JString s => Ok (str_contains key s)
  | JArray items =>
      Ok (existsb (fun item => match item with
                               | JString s => String.eqb s key
                               | _ => false
                               end) items)
  | _ => Raise TypeError
  end.

(** [v] is a dict and has the key. *)
Definition dict_contains {V : Type} (key : string) (v : json V) : bool :=
  match v with
  | JObject members => has_key key members
  | _ => false
  end.

Fixpoint member_getitem {V : Type} (members : list (string * V))
    (key : string) : result V :=
  match members with
  | [] => Raise KeyError
  | (k, v) :: rest =>
      if String.eqb k key then Ok v else member_getitem rest key
  end.

(** [v[key]] for a str [key]: the value a dict has for it, [KeyError]
    when it has none; strs and lists take integers only, and the other
    values nothing. *)
Definition dict_getitem {V : Type} (v : json V) (key : string) : result V :=
  match v with
  | JObject members => member_getitem members key
  | _ => Raise TypeError
  end.

(** [for x in xs: body(x)] *)
Fixpoint io_for {A : Type} (xs : list A) (body : A → IO unit) : IO unit :=
  match xs with
  | [] => mret tt
  | x :: rest => body x;; io_for rest body
  end.

(** What a generator does when it is iterated to its end: the items it
    yields, then [None] if it returns and [Some e] if it raises [e]. *)
Definition generator (A : Type) : Type := list A * option exn.

Definition gen_yield {A : Type} (x : A) (g : generator A) : generator A :=
  (x :: g.1, g.2).

(** The metadata entry the driver builds from a chunk. *)
Definition metadata_of_chunk (c : Chunk) : entry :=
  JObject [("doc_id", chunk_document_id c);
           ("title", chunk_title c);
           ("text_chunk", SStr (chunk_text c))].

(** The batch the driver is accumulating. *)
Record driver_state : Type := {
  document_ids : list scalar;
  documents : list scalar;
  ids_to_titles : gmap scalar scalar
}.

Definition driver_init : driver_state :=
  {| document_ids := []; documents := []; ids_to_titles := ∅ |}.

(** *** A reference codec

    An executable [json.dumps] and [json.loads] for these values, with
    the separators and the ASCII escapes of the standard library.  The
    decoder accepts [null], [true], [false], an integer, a string, an
    array of these, or an object whose values are strings, integers or
    [null], and rejects everything else.  The properties of the pipeline
    are stated for any codec; this one evaluates them on concrete files. *)

Definition QUOTE : ascii := "034"%char.
Definition BACKSLASH : ascii := "092"%char.

Definition hex_digit (n : nat) : ascii :=
  nth n (list_ascii_of_string "0123456789abcdef") "0"%char.

Definition json_escape (c : ascii) : string :=
  let n := nat_of_ascii c in
  let esc (x : ascii) := String BACKSLASH (String x EmptyString) in
  if Ascii.eqb c QUOTE then esc QUOTE
  else if Ascii.eqb c BACKSLASH then esc BACKSLASH
  else if Nat.eqb n 8 then esc "b"%char
  else if Nat.eqb n 9 then esc "t"%char
  else if Nat.eqb n 10 then esc "n"%char
  else if Nat.eqb n 12 then esc "f"%char
  else if Nat.eqb n 13 then esc "r"%char
  else if (32 <=? n)%nat && (n <=? 126)%nat then String c EmptyString
  else String BACKSLASH
         (String "u" (String "0" (String "0"
           (String (hex_digit (n / 16)) (String (hex_digit (n mod 16))
              EmptyString))))).

Fixpoint json_escape_all (s : string) : string :=
  match s with
  | EmptyString => EmptyString
  | String c s' => json_escape c +:+ json_escape_all s'
  end.

Definition json_string (s : string) : string :=
  String QUOTE (json_escape_all s +:+ String QUOTE EmptyString).

Definition json_scalar (v : scalar) : string :=
  match v with
  | SNone => "null"
  | SInt n => py_str n
  | SStr s => json_string s
  end.

Fixpoint ref_json_dumps (v : entry) : string :=
  match v with
  | JNull => "null"
  | JBool b => if b then "true" else "false"
  | JInt n => py_str n
  | JFloat repr => repr
  | JString s => json_string s
  | JArray items =>
      "[" +:+ String.concat ", " (map ref_json_dumps items) +:+ "]"
  | JObject members =>
      "{" +:+ String.concat ", "
                ((fun kv => json_string kv.1 +:+ ": " +:+ json_scalar kv.2)
                   <$> members)
          +:+ "}"
  end.

Inductive token : Type :=
| TLBrace | TRBrace | TLBracket | TRBracket | TColon | TComma
| TNull
| TBool (b : bool)
| TInt (n : Z)
| TStr (s : string).

Inductive lex_mode : Type :=
| LIdle
| LStr (acc : list ascii)
| LEsc (acc : list ascii)
| LHex (acc : list ascii) (digits : list ascii)
| LNum (acc : list ascii)
| LWord (acc : list ascii).

Definition string_of_rev (acc : list ascii) : string :=
  string_of_list_ascii (rev acc).

Definition is_json_space (c : ascii) : bool :=
  match nat_of_ascii c with
  | 9 | 10 | 13 | 32 => true
  | _ => false
  end%nat.

Definition is_lower (c : ascii) : bool :=
  let n := nat_of_ascii c in (97 <=? n)%nat && (n <=? 122)%nat.

Definition hex_value (c : ascii) : option nat :=
  let n := nat_of_ascii c in
  if (48 <=? n)%nat && (n <=? 57)%nat then Some (n - 48)%nat
  else if (97 <=? n)%nat && (n <=? 102)%nat then Some (n - 87)%nat
  else if (65 <=? n)%nat && (n <=? 70)%nat then Some (n - 55)%nat
  else None.

(** A number token: an optional minus sign, then a single zero or a
    digit string that does not start with zero. *)
Definition finish_number (acc : list ascii) : option token :=
  let lit := string_of_rev acc in
  let magnitude (s : string) : option Z :=
    match s with
    | EmptyString => None
    | String "0" (String _ _) => None
    | _ => Z.of_uint <$> NilEmpty.uint_of_string s
    end in
  match lit with
  | String "-" body => (fun n => TInt (- n)) <$> magnitude body
  | _ => TInt <$> magnitude lit
  end.

Definition finish_word (acc : list ascii) : option token :=
  let word := string_of_rev acc in
  if String.eqb word "null" then Some TNull
  else if String.eqb word "true" then Some (TBool true)
  else if String.eqb word "false" then Some (TBool false)
  else None.

(** What a character does outside any token: the token it completes, if
    any, and the mode it leaves the lexer in. *)
Definition lex_idle (c : ascii) : option (list token * lex_mode) :=
  if is_json_space c then Some ([], LIdle)
  else if Ascii.eqb c "{" then Some ([TLBrace], LIdle)
  else if Ascii.eqb c "}" then Some ([TRBrace], LIdle)
  else if Ascii.eqb c "[" then Some ([TLBracket], LIdle)
  else if Ascii.eqb c "]" then Some ([TRBracket], LIdle)
  else if Ascii.eqb c ":" then Some ([TColon], LIdle)
  else if Ascii.eqb c "," then Some ([TComma], LIdle)
  else if Ascii.eqb c QUOTE then Some ([], LStr [])
  else if Ascii.eqb c "-" || is_digit c then Some ([], LNum [c])
  else if is_lower c then Some ([], LWord [c])
  else None.

Definition unescape (c : ascii) : option ascii :=
  if Ascii.eqb c QUOTE || Ascii.eqb c BACKSLASH || Ascii.eqb c "/"
  then Some c
  else if Ascii.eqb c "b" then Some (ascii_of_nat 8)
  else if Ascii.eqb c "t" then Some (ascii_of_nat 9)
  else if Ascii.eqb c "n" then Some (ascii_of_nat 10)
  else if Ascii.eqb c "f" then Some (ascii_of_nat 12)
  else if Ascii.eqb c "r" then Some (ascii_of_nat 13)
  else None.

Fixpoint lex (mode : lex_mode) (s : string) : option (list token) :=
  match s with
  | EmptyString =>
      match mode with
      | LIdle => Some []
      | LNum acc => (fun t => [t]) <$> finish_number acc
      | LWord acc => (fun t => [t]) <$> finish_word acc
      | _ => None
      end
  | String c s' =>
      match mode with
      | LIdle =>
          '(ts, mode') ← lex_idle c;
          (fun rest => ts ++ rest) <$> lex mode' s'
      | LStr acc =>
          if Ascii.eqb c QUOTE
          then (fun rest => TStr (string_of_rev acc) :: rest) <$> lex LIdle s'
          else if Ascii.eqb c BACKSLASH then lex (LEsc acc) s'
          else if (nat_of_ascii c <? 32)%nat then None
          else lex (LStr (c :: acc)) s'
      | LEsc acc =>
          if Ascii.eqb c "u" then lex (LHex acc []) s'
          else c' ← unescape c; lex (LStr (c' :: acc)) s'
      | LHex acc digits =>
          h ← hex_value c;
          match digits with
          | [d2; d1; d0] =>
              h2 ← hex_value d2; h1 ← hex_value d1; h0 ← hex_value d0;
              if Nat.eqb h0 0 && Nat.eqb h1 0
              then lex (LStr (ascii_of_nat (16 * h2 + h) :: acc)) s'
              else None
          | _ => lex (LHex acc (c :: digits)) s'
          end
      | LNum acc =>
          if is_digit c then lex (LNum (c :: acc)) s'
          else
            t ← finish_number acc;
            '(ts, mode') ← lex_idle c;
            (fun rest => t :: ts ++ rest) <$> lex mode' s'
      | LWord acc =>
          if is_lower c then lex (LWord (c :: acc)) s'
          else
            t ← finish_word acc;
            '(ts, mode') ← lex_idle c;
            (fun rest => t :: ts ++ rest) <$> lex mode' s'
      end
  end.

Definition scalar_of_token (t : token) : option scalar :=
  match t with
  | TNull => Some SNone
  | TInt n => Some (SInt n)
  | TStr s => Some (SStr s)
  | _ => None
  end.

(** [d[key] = v] on the association list: a key keeps its first place. *)
Fixpoint dict_setitem (d : list (string * scalar)) (key : string)
    (v : scalar) : list (string * scalar) :=
  match d with
  | [] => [(key, v)]
  | (k, w) :: rest =>
      if String.eqb k key then (k, v) :: rest
      else (k, w) :: dict_setitem rest key v
  end.

(** The members of an object, after its opening brace. *)
Fixpoint parse_members (d : list (string * scalar)) (ts : list token)
    : option entry :=
  match ts with
  | TStr k :: TColon :: t :: more =>
      v ← scalar_of_token t;
      match more with
      | [TRBrace] => Some (JObject (dict_setitem d k v))
      | TComma :: more' => parse_members (dict_setitem d k v) more'
      | _ => None
      end
  | _ => None
  end.

Definition atom_of_token (t : token) : option entry :=
  match t with
  | TNull => Some JNull
  | TBool b => Some (JBool b)
  | TInt n => Some (JInt n)
  | TStr s => Some (JString s)
  | _ => None
  end.

(** The items of an array, after its opening bracket. *)
Fixpoint parse_items (items : list entry) (ts : list token) : option entry :=
  match ts with
  | t :: more =>
      v ← atom_of_token t;
      match more with
      | [TRBracket] => Some (JArray (items ++ [v]))
      | TComma :: more' => parse_items (items ++ [v]) more'
      | _ => None
      end
  | _ => None
  end.

Definition ref_json_loads (s : string) : option entry :=
  ts ← lex LIdle s;
  match ts with
  | [TLBrace; TRBrace] => Some (JObject [])
  | TLBrace :: members => parse_members [] members
  | [TLBracket; TRBracket] => Some (JArray [])
  | TLBracket :: items => parse_items [] items
  | [t] => atom_of_token t
  | _ => None
  end.

(** ** The Stream Reader: [stream_jsonl] *)

Section Reader.

Context {V : Type}.

(** [json.loads], of the standard library: [None] where it raises
    [JSONDecodeError]. *)
Variable json_loads : string → option (json V).

Fixpoint stream_jsonl_lines (lines : list string) : generator (json V) :=
  match lines with
  | [] => ([], None)
  | line :: rest =>
      match json_loads (py_strip line) with
      | None => ([], Some JSONDecodeError)
      | Some entry =>
          match py_contains "page_id" entry with
          | Raise e => ([], Some e)
          | Ok found =>
              if negb found
              then stream_jsonl_lines rest
              else gen_yield entry (stream_jsonl_lines rest)
          end
      end
  end.

Definition stream_jsonl (file_path : string)
    (fs : gmap string (list byte)) : generator (json V) :=
  match gzip_read_lines file_path fs with
  | (_, Ok lines) => stream_jsonl_lines lines
  | (_, Raise e) => ([], Some e)
  end.

End Reader.

Section Pipeline.

(** [json.loads] and [json.dumps], of the standard library; [json_loads]
    is [None] where [json.loads] raises. *)
Variable json_loads : string → option entry.
Variable json_dumps : entry → string.

(** [process_documents], of [sciphi.llm.embedding_helpers], which splits
    the documents of a batch into sentence rows. *)
Variable process_documents : list scalar → list scalar → result DataFrame.

(** [model.encode(texts, normalize_embeddings=True, ...)] *)
Variable encode : list string → ndarray.

(** *** The Metadata Store *)

Definition save_metadata_to_file (metadata : list entry)
    (file_name : string) : IO unit :=
  gzip_open_at file_name;;
  io_for metadata (fun entry =>
    gzip_append file_name (json_dumps entry +:+ String LF EmptyString)).

(** *** Reading both stores back *)

(** The [for i, line in enumerate(f)] loop: [Some] when [metadata] was
    assigned before the loop ended. *)
Fixpoint scan_metadata (i : Z) (lines : list string) (idx : Z)
    : result (option entry) :=
  match lines with
  | [] => Ok None
  | line :: rest =>
      if i =? idx then
        match json_loads (py_strip line) with
        | Some metadata => Ok (Some metadata)
        | None => Raise JSONDecodeError
        end
      else scan_metadata (i + 1) rest idx
  end.

Definition fetch_embedding_and_metadata (embeddings_file : string)
    (metadata_file : string) (idx : Z) : IO (ndarray * entry) :=
  shape ← _load_shape_from_file embeddings_file;
  memmap_array ← np_memmap_r embeddings_file float32 shape;
  embedding ← io_lift (nd_getitem memmap_array idx);
  lines ← gzip_read_lines metadata_file;
  found ← io_lift (scan_metadata 0 lines idx);
  match found with
  | Some metadata => mret (embedding, metadata)
  | None => io_raise UnboundLocalError
  end.

(** *** The Pipeline Driver *)

Section Driver.

Variable chunk_size : Z.
Variable batch_size : Z.
Variable embeddings_output_path : string.
Variable metadata_output_path : string.

(** The body of [if len(document_ids) == batch_size:], up to the
    reset of the lists. *)
Definition flush (st : driver_state) : IO unit :=
  df ← io_lift (process_documents (documents st) (document_ids st));
  chunks ← io_lift (reconstitute_sentences_into_chunks
                      df (ids_to_titles st) chunk_size true false);
  let chunk_embedding := encode (chunk_text <$> chunks) in
  save_embeddings_to_memmap chunk_embedding embeddings_output_path;;
  let metadata_list := metadata_of_chunk <$> chunks in
  save_metadata_to_file metadata_list metadata_output_path.

(** The three statements that add [entry] to the batch. *)
Definition accumulate (st : driver_state) (entry : entry)
    : result driver_state :=
  page_id ← dict_getitem entry "page_id";
  text ← dict_getitem entry "text";
  title ← dict_getitem entry "title";
  Ok {| document_ids := document_ids st ++ [page_id];
        documents := documents st ++ [text];
        ids_to_titles := <[page_id := title]> (ids_to_titles st) |}.

(** One iteration of [for entry in stream_jsonl(file_path)]. *)
Definition driver_step (st : driver_state) (entry : entry)
    : IO driver_state :=
  st ← io_lift (accumulate st entry);
  if Z.of_nat (length (document_ids st)) =? batch_size
  then flush st;; mret driver_init
  else mret st.

Fixpoint driver_loop (st : driver_state) (entries : list entry)
    : IO driver_state :=
  match entries with
  | [] => mret st
  | entry :: rest =>
      st ← driver_step st entry;
      driver_loop st rest
  end.

(** [main]; the input file is read as it was when [main] started. *)
Definition main (file_path : string) : IO unit :=
  fun fs =>
    let stream := stream_jsonl json_loads file_path fs in
    match driver_loop driver_init stream.1 fs with
    | (fs', Ok _) =>
        match stream.2 with
        | None => (fs', Ok tt)
        | Some e => (fs', Raise e)
        end
    | (fs', Raise e) => (fs', Raise e)
    end.

End Driver.

End Pipeline.

(** ** Sample inputs and notions used in the statements *)

Definition mk_row (d : Z) (s : string) : SentenceRow :=
  {| row_document_id := SInt d; row_text := s |}.

Definition titles_AB : gmap scalar scalar :=
  <[SInt 2 := SStr "B"]> (<[SInt 1 := SStr "A"]> ∅).

(** The sum of [len(sentence)] over the rows. *)
Definition total_length (df : DataFrame) : nat :=
  sum_list ((fun row => String.length (row_text row)) <$> df).

(** The buffer after more sentences were added to it without a close. *)
Definition buffer_extend (buffer : string) (sentences : list string)
    : string :=
  fold_left
    (fun b s => (if py_bool b then b +:+ " " else b) +:+ s)
    sentences buffer.

(** Two chunker states with the same buffer and tags. *)
Definition same_buffer (st1 st2 : chunker_state) : Prop :=
  current_chunk st1 = current_chunk st2
  ∧ current_length st1 = current_length st2
  ∧ title st1 = title st2
  ∧ document_id st1 = document_id st2.

(** Every character of a string passes a test. *)
Fixpoint string_forall (P : ascii → bool) (s : string) : bool :=
  match s with
  | EmptyString => true
  | String c s' => P c && string_forall P s'
  end.

(** A text without line breaks, as [json.dumps] writes it. *)
Definition single_line (s : string) : bool :=
  string_forall (fun c => negb (Ascii.eqb c LF) && negb (Ascii.eqb c CR)) s.

(** The text of the sidecar of an array of a given shape. *)
Definition shape_text (shape : list nat) : string :=
  String.concat "," ((fun k => py_str (Z.of_nat k)) <$> shape).

(** A file of ASCII bytes.  Every encoding Python reads text with by
    default decodes such a file to one character per byte. *)
Definition is_ascii_text (bytes : list byte) : bool :=
  forallb (fun b => (Byte.to_N b <? 128)%N) bytes.

(** ["page_id" in v] is true. *)
Definition holds_page_id {V : Type} (v : json V) : bool :=
  match py_contains "page_id" v with
  | Ok found => found
  | Raise _ => false
  end.

(** The lines a gzip text file holds. *)
Definition stored_lines (bytes : list byte) : list string :=
  file_lines (universal_newlines false (string_of_list_byte bytes)).

(** The text [save_metadata_to_file] writes for a list of entries. *)
Definition metadata_text (json_dumps : entry → string)
    (metadata : list entry) : string :=
  foldr (fun e rest => (json_dumps e +:+ String LF EmptyString) +:+ rest)
    EmptyString metadata.

(** The array [np.memmap(..., dtype="float32", ...)] sees in the file
    that holds the buffer of [a]. *)
Definition nd_view_float32 (a : ndarray) : ndarray :=
  {| nd_dtype := float32;
     nd_shape := nd_shape a;
     nd_data := take (nd_nbytes float32 (nd_shape a)) (nd_data a) |}.

(** An array whose buffer repeats one byte. *)
Definition nd_filled (dt : dtype) (shape : list nat) (b : byte) : ndarray :=
  {| nd_dtype := dt; nd_shape := shape;
     nd_data := replicate (nd_nbytes dt shape) b |}.

(** Two rows of two float32 items, and an entry for each row. *)
Definition sample_embeddings : ndarray :=
  {| nd_dtype := float32; nd_shape := [2; 2]%nat;
     nd_data := [x01; x02; x03; x04; x05; x06; x07; x08;
                 x09; x0a; x0b; x0c; x0d; x0e; x0f; x10] |}.

Definition sample_metadata : list entry :=
  [metadata_of_chunk (SInt 1, SStr "A", "first chunk");
   metadata_of_chunk (SInt 2, SStr "B", title_prefixed (SStr "B") "second")].

(** One row of one float64 item. *)
Definition sample_float64 : ndarray :=
  {| nd_dtype := float64; nd_shape := [1; 1]%nat;
     nd_data := [x01; x02; x03; x04; x05; x06; x07; x08] |}.

(** ** The driver, batch by batch

    The batches as the specification describes them: the records are
    taken [batch_size] at a time, each full group is flushed, and what is
    left at the end of the input is not. *)

(** A Document Record: an entry with the three fields the driver reads. *)
Definition is_document_record (e : entry) : bool :=
  dict_contains "page_id" e && dict_contains "text" e
  && dict_contains "title" e.

(** The lists the driver holds after it has added the entries of [batch]
    to the lists of [st]. *)
Fixpoint collect_from (st : driver_state) (batch : list entry)
    : result driver_state :=
  match batch with
  | [] => Ok st
  | e :: rest => st' ← accumulate st e; collect_from st' rest
  end.

Definition collect (batch : list entry) : result driver_state :=
  collect_from driver_init batch.

Fixpoint full_batches_aux {A : Type} (fuel n : nat) (l : list A)
    : list (list A) :=
  match fuel with
  | O => []
  | S fuel' =>
      if Nat.eqb n 0 || (length l <? n)%nat then []
      else take n l :: full_batches_aux fuel' n (drop n l)
  end.

(** The full groups of [batch_size] consecutive items of [l]. *)
Definition full_batches {A : Type} (batch_size : Z) (l : list A)
    : list (list A) :=
  full_batches_aux (length l) (Z.to_nat batch_size) l.

Fixpoint trailing_batch_aux {A : Type} (fuel n : nat) (l : list A) : list A :=
  match fuel with
  | O => l
  | S fuel' =>
      if Nat.eqb n 0 || (length l <? n)%nat then l
      else trailing_batch_aux fuel' n (drop n l)
  end.

(** The items of [l] after its last full group. *)
Definition trailing_batch {A : Type} (batch_size : Z) (l : list A) : list A :=
  trailing_batch_aux (length l) (Z.to_nat batch_size) l.

Section Batches.

Variable json_dumps : entry → string.
Variable process_documents : list scalar → list scalar → result DataFrame.
Variable encode : list string → ndarray.
Variable chunk_size : Z.
Variable embeddings_output_path : string.
Variable metadata_output_path : string.

(** The chunks of a batch. *)
Definition batch_chunks (batch : list entry) : result (list Chunk) :=
  st ← collect batch;
  df ← process_documents (documents st) (document_ids st);
  reconstitute_sentences_into_chunks
    df (ids_to_titles st) chunk_size true false.

(** Chunk, embed and persist one batch. *)
Definition flush_batch (batch : list entry) : IO unit :=
  st ← io_lift (collect batch);
  flush json_dumps process_documents encode chunk_size
    embeddings_output_path metadata_output_path st.

End Batches.

(** A [process_documents] that makes one sentence row of each document. *)
Definition one_sentence_per_document (documents document_ids : list scalar)
    : result DataFrame :=
  Ok (zip_with
        (fun d t => {| row_document_id := d; row_text := py_format t |})
        document_ids documents).

(** An embedder that gives every text the same two float32 items. *)
Definition constant_encode (texts : list string) : ndarray :=
  nd_filled float32 [length texts; 2%nat] x01.

Definition sample_record (page_id : Z) (title text : string) : entry :=
  JObject
    [("page_id", SInt page_id); ("title", SStr title); ("text", SStr text)].

(** Five records whose texts are four characters long. *)
Definition five_records : list entry :=
  [sample_record 1 "A" "aaaa"; sample_record 2 "B" "bbbb";
   sample_record 3 "C" "cccc"; sample_record 4 "D" "dddd";
   sample_record 5 "E" "eeee"].

(** The file that holds the given lines. *)
Definition gzip_of_lines (lines : list string) : list byte :=
  list_byte_of_string
    (foldr (fun l rest => (l +:+ String LF EmptyString) +:+ rest)
       EmptyString lines).

Definition five_records_file : list byte :=
  gzip_of_lines (ref_json_dumps <$> five_records).

(** Lines that hold the JSON string "page_id", an array with that
    string in it, and the JSON number 5. *)
Definition lines_without_objects : list string :=
  [ref_json_dumps (JString "page_id");
   ref_json_dumps (JArray [JInt 1; JString "page_id"]);
   ref_json_dumps (JInt 5)].

(** Lines of two records, of the JSON string "no page_id here" and of a
    third record. *)
Definition records_with_string_file : list byte :=
  gzip_of_lines
    [ref_json_dumps (sample_record 1 "A" "aaaa");
     ref_json_dumps (sample_record 2 "B" "bbbb");
     ref_json_dumps (JString "no page_id here");
     ref_json_dumps (sample_record 3 "C" "cccc")].

(** Lines of three records, of an entry without [page_id] and, fourth,
    of something that is not JSON. *)
Definition mixed_lines : list string :=
  [ref_json_dumps (sample_record 1 "A" "aaaa");
   ref_json_dumps (JObject [("title", SStr "no id")]);
   ref_json_dumps (sample_record 2 "B" "bbbb");
   "not json";
   ref_json_dumps (sample_record 3 "C" "cccc")].

(** The disk after the sample rows and entries were saved. *)
Definition sample_store : gmap string (list byte) :=
  ((save_embeddings_to_memmap sample_embeddings "embeddings.bin";;
    save_metadata_to_file ref_json_dumps sample_metadata "metadata.json.gz")
     ∅).1.

(** ** Notions used in the further properties *)

(** [s] occurs in [t]. *)
Definition is_substring (s t : string) : Prop :=
  ∃ pre post, t = pre +:+ s +:+ post.

(** A chunk with its text cut as [truncate_long_chunks] cuts it. *)
Definition truncate_chunk (chunk_size : Z) (c : Chunk) : Chunk :=
  (c.1, py_slice_to c.2 chunk_size).

(** A computation that leaves every file outside [paths] as it was,
    whether it returns or raises. *)
Definition io_touches_only {A : Type} (paths : list string) (m : IO A)
    : Prop :=
  ∀ (fs : gmap string (list byte)) (p : string),
    p ∉ paths → (m fs).1 !! p = fs !! p.

(** A computation that can only add bytes at the end of the file at
    [path] (a missing file counting as empty), whether it returns or
    raises. *)
Definition io_appends_to {A : Type} (path : string) (m : IO A) : Prop :=
  ∀ (fs : gmap string (list byte)),
    ∃ suffix,
      default [] ((m fs).1 !! path) = default [] (fs !! path) ++ suffix.

(** Rows of three documents; document 3 has no title in [titles_AB]. *)
Definition rows_with_unknown_document : DataFrame :=
  [mk_row 1 "aaaa"; mk_row 3 "cccc"; mk_row 2 "bbbb"].

(** One row of one float16 item. *)
Definition sample_float16 : ndarray :=
  {| nd_dtype := float16; nd_shape := [1; 1]%nat;
     nd_data := [x01; x02] |}.

(** A second batch for the sample store: one row and its entry. *)
Definition second_embeddings : ndarray :=
  {| nd_dtype := float32; nd_shape := [1; 2]%nat;
     nd_data := [x21; x22; x23; x24; x25; x26; x27; x28] |}.

Definition second_metadata : list entry :=
  [metadata_of_chunk (SInt 3, SStr "C", "third chunk")].

(** Lines of two records, of an entry that has a [page_id] but neither
    [title] nor [text], and of a third record. *)
Definition records_with_gap : list entry :=
  [sample_record 1 "A" "aaaa"; sample_record 2 "B" "bbbb";
   JObject [("page_id", SInt 9)]; sample_record 3 "C" "cccc"].

Definition records_with_gap_file : list byte :=
  gzip_of_lines (ref_json_dumps <$> records_with_gap).

(** * Properties *)

(** ** Strings *)

Lemma string_app_nil_l (s : string) : EmptyString +:+ s = s.
Proof. reflexivity. Qed.

Lemma string_app_cons (c : ascii) (s1 s2 : string) :
  String c s1 +:+ s2 = String c (s1 +:+ s2).
Proof. reflexivity. Qed.

Lemma string_app_nil_r (s : string) : s +:+ EmptyString = s.
Proof.
  induction s as [|c s IH]; [done |]. by rewrite string_app_cons, IH.
Qed.

Lemma string_app_assoc (s1 s2 s3 : string) :
  (s1 +:+ s2) +:+ s3 = s1 +:+ (s2 +:+ s3).
Proof.
  induction s1 as [|c s1 IH]; [done |]. by rewrite !string_app_cons, IH.
Qed.

Lemma string_length_app (s1 s2 : string) :
  String.length (s1 +:+ s2) = (String.length s1 + String.length s2)%nat.
Proof.
  induction s1 as [|c s1 IH]; [done |].
  rewrite string_app_cons. simpl. by rewrite IH.
Qed.

(** [s[:n]] for [n >= 0] is the prefix of [s] of [min(n, len(s))]
    characters. *)
Lemma str_take_prefix (n : nat) (s : string) :
  ∃ cut, s = str_take n s +:+ cut
         ∧ String.length (str_take n s) = Nat.min n (String.length s).
Proof.
  revert s. induction n as [|n IH]; intros [|c s]; simpl.
  - by exists EmptyString.
  - by exists (String c s).
  - by exists EmptyString.
  - destruct (IH s) as (cut & Hcut & Hlen). exists cut.
    rewrite string_app_cons. split; [by f_equal | by rewrite Hlen].
Qed.

Lemma py_slice_to_prefix (s : string) (n : Z) :
  0 <= n →
  ∃ cut, s = py_slice_to s n +:+ cut
         ∧ String.length (py_slice_to s n)
           = Nat.min (Z.to_nat n) (String.length s).
Proof.
  intros Hn. unfold py_slice_to. destruct (Z.leb_spec 0 n); [|lia].
  apply str_take_prefix.
Qed.

Lemma py_bool_app_r (s1 s2 : string) : py_bool s1 = true → py_bool (s1 +:+ s2) = true.
Proof. by destruct s1. Qed.

Lemma concat_space_cons (b x : string) (rest : list string) :
  String.concat " " ((b +:+ " " +:+ x) :: rest)
  = b +:+ " " +:+ String.concat " " (x :: rest).
Proof.
  destruct rest as [|y rest]; simpl; [done |].
  by rewrite !string_app_assoc.
Qed.

Lemma buffer_extend_concat (b : string) (rest : list string) :
  py_bool b = true →
  buffer_extend b rest = String.concat " " (b :: rest).
Proof.
  revert b. induction rest as [|x rest IH]; intros b Hb; [done |].
  unfold buffer_extend in *. simpl fold_left. rewrite Hb.
  rewrite string_app_assoc, IH by by apply py_bool_app_r.
  rewrite concat_space_cons. done.
Qed.

(** ** The Chunker *)

Lemma total_length_cons (row : SentenceRow) (df : DataFrame) :
  total_length (row :: df)
  = (String.length (row_text row) + total_length df)%nat.
Proof. reflexivity. Qed.

Section Chunker.

Variable ids_to_titles : gmap scalar scalar.
Variable chunk_size : Z.
Variables prepend truncate : bool.

Local Abbreviation step :=
  (chunker_step ids_to_titles chunk_size prepend truncate).
Local Abbreviation loop :=
  (chunker_loop ids_to_titles chunk_size prepend truncate).

(** A row whose sentence overflows the buffer closes it, and the closed
    chunk carries the id and title of that row. *)
Lemma chunker_step_close (st : chunker_state) (row : SentenceRow)
    (tl : scalar) :
  ids_to_titles !! row_document_id row = Some tl →
  chunk_size < Z.of_nat (current_length st + String.length (row_text row)) →
  ∃ st', step st row = Ok st'
    ∧ chunks st' =
        chunks st ++
          [(row_document_id row, tl,
            if truncate then py_slice_to (current_chunk st) chunk_size
            else current_chunk st)]
    ∧ current_chunk st' =
        (if prepend then title_prefixed tl (row_text row)
         else row_text row).
Proof.
  intros Htl Hover. unfold chunker_step. rewrite Htl.
  destruct (Z.ltb_spec chunk_size
    (Z.of_nat (current_length st + String.length (row_text row)))); [|lia].
  eexists. split; [reflexivity |]. done.
Qed.

(** A row whose sentence fits is added to the buffer and closes
    nothing, whatever its document id. *)
Lemma chunker_step_fits (st : chunker_state) (row : SentenceRow)
    (tl : scalar) :
  ids_to_titles !! row_document_id row = Some tl →
  Z.of_nat (current_length st + String.length (row_text row)) <= chunk_size →
  ∃ st', step st row = Ok st'
    ∧ chunks st' = chunks st
    ∧ current_chunk st' = buffer_extend (current_chunk st) [row_text row]
    ∧ current_length st' =
        (current_length st + String.length (row_text row))%nat
    ∧ title st' = tl
    ∧ document_id st' = row_document_id row.
Proof.
  intros Htl Hfit. unfold chunker_step. rewrite Htl.
  destruct (Z.ltb_spec chunk_size
    (Z.of_nat (current_length st + String.length (row_text row)))); [lia|].
  eexists. split; [reflexivity |]. done.
Qed.

Lemma chunker_loop_fits (d tl : scalar) (df : DataFrame)
    (st : chunker_state) :
  Forall (fun row => row_document_id row = d) df →
  ids_to_titles !! d = Some tl →
  Z.of_nat (current_length st + total_length df) <= chunk_size →
  ∃ st', loop st df = Ok st'
    ∧ chunks st' = chunks st
    ∧ current_chunk st' =
        buffer_extend (current_chunk st) (row_text <$> df)
    ∧ (df ≠ [] → title st' = tl ∧ document_id st' = d).
Proof.
  revert st. induction df as [|row df IH]; intros st Hd Htl Hfit.
  - exists st. done.
  - apply Forall_cons in Hd as [Hrow Hd].
    rewrite total_length_cons in Hfit.
    destruct (chunker_step_fits st row tl)
      as (st1 & Hst1 & Hc & Hb & Hl & Ht & Hi).
    { by rewrite Hrow. }
    { lia. }
    destruct (IH st1 Hd Htl) as (st2 & Hst2 & Hc2 & Hb2 & Hlast).
    { rewrite Hl. lia. }
    exists st2. simpl. rewrite Hst1. simpl.
    split; [done |]. split; [congruence |]. split.
    + rewrite Hb2, Hb. done.
    + intros _. destruct df as [|row' df'].
      * simpl in Hst2. injection Hst2 as <-. by rewrite Ht, Hi, Hrow.
      * by apply Hlast.
Qed.

End Chunker.

(** [truncate_long_chunks] has no effect on the buffer. *)
Lemma chunker_loop_same_buffer (ids_to_titles : gmap scalar scalar)
    (chunk_size : Z) (prepend t1 t2 : bool) (df : DataFrame)
    (st1 st2 st1' : chunker_state) :
  same_buffer st1 st2 →
  chunker_loop ids_to_titles chunk_size prepend t1 st1 df = Ok st1' →
  ∃ st2', chunker_loop ids_to_titles chunk_size prepend t2 st2 df = Ok st2'
    ∧ same_buffer st1' st2'.
Proof.
  revert st1 st2. induction df as [|row df IH]; intros st1 st2 Hsame Hrun.
  - simpl in Hrun. injection Hrun as <-. by exists st2.
  - simpl in Hrun.
    destruct (chunker_step _ _ _ t1 st1 row) as [st1a|e] eqn:Hstep;
      [|discriminate].
    simpl in Hrun.
    assert (∃ st2a, chunker_step ids_to_titles chunk_size prepend t2 st2 row
                    = Ok st2a ∧ same_buffer st1a st2a) as (st2a & Hstep2 & Ha).
    { destruct Hsame as (Hb & Hl & Ht & Hi).
      unfold chunker_step in *. rewrite <- Hb, <- Hl.
      destruct (ids_to_titles !! row_document_id row) as [tl|];
        [|discriminate].
      destruct (chunk_size <? _); injection Hstep as <-;
        eexists; (split; [reflexivity |]); done. }
    destruct (IH st1a st2a Ha Hrun) as (st2' & Hrun2 & Hsame').
    exists st2'. simpl. rewrite Hstep2. done.
Qed.

Lemma final_flush_same_buffer (st1 st2 : chunker_state) :
  same_buffer st1 st2 → final_flush st1 = final_flush st2.
Proof.
  intros (Hb & _ & Ht & Hi). unfold final_flush. by rewrite Hb, Ht, Hi.
Qed.

(** Truncation changes the texts of the closed chunks and nothing else. *)
Lemma chunker_loop_truncation (ids_to_titles : gmap scalar scalar)
    (chunk_size : Z) (prepend : bool) (df : DataFrame)
    (st st0 st0' : chunker_state) :
  chunker_loop ids_to_titles chunk_size prepend false st0 df = Ok st0' →
  same_buffer st st0 →
  chunks st = truncate_chunk chunk_size <$> chunks st0 →
  ∃ st',
    chunker_loop ids_to_titles chunk_size prepend true st df = Ok st'
    ∧ same_buffer st' st0'
    ∧ chunks st' = truncate_chunk chunk_size <$> chunks st0'.
Proof.
  revert st st0. induction df as [|row df IH]; intros st st0 Hrun Hsame Hc.
  - simpl in Hrun. injection Hrun as <-. by exists st.
  - simpl in Hrun.
    destruct (chunker_step _ _ _ _ st0 row) as [st0a|e] eqn:Hstep;
      [|discriminate].
    simpl in Hrun.
    assert (∃ sta,
      chunker_step ids_to_titles chunk_size prepend true st row = Ok sta
      ∧ same_buffer sta st0a
      ∧ chunks sta = truncate_chunk chunk_size <$> chunks st0a)
      as (sta & Hsta & Hsame' & Hc').
    { destruct Hsame as (Hb & Hl & Ht & Hi).
      unfold chunker_step in *. rewrite Hb, Hl.
      destruct (ids_to_titles !! row_document_id row) as [tl|];
        [|discriminate].
      destruct (chunk_size <? _); injection Hstep as <-;
        eexists; (split; [reflexivity |]); (split; [done |]); simpl.
      - by rewrite Hc, fmap_app.
      - done. }
    destruct (IH sta st0a Hrun Hsame' Hc') as (st' & Hrun' & H1 & H2).
    exists st'. simpl. rewrite Hsta. done.
Qed.

(** Rows whose sentences fit together are all added to one buffer,
    whatever their document ids; the tags are those of the last row. *)
Lemma chunker_loop_fits_any (ids_to_titles : gmap scalar scalar)
    (chunk_size : Z) (prepend truncate : bool) (df : DataFrame)
    (st : chunker_state) :
  Forall (fun row => is_Some (ids_to_titles !! row_document_id row)) df →
  Z.of_nat (current_length st + total_length df) <= chunk_size →
  ∃ st',
    chunker_loop ids_to_titles chunk_size prepend truncate st df = Ok st'
    ∧ chunks st' = chunks st
    ∧ current_chunk st' = buffer_extend (current_chunk st) (row_text <$> df)
    ∧ (∀ row, last df = Some row →
         document_id st' = row_document_id row
         ∧ ids_to_titles !! row_document_id row = Some (title st')).
Proof.
  revert st. induction df as [|row df IH]; intros st Hdf Hfit.
  - exists st. by repeat split.
  - apply Forall_cons in Hdf as [[tl Htl] Hdf].
    rewrite total_length_cons in Hfit.
    destruct (chunker_step_fits ids_to_titles chunk_size prepend truncate
                st row tl Htl) as (st1 & Hst1 & Hc & Hb & Hl & Ht & Hi);
      [lia |].
    destruct (IH st1 Hdf) as (st2 & Hst2 & Hc2 & Hb2 & Hlast);
      [rewrite Hl; lia |].
    exists st2. simpl. rewrite Hst1. simpl.
    split; [done |]. split; [congruence |]. split.
    + by rewrite Hb2, Hb.
    + intros r Hr. destruct df as [|row' df'].
      * simpl in Hr, Hst2. injection Hr as <-. injection Hst2 as <-.
        by rewrite Hi, Ht.
      * apply Hlast. by rewrite last_cons_cons in Hr.
Qed.


(** C3: a row whose sentence overflows the buffer closes it as a chunk
    tagged with the document id and title of that same row, the one
    that triggered the close, whatever rows the buffer came from.  On
    rows (1, aaaa), (2, bbbb) with [chunk_size = 5] the second row closes
    the buffer that holds the sentence of document 1, and the closed
    chunk is tagged with document 2 and its title B, not with the id and
    title of the previous row. *)
Theorem closed_chunk_tagged_with_closing_row :
  (∀ (ids_to_titles : gmap scalar scalar) (chunk_size : Z)
     (prepend truncate : bool) (st : chunker_state) (row : SentenceRow)
     (tl : scalar),
      ids_to_titles !! row_document_id row = Some tl →
      chunk_size
        < Z.of_nat (current_length st + String.length (row_text row)) →
      ∃ st',
        chunker_step ids_to_titles chunk_size prepend truncate st row = Ok st'
        ∧ chunks st' =
            chunks st ++
              [(row_document_id row, tl,
                if truncate then py_slice_to (current_chunk st) chunk_size
                else current_chunk st)])
  ∧ reconstitute_sentences_into_chunks
      [mk_row 1 "aaaa"; mk_row 2 "bbbb"] titles_AB 5 true false
    = Ok [(SInt 2, SStr "B", "aaaa");
          (SInt 2, SStr "B",
           title_prefixed (SStr "B") (title_prefixed (SStr "B") "bbbb"))].
Proof.
  split; [|reflexivity].
  intros ids_to_titles chunk_size prepend truncate st row tl Htl Hover.
  destruct (chunker_step_close ids_to_titles chunk_size prepend truncate
              st row tl Htl Hover) as (st' & Hstep & Hchunks & _).
  by exists st'.
Qed.

Lemma closed_chunk_tagged_with_closing_row_witness :
  ∃ st',
    chunker_step titles_AB 5 true false
      {| chunks := []; current_chunk := "aaaa"; current_length := 4;
         title := SStr "A"; document_id := SInt 1 |}
      (mk_row 2 "bbbb") = Ok st'
    ∧ chunks st' = [(SInt 2, SStr "B", "aaaa")].
Proof.
  destruct closed_chunk_tagged_with_closing_row as [Hstep _].
  apply (Hstep titles_AB 5 true false
           {| chunks := []; current_chunk := "aaaa"; current_length := 4;
              title := SStr "A"; document_id := SInt 1 |}
           (mk_row 2 "bbbb") (SStr "B")).
  - reflexivity.
  - simpl. lia.
Defined.

(** C4: the chunker never looks at a change of document.  Rows whose
    sentences fit in [chunk_size] together end up in one chunk, whatever
    documents they belong to: its text is all their sentences joined by
    single spaces behind the title prefix, and it is tagged with the
    document and the title of the last row.  On rows (1, aa), (2, bb)
    with [chunk_size = 512] the one chunk returned holds the sentence of
    document 1 and is tagged with document 2 and its title B; no new
    chunk began where the input moved to document 2. *)
Theorem fitting_rows_share_one_chunk (first : SentenceRow)
    (rest : DataFrame) (final : SentenceRow)
    (ids_to_titles : gmap scalar scalar) (chunk_size : Z)
    (prepend truncate : bool) (tl : scalar) :
  Forall (fun row => is_Some (ids_to_titles !! row_document_id row))
    (first :: rest) →
  last (first :: rest) = Some final →
  ids_to_titles !! row_document_id final = Some tl →
  row_text first ≠ EmptyString →
  Z.of_nat (total_length (first :: rest)) <= chunk_size →
  reconstitute_sentences_into_chunks
    (first :: rest) ids_to_titles chunk_size prepend truncate
  = Ok [(row_document_id final, tl,
         title_prefixed tl (String.concat " " (row_text <$> first :: rest)))].
Proof.
  intros Hdf Hfinal Htl Hfirst Hfit.
  destruct (chunker_loop_fits_any ids_to_titles chunk_size prepend truncate
              (first :: rest) chunker_init Hdf Hfit)
    as (st & Hrun & Hc & Hb & Hlast).
  destruct (Hlast final Hfinal) as [Hi Ht].
  assert (title st = tl) as Htitle by congruence.
  unfold reconstitute_sentences_into_chunks. rewrite Hrun. simpl.
  rewrite Hc. simpl.
  assert (current_chunk st = String.concat " " (row_text <$> first :: rest))
    as Hjoin.
  { rewrite Hb. rewrite fmap_cons. unfold buffer_extend. simpl fold_left.
    rewrite string_app_nil_l. apply buffer_extend_concat.
    by destruct (row_text first). }
  unfold final_flush. rewrite Htitle, Hi, Hjoin.
  replace (py_bool _) with true; [done |].
  rewrite fmap_cons. destruct (row_text first) as [|c s] eqn:E; [done |].
  by destruct (row_text <$> rest).
Qed.

Lemma fitting_rows_share_one_chunk_witness :
  reconstitute_sentences_into_chunks
    [mk_row 1 "aa"; mk_row 2 "bb"] titles_AB 512 true false
  = Ok [(SInt 2, SStr "B", title_prefixed (SStr "B") "aa bb")].
Proof.
  apply (fitting_rows_share_one_chunk
           (mk_row 1 "aa") [mk_row 2 "bb"] (mk_row 2 "bb") titles_AB 512
           true false (SStr "B")).
  - repeat (constructor; [eexists; reflexivity |]). constructor.
  - reflexivity.
  - reflexivity.
  - discriminate.
  - vm_compute. discriminate.
Defined.

(** C7, as stated, fails twice.  A single empty sentence gives no chunk
    at all; and with [prepend_title_to_each_chunk] unset the one chunk
    still starts with the title. *)
Lemma one_document_counterexamples :
  reconstitute_sentences_into_chunks
    [mk_row 1 EmptyString] titles_AB 512 true false = Ok []
  ∧ reconstitute_sentences_into_chunks
      [mk_row 1 "hello"; mk_row 1 "world"] titles_AB 512 false false
    = Ok [(SInt 1, SStr "A", title_prefixed (SStr "A") "hello world")].
Proof. split; reflexivity. Qed.

(** C7, amended: for rows of one document whose title is known, the
    first sentence not empty and the sentence lengths summing to at most
    [chunk_size], the chunker with [prepend_title_to_each_chunk] set
    returns exactly one chunk, tagged with the document and its title,
    whose text is the title prefix followed by all the sentences joined
    by single spaces. *)
Theorem one_fitting_document_one_chunk (first : SentenceRow)
    (rest : DataFrame) (ids_to_titles : gmap scalar scalar)
    (chunk_size : Z) (truncate : bool) (d tl : scalar) :
  Forall (fun row => row_document_id row = d) (first :: rest) →
  ids_to_titles !! d = Some tl →
  row_text first ≠ EmptyString →
  Z.of_nat (total_length (first :: rest)) <= chunk_size →
  reconstitute_sentences_into_chunks
    (first :: rest) ids_to_titles chunk_size true truncate
  = Ok [(d, tl,
         title_prefixed tl (String.concat " " (row_text <$> first :: rest)))].
Proof.
  intros Hd Htl Hfirst Hfit.
  destruct (chunker_loop_fits ids_to_titles chunk_size true truncate d tl
              (first :: rest) chunker_init Hd Htl Hfit)
    as (st & Hrun & Hc & Hb & Hlast).
  destruct Hlast as [Ht Hi]; [done |].
  unfold reconstitute_sentences_into_chunks. rewrite Hrun. simpl.
  rewrite Hc. simpl.
  assert (current_chunk st = String.concat " " (row_text <$> first :: rest))
    as Hjoin.
  { rewrite Hb. rewrite fmap_cons. unfold buffer_extend. simpl fold_left.
    rewrite string_app_nil_l. apply buffer_extend_concat.
    by destruct (row_text first). }
  unfold final_flush. rewrite Ht, Hi, Hjoin.
  replace (py_bool _) with true; [done |].
  rewrite fmap_cons. destruct (row_text first) as [|c s] eqn:E; [done |].
  by destruct (row_text <$> rest).
Qed.

Lemma one_fitting_document_one_chunk_witness :
  reconstitute_sentences_into_chunks
    [mk_row 1 "hello"; mk_row 1 "world"] titles_AB 512 true false
  = Ok [(SInt 1, SStr "A", title_prefixed (SStr "A") "hello world")].
Proof.
  apply (one_fitting_document_one_chunk
           (mk_row 1 "hello") [mk_row 1 "world"] titles_AB 512 false
           (SInt 1) (SStr "A")).
  - repeat constructor.
  - reflexivity.
  - discriminate.
  - vm_compute. discriminate.
Defined.

(** C8, as stated, fails for a negative chunk size: [text[:-1]] drops
    the last character of the closed text, and what is left has more
    than [chunk_size] characters. *)
Lemma negative_chunk_size_is_no_bound :
  reconstitute_sentences_into_chunks
    [mk_row 1 "hello"; mk_row 1 "world"] titles_AB (-1) false true
  = Ok [(SInt 1, SStr "A", EmptyString); (SInt 1, SStr "A", "hell");
        (SInt 1, SStr "A", title_prefixed (SStr "A") "world")]
  ∧ ¬ Z.of_nat (String.length "hell") <= -1.
Proof. split; [reflexivity | simpl; lia]. Qed.

(** C8, amended: for a chunk size that is not negative, the chunker with
    [truncate_long_chunks] set returns the chunks it returns without it,
    with the same ids and titles in the same order, except that the text
    of every chunk closed in the loop is cut to its first [chunk_size]
    characters, and is whole when it has no more than that; the chunk
    flushed after the loop is the same in both runs, the title prefix
    followed by the whole buffer, of whatever length. *)
Theorem truncation_spares_final_chunk (df : DataFrame)
    (ids_to_titles : gmap scalar scalar) (chunk_size : Z) (prepend : bool)
    (st0 : chunker_state) :
  0 <= chunk_size →
  chunker_loop ids_to_titles chunk_size prepend false chunker_init df
    = Ok st0 →
  ∃ closed,
    reconstitute_sentences_into_chunks
      df ids_to_titles chunk_size prepend true
      = Ok (closed ++ final_flush st0)
    ∧ reconstitute_sentences_into_chunks
        df ids_to_titles chunk_size prepend false
      = Ok (chunks st0 ++ final_flush st0)
    ∧ Forall2
        (fun c c0 =>
           chunk_document_id c = chunk_document_id c0
           ∧ chunk_title c = chunk_title c0
           ∧ (∃ cut, chunk_text c0 = chunk_text c +:+ cut)
           ∧ String.length (chunk_text c)
             = Nat.min (Z.to_nat chunk_size) (String.length (chunk_text c0)))
        closed (chunks st0)
    ∧ (∀ c, c ∈ final_flush st0 →
         chunk_text c = title_prefixed (title st0) (current_chunk st0)
         ∧ String.length (chunk_text c)
           = (String.length (py_format (title st0)) + 2
              + String.length (current_chunk st0))%nat).
Proof.
  intros Hsize Hrun0.
  destruct (chunker_loop_truncation ids_to_titles chunk_size prepend df
              chunker_init chunker_init st0 Hrun0)
    as (st & Hrun & Hsame & Hc); [done | done |].
  exists (truncate_chunk chunk_size <$> chunks st0).
  unfold reconstitute_sentences_into_chunks. rewrite Hrun, Hrun0. simpl.
  rewrite Hc, (final_flush_same_buffer _ _ Hsame).
  split; [done |]. split; [done |]. split.
  - apply Forall2_fmap_l, Forall_Forall2_diag, Forall_forall.
    intros [[d tl] text] _. simpl.
    unfold chunk_document_id, chunk_title, chunk_text. simpl.
    split; [done |]. split; [done |].
    destruct (py_slice_to_prefix text chunk_size Hsize) as (cut & Hcut & Hlen).
    split; [by exists cut | done].
  - intros c Hc'. unfold final_flush in Hc'.
    destruct (py_bool _); [|by apply elem_of_nil in Hc'].
    apply list_elem_of_singleton in Hc' as ->. split; [done |].
    unfold chunk_text, title_prefixed. simpl.
    rewrite !string_length_app. simpl. lia.
Qed.

Lemma truncation_spares_final_chunk_witness :
  reconstitute_sentences_into_chunks
    [mk_row 1 "hello"; mk_row 1 "world"; mk_row 1 "wide"]
    titles_AB 3 false true
  = Ok [(SInt 1, SStr "A", EmptyString); (SInt 1, SStr "A", "hel");
        (SInt 1, SStr "A", "wor");
        (SInt 1, SStr "A", title_prefixed (SStr "A") "wide")]
  ∧ ∃ closed,
      reconstitute_sentences_into_chunks
        [mk_row 1 "hello"; mk_row 1 "world"; mk_row 1 "wide"]
        titles_AB 3 false true
      = Ok (closed ++ [(SInt 1, SStr "A", title_prefixed (SStr "A") "wide")])
      ∧ Forall2
          (fun c c0 =>
             chunk_document_id c = chunk_document_id c0
             ∧ chunk_title c = chunk_title c0
             ∧ (∃ cut, chunk_text c0 = chunk_text c +:+ cut)
             ∧ String.length (chunk_text c)
               = Nat.min 3 (String.length (chunk_text c0)))
          closed
          [(SInt 1, SStr "A", EmptyString); (SInt 1, SStr "A", "hello");
           (SInt 1, SStr "A", "world")].
Proof.
  split; [reflexivity |].
  destruct (truncation_spares_final_chunk
              [mk_row 1 "hello"; mk_row 1 "world"; mk_row 1 "wide"]
              titles_AB 3 false
              {| chunks := [(SInt 1, SStr "A", EmptyString);
                            (SInt 1, SStr "A", "hello");
                            (SInt 1, SStr "A", "world")];
                 current_chunk := "wide"; current_length := 4;
                 title := SStr "A"; document_id := SInt 1 |})
    as (closed & Htrue & _ & Hclosed & _).
  - lia.
  - reflexivity.
  - exists closed. split; [exact Htrue | exact Hclosed].
Defined.

(** ** Text: digits, splitting, stripping, lines *)

Lemma string_forall_impl (P Q : ascii → bool) (s : string) :
  (∀ c, P c = true → Q c = true) →
  string_forall P s = true → string_forall Q s = true.
Proof.
  intros HPQ. induction s as [|c s IH]; simpl; [done |].
  intros [Hc Hs]%andb_true_iff. apply andb_true_iff. auto.
Qed.

Lemma string_forall_app (P : ascii → bool) (s1 s2 : string) :
  string_forall P (s1 +:+ s2) = string_forall P s1 && string_forall P s2.
Proof.
  induction s1 as [|c s1 IH]; [done |].
  rewrite string_app_cons. simpl. by rewrite IH, andb_assoc.
Qed.

Lemma digits_of_uint (d : Decimal.uint) :
  string_forall is_digit (NilEmpty.string_of_uint d) = true.
Proof. induction d; simpl; done. Qed.

Lemma is_digit_cases (c : ascii) :
  is_digit c = true →
  is_space c = false ∧ Ascii.eqb c "_" = false ∧ Ascii.eqb c "," = false
  ∧ Ascii.eqb c "+" = false ∧ Ascii.eqb c "-" = false.
Proof.
  destruct c as [[] [] [] [] [] [] [] []]; simpl; intros H;
    try discriminate H; repeat split; reflexivity.
Qed.

Lemma py_lstrip_digits (s : string) :
  string_forall is_digit s = true → py_lstrip s = s.
Proof.
  destruct s as [|c s]; simpl; [done |].
  intros [Hc _]%andb_true_iff.
  by destruct (is_digit_cases c Hc) as (-> & _).
Qed.

Lemma py_rstrip_digits (s : string) :
  string_forall is_digit s = true → py_rstrip s = s.
Proof.
  induction s as [|c s IH]; simpl; [done |].
  intros [Hc Hs]%andb_true_iff. rewrite (IH Hs).
  destruct (is_digit_cases c Hc) as (-> & _). by destruct s.
Qed.

Lemma int_digits_digits (s : string) :
  string_forall is_digit s = true → int_digits true s = Some s.
Proof.
  induction s as [|c s IH]; simpl; [done |].
  intros [Hc Hs]%andb_true_iff.
  destruct (is_digit_cases c Hc) as (_ & -> & _).
  by rewrite Hc, (IH Hs).
Qed.

Lemma py_int_of_uint (d : Decimal.uint) :
  d ≠ Decimal.Nil →
  py_int (NilEmpty.string_of_uint d) = Ok (Z.of_uint d).
Proof.
  intros Hd. pose proof (digits_of_uint d) as Hdig.
  pose proof (NilEmpty.usu d) as Husu.
  unfold py_int, py_strip.
  rewrite (py_rstrip_digits _ Hdig), (py_lstrip_digits _ Hdig).
  destruct (NilEmpty.string_of_uint d) as [|c s] eqn:E.
  { destruct d; discriminate || done. }
  simpl in Hdig. apply andb_true_iff in Hdig as [Hc Hs].
  assert (int_unsigned (String c s) = Some (Z.of_uint d)) as Hint.
  { unfold int_unsigned. simpl int_digits.
    destruct (is_digit_cases c Hc) as (_ & -> & _).
    rewrite Hc, (int_digits_digits s Hs).
    cbn -[NilEmpty.uint_of_string]. by rewrite Husu. }
  destruct (is_digit_cases c Hc) as (_ & _ & _ & Hplus & Hminus).
  destruct c as [[] [] [] [] [] [] [] []]; try discriminate;
    by rewrite Hint.
Qed.

Lemma py_int_py_str (n : nat) : py_int (py_str (Z.of_nat n)) = Ok (Z.of_nat n).
Proof.
  unfold py_str. destruct (Z.of_nat n) as [|p|p] eqn:E; [done | | lia].
  simpl. rewrite py_int_of_uint by apply DecimalPos.Unsigned.to_uint_nonnil.
  unfold Z.of_uint. by rewrite DecimalPos.Unsigned.of_to.
Qed.

Lemma py_str_nat_no_comma (n : nat) :
  string_forall (fun c => negb (Ascii.eqb c ",")) (py_str (Z.of_nat n)) = true.
Proof.
  apply (string_forall_impl is_digit).
  { intros c Hc. by destruct (is_digit_cases c Hc) as (_ & _ & -> & _). }
  unfold py_str. destruct (Z.of_nat n) as [|p|p] eqn:E; [done | | lia].
  apply digits_of_uint.
Qed.

Lemma py_split_app (sep : ascii) (s t : string) :
  string_forall (fun c => negb (Ascii.eqb c sep)) s = true →
  py_split sep (s +:+ String sep t) = s :: py_split sep t.
Proof.
  induction s as [|c s IH]; intros Hs.
  - rewrite string_app_nil_l. simpl. by rewrite Ascii.eqb_refl.
  - simpl in Hs. apply andb_true_iff in Hs as [Hc Hs].
    rewrite string_app_cons. simpl. rewrite (IH Hs).
    by destruct (Ascii.eqb c sep).
Qed.

Lemma py_split_none (sep : ascii) (s : string) :
  string_forall (fun c => negb (Ascii.eqb c sep)) s = true →
  py_split sep s = [s].
Proof.
  induction s as [|c s IH]; simpl; [done |].
  intros [Hc Hs]%andb_true_iff. rewrite (IH Hs).
  by destruct (Ascii.eqb c sep).
Qed.

Lemma py_split_concat (sep : ascii) (parts : list string) :
  parts ≠ [] →
  Forall (fun s =>
    string_forall (fun c => negb (Ascii.eqb c sep)) s = true) parts →
  py_split sep (String.concat (String sep EmptyString) parts) = parts.
Proof.
  induction parts as [|x parts IH]; [done |]. intros _ Hparts.
  apply Forall_cons in Hparts as [Hx Hparts].
  destruct parts as [|y parts].
  - simpl. by apply py_split_none.
  - change (String.concat (String sep EmptyString) (x :: y :: parts))
      with (x +:+ String sep (String.concat (String sep EmptyString)
                               (y :: parts))).
    rewrite py_split_app by done. by rewrite IH.
Qed.

(** Reading a sidecar text back gives the shape that wrote it. *)
Lemma shape_text_parses (shape : list nat) :
  shape ≠ [] →
  result_map py_int (py_split "," (shape_text shape)) = Ok (Z.of_nat <$> shape).
Proof.
  intros Hshape. unfold shape_text. rewrite py_split_concat.
  - clear Hshape. induction shape as [|k shape IH]; [done |].
    rewrite !fmap_cons. simpl. rewrite py_int_py_str. simpl.
    by rewrite IH.
  - by destruct shape.
  - apply Forall_fmap, Forall_forall. intros k _. apply py_str_nat_no_comma.
Qed.

Lemma py_rstrip_app_LF (s : string) :
  py_rstrip (s +:+ String LF EmptyString) = py_rstrip s.
Proof.
  induction s as [|c s IH]; [done |].
  rewrite string_app_cons. simpl. by rewrite IH.
Qed.

Lemma py_strip_app_LF (s : string) :
  py_strip (s +:+ String LF EmptyString) = py_strip s.
Proof. unfold py_strip. by rewrite py_rstrip_app_LF. Qed.

Lemma universal_newlines_single_line (s t : string) :
  single_line s = true →
  universal_newlines false (s +:+ t) = s +:+ universal_newlines false t.
Proof.
  induction s as [|c s IH]; [done |]. simpl.
  intros [[Hlf Hcr]%andb_true_iff Hs]%andb_true_iff.
  rewrite string_app_cons. simpl.
  apply negb_true_iff in Hlf, Hcr. rewrite Hlf, Hcr. by rewrite IH.
Qed.

Lemma file_lines_single_line (s t : string) :
  single_line s = true →
  file_lines (s +:+ String LF t) = (s +:+ String LF EmptyString) :: file_lines t.
Proof.
  induction s as [|c s IH].
  - intros _. rewrite !string_app_nil_l. simpl. done.
  - simpl. intros [[Hlf Hcr]%andb_true_iff Hs]%andb_true_iff.
    rewrite !string_app_cons. simpl. apply negb_true_iff in Hlf.
    by rewrite Hlf, (IH Hs).
Qed.

Lemma list_byte_of_string_app (s t : string) :
  list_byte_of_string (s +:+ t)
  = list_byte_of_string s ++ list_byte_of_string t.
Proof.
  induction s as [|c s IH]; [done |].
  rewrite string_app_cons. unfold list_byte_of_string in *. simpl.
  by rewrite IH.
Qed.

(** ** The [IO] monad *)

Lemma io_bind_ok {A B : Type} (m : IO A) (f : A → IO B)
    (fs fs' : gmap string (list byte)) (a : A) :
  m fs = (fs', Ok a) → (m ≫= f) fs = f a fs'.
Proof. intros H. unfold mbind, IO_bind. by rewrite H. Qed.

Lemma io_bind_raise {A B : Type} (m : IO A) (f : A → IO B)
    (fs fs' : gmap string (list byte)) (e : exn) :
  m fs = (fs', Raise e) → (m ≫= f) fs = (fs', Raise e).
Proof. intros H. unfold mbind, IO_bind. by rewrite H. Qed.

(** ** The Embedding Store *)

Lemma shape_path_ne (file_name : string) : shape_path file_name ≠ file_name.
Proof.
  intros H. apply (f_equal String.length) in H.
  unfold shape_path in H. rewrite string_length_app in H. simpl in H. lia.
Qed.

Lemma itemsize_pos (dt : dtype) : (0 < itemsize dt)%nat.
Proof. destruct dt; simpl; lia. Qed.

(** Saving an array that is not empty writes the sidecar and makes the
    buffer of the array the binary file. *)
Lemma save_embeddings_to_memmap_ok (embeddings : ndarray)
    (file_name : string) (fs : gmap string (list byte)) :
  nd_nbytes (nd_dtype embeddings) (nd_shape embeddings) ≠ 0%nat →
  save_embeddings_to_memmap embeddings file_name fs
  = (<[file_name := nd_data embeddings]>
       (<[shape_path file_name :=
            list_byte_of_string (shape_text (nd_shape embeddings))]> fs),
     Ok tt).
Proof.
  intros Hsize. unfold save_embeddings_to_memmap.
  unfold mbind, IO_bind, write_text, np_memmap_w, memmap_assign. simpl.
  apply Nat.eqb_neq in Hsize. rewrite Hsize. simpl.
  by rewrite insert_insert_eq.
Qed.

Lemma load_shape_from_file_ok (file_name : string) (shape : list nat)
    (fs : gmap string (list byte)) :
  fs !! shape_path file_name = Some (list_byte_of_string (shape_text shape)) →
  shape ≠ [] →
  _load_shape_from_file file_name fs = (fs, Ok (Z.of_nat <$> shape)).
Proof.
  intros Hfile Hshape. unfold _load_shape_from_file.
  unfold mbind, IO_bind, read_text, io_lift. rewrite Hfile.
  by rewrite string_of_list_byte_of_string, shape_text_parses.
Qed.

Lemma take_drop_take {A : Type} (l : list A) (k r n : nat) :
  (k + r <= n)%nat → take r (drop k (take n l)) = take r (drop k l).
Proof.
  intros Hn. rewrite !take_drop_commute, take_take. do 2 f_equal. lia.
Qed.

Lemma nbytes_of_nat_shape (dt : dtype) (shape : list nat) :
  Z.of_nat (itemsize dt) * foldr Z.mul 1 (Z.of_nat <$> shape)
  = Z.of_nat (nd_nbytes dt shape).
Proof.
  unfold nd_nbytes, nd_size. rewrite Nat2Z.inj_mul. f_equal.
  induction shape as [|k shape IH]; [done |].
  rewrite fmap_cons. cbn [foldr]. by rewrite IH, Nat2Z.inj_mul.
Qed.

Lemma to_nat_of_nat_shape (shape : list nat) :
  Z.to_nat <$> (Z.of_nat <$> shape) = shape.
Proof.
  rewrite <- list_fmap_compose. etrans; [|apply list_fmap_id].
  apply list_fmap_ext. intros _ k _. simpl. lia.
Qed.

Lemma np_memmap_r_ok (file_name : string) (dt : dtype) (shape : list nat)
    (bytes : list byte) (fs : gmap string (list byte)) :
  fs !! file_name = Some bytes →
  bytes ≠ [] →
  (nd_nbytes dt shape <= length bytes)%nat →
  np_memmap_r file_name dt (Z.of_nat <$> shape) fs
  = (fs, Ok {| nd_dtype := dt; nd_shape := shape;
               nd_data := take (nd_nbytes dt shape) bytes |}).
Proof.
  intros Hfile Hne Hlen. unfold np_memmap_r. rewrite Hfile.
  rewrite nbytes_of_nat_shape, to_nat_of_nat_shape.
  destruct (Z.ltb_spec (Z.of_nat (nd_nbytes dt shape)) 0); [lia |].
  destruct bytes as [|b bytes]; [done |]. simpl length.
  destruct (Z.ltb_spec (Z.of_nat (S (length bytes)))
              (Z.of_nat (nd_nbytes dt shape))); [simpl in Hlen; lia |].
  simpl orb. cbv iota.
  replace (existsb _ _) with false; [done |].
  symmetry. apply not_true_is_false. intros (k & Hk & Hneg)%existsb_exists.
  apply in_map_iff in Hk as (k' & <- & _). apply Z.ltb_lt in Hneg. lia.
Qed.

Lemma np_memmap_r_small (file_name : string) (dt : dtype) (shape : list nat)
    (bytes : list byte) (fs : gmap string (list byte)) :
  fs !! file_name = Some bytes →
  bytes = [] ∨ (length bytes < nd_nbytes dt shape)%nat →
  np_memmap_r file_name dt (Z.of_nat <$> shape) fs = (fs, Raise ValueError).
Proof.
  intros Hfile Hsmall. unfold np_memmap_r. rewrite Hfile.
  rewrite nbytes_of_nat_shape.
  destruct (Z.ltb_spec (Z.of_nat (nd_nbytes dt shape)) 0); [lia |].
  replace (_ || _) with true; [done |].
  symmetry. apply orb_true_iff. destruct Hsmall as [-> | Hlt]; [by left |].
  right. apply Z.ltb_lt. lia.
Qed.

Lemma nd_getitem_dtype (a row : ndarray) (idx : Z) :
  nd_getitem a idx = Ok row → nd_dtype row = nd_dtype a.
Proof.
  unfold nd_getitem. destruct (nd_shape a) as [|n rest]; [done |].
  destruct (_ && _); [|done]. by intros [= <-].
Qed.

Lemma nd_getitem_above (a : ndarray) (n : nat) (rest : list nat) (idx : Z) :
  nd_shape a = n :: rest → Z.of_nat n <= idx →
  nd_getitem a idx = Raise IndexError.
Proof.
  intros Hshape Hidx. unfold nd_getitem. rewrite Hshape.
  destruct (Z.ltb_spec idx 0); [lia |].
  destruct (Z.ltb_spec idx (Z.of_nat n)); [lia |].
  by rewrite andb_false_r.
Qed.

Lemma nd_getitem_below (a : ndarray) (n : nat) (rest : list nat) (idx : Z) :
  nd_shape a = n :: rest → 0 <= idx < Z.of_nat n →
  nd_getitem a idx
  = Ok {| nd_dtype := nd_dtype a; nd_shape := rest;
          nd_data :=
            take (nd_nbytes (nd_dtype a) rest)
              (drop (Z.to_nat idx * nd_nbytes (nd_dtype a) rest)
                 (nd_data a)) |}.
Proof.
  intros Hshape Hidx. unfold nd_getitem. rewrite Hshape.
  destruct (Z.ltb_spec idx 0); [lia |].
  destruct (Z.ltb_spec idx (Z.of_nat n)); [|lia].
  destruct (Z.leb_spec 0 idx); [|lia]. done.
Qed.

(** ** The Metadata Store *)

Section Stores.

Variable json_loads : string → option entry.
Variable json_dumps : entry → string.

Lemma io_for_gzip_append (metadata : list entry) (file_name : string)
    (old : list byte) (fs : gmap string (list byte)) :
  fs !! file_name = Some old →
  io_for metadata (fun entry =>
    gzip_append file_name (json_dumps entry +:+ String LF EmptyString)) fs
  = (<[file_name :=
         old ++ list_byte_of_string (metadata_text json_dumps metadata)]> fs,
     Ok tt).
Proof.
  revert old fs. induction metadata as [|e metadata IH]; intros old fs Hold.
  - simpl. rewrite app_nil_r, insert_id by done. done.
  - simpl io_for. unfold mbind, IO_bind. unfold gzip_append at 1.
    rewrite Hold. simpl default.
    rewrite (IH (old ++ list_byte_of_string
                          (json_dumps e +:+ String LF EmptyString)))
      by apply lookup_insert_eq.
    rewrite insert_insert_eq. simpl metadata_text.
    rewrite (list_byte_of_string_app _ (metadata_text json_dumps metadata)).
    by rewrite app_assoc.
Qed.

(** The metadata file grows by the lines of the entries, in order. *)
Lemma save_metadata_to_file_ok (metadata : list entry) (file_name : string)
    (fs : gmap string (list byte)) :
  save_metadata_to_file json_dumps metadata file_name fs
  = (<[file_name :=
         default [] (fs !! file_name)
         ++ list_byte_of_string (metadata_text json_dumps metadata)]> fs,
     Ok tt).
Proof.
  unfold save_metadata_to_file, gzip_open_at.
  unfold mbind, IO_bind. unfold gzip_append at 1.
  rewrite (io_for_gzip_append metadata file_name
             (default [] (fs !! file_name) ++ list_byte_of_string EmptyString))
    by apply lookup_insert_eq.
  rewrite insert_insert_eq. simpl list_byte_of_string.
  by rewrite app_nil_r.
Qed.

Lemma universal_newlines_metadata_text (metadata : list entry) :
  Forall (fun e => single_line (json_dumps e) = true) metadata →
  universal_newlines false (metadata_text json_dumps metadata)
  = metadata_text json_dumps metadata.
Proof.
  induction metadata as [|e metadata IH]; [done |].
  intros [He Hm]%Forall_cons. simpl metadata_text.
  rewrite string_app_assoc, universal_newlines_single_line by done.
  rewrite string_app_cons, string_app_nil_l. simpl universal_newlines.
  by rewrite IH.
Qed.

Lemma file_lines_metadata_text (metadata : list entry) :
  Forall (fun e => single_line (json_dumps e) = true) metadata →
  file_lines (metadata_text json_dumps metadata)
  = (fun e => json_dumps e +:+ String LF EmptyString) <$> metadata.
Proof.
  induction metadata as [|e metadata IH]; [done |].
  intros [He Hm]%Forall_cons. simpl metadata_text.
  rewrite string_app_assoc, string_app_cons, string_app_nil_l.
  rewrite file_lines_single_line by done. by rewrite IH.
Qed.

Lemma stored_lines_metadata_text (metadata : list entry) :
  Forall (fun e => single_line (json_dumps e) = true) metadata →
  stored_lines (list_byte_of_string (metadata_text json_dumps metadata))
  = (fun e => json_dumps e +:+ String LF EmptyString) <$> metadata.
Proof.
  intros Hm. unfold stored_lines.
  rewrite string_of_list_byte_of_string.
  by rewrite universal_newlines_metadata_text, file_lines_metadata_text.
Qed.

Lemma scan_metadata_hit (lines : list string) (line : string)
    (k : Z) (i : nat) :
  lines !! i = Some line →
  scan_metadata json_loads k lines (k + Z.of_nat i)
  = match json_loads (py_strip line) with
    | Some metadata => Ok (Some metadata)
    | None => Raise JSONDecodeError
    end.
Proof.
  revert k i. induction lines as [|l lines IH]; intros k i Hi; [done |].
  destruct i as [|i]; simpl in *.
  - injection Hi as ->. replace (k + Z.of_nat 0) with k by lia.
    by rewrite Z.eqb_refl.
  - destruct (Z.eqb_spec k (k + Z.of_nat (S i))); [lia |].
    replace (k + Z.of_nat (S i)) with (k + 1 + Z.of_nat i) by lia.
    by apply IH.
Qed.

(** [fetch_embedding_and_metadata] only reads: it is the chain of its
    five steps on an unchanged disk. *)
Lemma fetch_unfold (embeddings_file metadata_file : string) (idx : Z)
    (fs : gmap string (list byte)) :
  fetch_embedding_and_metadata json_loads embeddings_file metadata_file
    idx fs
  = match (_load_shape_from_file embeddings_file fs).2 with
    | Raise e => (fs, Raise e)
    | Ok shape =>
        match (np_memmap_r embeddings_file float32 shape fs).2 with
        | Raise e => (fs, Raise e)
        | Ok memmap_array =>
            match nd_getitem memmap_array idx with
            | Raise e => (fs, Raise e)
            | Ok embedding =>
                match fs !! metadata_file with
                | None => (fs, Raise FileNotFoundError)
                | Some bytes =>
                    match scan_metadata json_loads 0 (stored_lines bytes)
                            idx with
                    | Raise e => (fs, Raise e)
                    | Ok None => (fs, Raise UnboundLocalError)
                    | Ok (Some metadata) => (fs, Ok (embedding, metadata))
                    end
                end
            end
        end
    end.
Proof.
  unfold fetch_embedding_and_metadata, _load_shape_from_file,
    gzip_read_lines, stored_lines.
  unfold mbind, IO_bind, mret, IO_ret, read_text, io_lift, io_raise.
  destruct (fs !! shape_path embeddings_file) as [sidecar|]; [|done].
  simpl.
  destruct (result_map py_int _) as [shape|e]; [|done]. simpl.
  unfold np_memmap_r.
  destruct (fs !! embeddings_file) as [bytes|]; [|done].
  destruct (_ <? 0); [done |].
  destruct (_ || _); [done |].
  destruct (existsb _ shape); [done |]. simpl.
  destruct (nd_getitem _ idx) as [embedding|e]; [|done].
  destruct (fs !! metadata_file) as [mbytes|]; [|done].
  destruct (scan_metadata _ _ _ _) as [[m|]|e]; done.
Qed.

Lemma scan_metadata_miss (lines : list string) (k idx : Z) :
  idx < k ∨ k + Z.of_nat (length lines) <= idx →
  scan_metadata json_loads k lines idx = Ok None.
Proof.
  revert k. induction lines as [|l lines IH]; intros k Hidx; [done |].
  simpl in *. destruct (Z.eqb_spec k idx); [lia |].
  apply IH. lia.
Qed.

End Stores.

(** The first save leaves no trace once the second has run. *)
Lemma save_embeddings_to_memmap_twice (a b : ndarray) (file_name : string)
    (fs : gmap string (list byte)) :
  nd_nbytes (nd_dtype a) (nd_shape a) ≠ 0%nat →
  nd_nbytes (nd_dtype b) (nd_shape b) ≠ 0%nat →
  (save_embeddings_to_memmap a file_name;;
   save_embeddings_to_memmap b file_name) fs
  = save_embeddings_to_memmap b file_name fs.
Proof.
  intros Ha Hb.
  rewrite (io_bind_ok _ _ fs _ tt (save_embeddings_to_memmap_ok a _ fs Ha)).
  rewrite !save_embeddings_to_memmap_ok by done. f_equal.
  pose proof (shape_path_ne file_name) as Hne.
  rewrite (insert_insert_ne _ (shape_path file_name) file_name) by done.
  by rewrite !insert_insert_eq.
Qed.

Lemma nd_nbytes_rows (dt : dtype) (n k : nat) :
  (0 < n)%nat → (0 < k)%nat → nd_nbytes dt [n; k] ≠ 0%nat.
Proof.
  intros Hn Hk. unfold nd_nbytes, nd_size. simpl foldr.
  pose proof (itemsize_pos dt). nia.
Qed.

(** C1: after [save_embeddings_to_memmap] of an array of shape (3, 768)
    and then of an array of shape (2, 768) on the same path, the disk is
    the one the second call alone would have left: the sidecar reads
    2,768, and the binary file is the buffer of the second array, 2 * 768
    items long, with nothing of the first. *)
Theorem second_save_replaces_first (a b : ndarray) (file_name : string)
    (fs : gmap string (list byte)) :
  nd_shape a = [3; 768]%nat →
  nd_shape b = [2; 768]%nat →
  nd_wf b →
  let after :=
    (save_embeddings_to_memmap a file_name;;
     save_embeddings_to_memmap b file_name) fs in
  after = save_embeddings_to_memmap b file_name fs
  ∧ after.2 = Ok tt
  ∧ after.1 !! shape_path file_name = Some (list_byte_of_string "2,768")
  ∧ after.1 !! file_name = Some (nd_data b)
  ∧ length (nd_data b) = (2 * 768 * itemsize (nd_dtype b))%nat
  ∧ _load_shape_from_file file_name after.1 = (after.1, Ok [2; 768]).
Proof.
  intros Ha Hb Hwf after.
  assert (nd_nbytes (nd_dtype a) (nd_shape a) ≠ 0%nat) as Hna.
  { rewrite Ha. apply nd_nbytes_rows; lia. }
  assert (nd_nbytes (nd_dtype b) (nd_shape b) ≠ 0%nat) as Hnb.
  { rewrite Hb. apply nd_nbytes_rows; lia. }
  assert (after = save_embeddings_to_memmap b file_name fs) as Hafter.
  { by apply save_embeddings_to_memmap_twice. }
  split; [done |]. rewrite Hafter.
  rewrite save_embeddings_to_memmap_ok by done. simpl fst. simpl snd.
  pose proof (shape_path_ne file_name) as Hne.
  assert (shape_text (nd_shape b) = "2,768") as Htext.
  { rewrite Hb. reflexivity. }
  split; [done |]. split.
  { rewrite lookup_insert_ne by done. rewrite lookup_insert_eq.
    by rewrite Htext. }
  split; [by rewrite lookup_insert_eq |]. split.
  { unfold nd_wf in Hwf. rewrite Hwf, Hb. unfold nd_nbytes, nd_size.
    simpl foldr. lia. }
  rewrite (load_shape_from_file_ok file_name (nd_shape b)).
  - by rewrite Hb.
  - rewrite lookup_insert_ne by done. by rewrite lookup_insert_eq.
  - by rewrite Hb.
Qed.

Lemma second_save_replaces_first_witness :
  let after :=
    (save_embeddings_to_memmap (nd_filled float32 [3; 768]%nat x01)
       "embeddings.bin";;
     save_embeddings_to_memmap (nd_filled float32 [2; 768]%nat x02)
       "embeddings.bin") ∅ in
  after.1 !! "embeddings.bin.shape" = Some (list_byte_of_string "2,768")
  ∧ after.1 !! "embeddings.bin" = Some (replicate (2 * 768 * 4) x02).
Proof.
  pose proof (second_save_replaces_first
                (nd_filled float32 [3; 768]%nat x01)
                (nd_filled float32 [2; 768]%nat x02)
                "embeddings.bin" ∅ eq_refl eq_refl) as H.
  destruct H as (_ & _ & Hsidecar & Hfile & _).
  - vm_compute. reflexivity.
  - split; [exact Hsidecar | exact Hfile].
Defined.

Lemma gzip_read_lines_ok (path : string) (bytes : list byte)
    (fs : gmap string (list byte)) :
  fs !! path = Some bytes →
  gzip_read_lines path fs = (fs, Ok (stored_lines bytes)).
Proof.
  intros H. unfold gzip_read_lines, mbind, IO_bind, read_text. by rewrite H.
Qed.

Lemma nd_view_float32_id (a : ndarray) :
  nd_wf a → nd_dtype a = float32 → nd_view_float32 a = a.
Proof.
  destruct a as [dt shape data]. unfold nd_wf, nd_view_float32. simpl.
  intros Hlen ->. by rewrite <- Hlen, firstn_all.
Qed.

Section StoreRoundTrip.

Variable json_loads : string → option entry.
Variable json_dumps : entry → string.

(** Reading a store whose files are the sidecar and the buffer of [a]:
    the row comes from the float32 view of the buffer. *)
Lemma fetch_from_saved (a : ndarray) (embeddings_file metadata_file : string)
    (idx : Z) (fs : gmap string (list byte)) :
  fs !! shape_path embeddings_file
    = Some (list_byte_of_string (shape_text (nd_shape a))) →
  fs !! embeddings_file = Some (nd_data a) →
  nd_shape a ≠ [] →
  nd_data a ≠ [] →
  (nd_nbytes float32 (nd_shape a) <= length (nd_data a))%nat →
  fetch_embedding_and_metadata json_loads embeddings_file metadata_file
    idx fs
  = match nd_getitem (nd_view_float32 a) idx with
    | Raise e => (fs, Raise e)
    | Ok embedding =>
        match fs !! metadata_file with
        | None => (fs, Raise FileNotFoundError)
        | Some bytes =>
            match scan_metadata json_loads 0 (stored_lines bytes) idx with
            | Raise e => (fs, Raise e)
            | Ok None => (fs, Raise UnboundLocalError)
            | Ok (Some metadata) => (fs, Ok (embedding, metadata))
            end
        end
    end.
Proof.
  intros Hsidecar Hfile Hshape Hdata Hlen. rewrite fetch_unfold.
  rewrite (load_shape_from_file_ok _ (nd_shape a)) by done. simpl.
  by rewrite (np_memmap_r_ok _ float32 (nd_shape a) (nd_data a)).
Qed.

(** C5, amended: a float32 array of [n] rows that are not empty and [n]
    entries are saved, the array with [save_embeddings_to_memmap] and
    the entries with [save_metadata_to_file], to two different paths,
    the metadata file being missing or empty before; the codec writes
    each entry on one line and reads it back.  Then both saves succeed,
    and for every [i < n] the fetch at [i] returns row [i] of the array
    and entry [i] of the list. *)
Theorem fetch_returns_what_was_saved (embeddings : ndarray)
    (metadata : list entry) (embeddings_file metadata_file : string)
    (fs : gmap string (list byte)) (n : nat) (rest : list nat) (i : nat) :
  nd_wf embeddings →
  nd_dtype embeddings = float32 →
  nd_shape embeddings = n :: rest →
  nd_size rest ≠ 0%nat →
  length metadata = n →
  Forall (fun e => json_loads (py_strip (json_dumps e)) = Some e
                   ∧ single_line (json_dumps e) = true) metadata →
  metadata_file ≠ embeddings_file →
  metadata_file ≠ shape_path embeddings_file →
  default [] (fs !! metadata_file) = [] →
  (i < n)%nat →
  ∃ fs' row m,
    (save_embeddings_to_memmap embeddings embeddings_file;;
     save_metadata_to_file json_dumps metadata metadata_file) fs
      = (fs', Ok tt)
    ∧ fetch_embedding_and_metadata json_loads embeddings_file
        metadata_file (Z.of_nat i) fs' = (fs', Ok (row, m))
    ∧ nd_getitem embeddings (Z.of_nat i) = Ok row
    ∧ metadata !! i = Some m.
Proof.
  intros Hwf Hdt Hshape Hrest Hlen Hcodec Hne1 Hne2 Hfresh Hi.
  pose proof (shape_path_ne embeddings_file) as Hsp.
  assert (nd_nbytes (nd_dtype embeddings) (nd_shape embeddings) ≠ 0%nat)
    as Hbytes.
  { rewrite Hshape. unfold nd_nbytes, nd_size. simpl foldr.
    pose proof (itemsize_pos (nd_dtype embeddings)).
    intros [Hz|Hz]%Nat.eq_mul_0; [lia |].
    apply Nat.eq_mul_0 in Hz as [Hz|Hz]; [lia | done]. }
  destruct (lookup_lt_is_Some_2 metadata i) as [m Hm]; [lia |].
  destruct (nd_getitem embeddings (Z.of_nat i)) as [row|e] eqn:Hrow.
  2:{ rewrite (nd_getitem_below embeddings n rest) in Hrow by (done || lia).
      discriminate. }
  eexists _, row, m. split.
  { rewrite (io_bind_ok _ _ fs _ tt
               (save_embeddings_to_memmap_ok embeddings _ fs Hbytes)).
    rewrite save_metadata_to_file_ok.
    rewrite !lookup_insert_ne by done. rewrite Hfresh, app_nil_l.
    reflexivity. }
  split; [|done].
  rewrite (fetch_from_saved embeddings).
  - rewrite (nd_view_float32_id embeddings Hwf Hdt), Hrow.
    rewrite lookup_insert_eq.
    rewrite stored_lines_metadata_text.
    2:{ eapply Forall_impl; [exact Hcodec |]. by intros e [_ He]. }
    replace (Z.of_nat i) with (0 + Z.of_nat i) by lia.
    rewrite (scan_metadata_hit json_loads _
               (json_dumps m +:+ String LF EmptyString)).
    2:{ by rewrite list_lookup_fmap, Hm. }
    rewrite py_strip_app_LF.
    rewrite Forall_forall in Hcodec.
    destruct (Hcodec m) as [-> _]; [by eapply list_elem_of_lookup_2 |].
    done.
  - rewrite !lookup_insert_ne by done. by rewrite lookup_insert_eq.
  - rewrite lookup_insert_ne by done. by rewrite lookup_insert_eq.
  - by rewrite Hshape.
  - intros Hnil. unfold nd_wf in Hwf. rewrite Hnil in Hwf. simpl in Hwf.
    lia.
  - unfold nd_wf in Hwf. rewrite Hwf, Hdt. done.
Qed.

End StoreRoundTrip.

Lemma fetch_returns_what_was_saved_witness :
  ∃ fs' m,
    (save_embeddings_to_memmap sample_embeddings "embeddings.bin";;
     save_metadata_to_file ref_json_dumps sample_metadata "metadata.json.gz")
      ∅ = (fs', Ok tt)
    ∧ fetch_embedding_and_metadata ref_json_loads "embeddings.bin"
        "metadata.json.gz" 1 fs'
      = (fs', Ok ({| nd_dtype := float32; nd_shape := [2%nat];
                     nd_data := [x09; x0a; x0b; x0c; x0d; x0e; x0f; x10] |},
                  m))
    ∧ sample_metadata !! 1%nat = Some m.
Proof.
  destruct (fetch_returns_what_was_saved ref_json_loads ref_json_dumps
              sample_embeddings sample_metadata
              "embeddings.bin" "metadata.json.gz" ∅ 2 [2%nat] 1)
    as (fs' & row & m & Hsave & Hfetch & Hrow & Hm).
  - reflexivity.
  - reflexivity.
  - reflexivity.
  - discriminate.
  - reflexivity.
  - repeat constructor.
  - discriminate.
  - discriminate.
  - reflexivity.
  - lia.
  - exists fs', m. split; [exact Hsave |]. split; [|exact Hm].
    injection Hrow as <-. exact Hfetch.
Defined.

(** C6: on a disk where the sidecar holds a shape of [n] rows, the binary
    file is not empty and holds at least the bytes of that shape, and the
    metadata file exists, a fetch at an index that is at least [n], or at
    least the number of stored metadata lines, returns no data and
    leaves the disk as it was: it raises [IndexError] from the row lookup
    when the index is at least [n], and otherwise, the row being there
    and the line not, [UnboundLocalError] from the return statement. *)
Theorem fetch_beyond_the_end_raises (json_loads : string → option entry)
    (embeddings_file metadata_file : string) (fs : gmap string (list byte))
    (n : nat) (rest : list nat) (bytes mbytes : list byte) (idx : Z) :
  fs !! shape_path embeddings_file
    = Some (list_byte_of_string (shape_text (n :: rest))) →
  fs !! embeddings_file = Some bytes →
  bytes ≠ [] →
  (nd_nbytes float32 (n :: rest) <= length bytes)%nat →
  fs !! metadata_file = Some mbytes →
  Z.of_nat n <= idx ∨ Z.of_nat (length (stored_lines mbytes)) <= idx →
  ∃ e,
    fetch_embedding_and_metadata json_loads embeddings_file metadata_file
      idx fs = (fs, Raise e)
    ∧ (Z.of_nat n <= idx → e = IndexError)
    ∧ (idx < Z.of_nat n → e = UnboundLocalError).
Proof.
  intros Hsidecar Hfile Hne Hlen Hmeta Hidx.
  pose (a := {| nd_dtype := float32; nd_shape := n :: rest;
                nd_data := bytes |}).
  rewrite (fetch_from_saved json_loads a) by done.
  destruct (Z.le_gt_cases (Z.of_nat n) idx) as [Hge | Hlt].
  - rewrite (nd_getitem_above _ n rest) by done.
    exists IndexError. split; [done |]. split; [done | lia].
  - destruct Hidx as [Hidx | Hidx]; [lia |].
    rewrite (nd_getitem_below _ n rest) by (done || lia).
    rewrite Hmeta, scan_metadata_miss by lia.
    exists UnboundLocalError. split; [done |]. split; [lia | done].
Qed.

Lemma fetch_beyond_the_end_raises_witness :
  fetch_embedding_and_metadata ref_json_loads "embeddings.bin"
    "metadata.json.gz" 2 sample_store
  = (sample_store, Raise IndexError).
Proof.
  destruct (fetch_beyond_the_end_raises ref_json_loads "embeddings.bin"
              "metadata.json.gz" sample_store 2 [2%nat]
              (nd_data sample_embeddings)
              (list_byte_of_string
                 (metadata_text ref_json_dumps sample_metadata)) 2)
    as (e & Hfetch & Hindex & _).
  - vm_compute. reflexivity.
  - vm_compute. reflexivity.
  - discriminate.
  - vm_compute. lia.
  - vm_compute. reflexivity.
  - left. lia.
  - rewrite (Hindex ltac:(lia)) in Hfetch. exact Hfetch.
Defined.

(** With more rows than metadata lines, an index between the two counts
    finds its row and no line. *)
Example fetch_beyond_the_lines :
  (fetch_embedding_and_metadata ref_json_loads "embeddings.bin"
     "metadata.json.gz" 1
     ((save_embeddings_to_memmap sample_embeddings "embeddings.bin";;
       save_metadata_to_file ref_json_dumps (take 1 sample_metadata)
         "metadata.json.gz") ∅).1).2
  = Raise UnboundLocalError.
Proof. vm_compute. reflexivity. Qed.

(** C10: saving an array that has an axis and is not empty writes a
    sidecar that is a function of the shape alone and a binary file that
    is the buffer of the array in its own dtype, so of [itemsize] bytes
    an item.  On any disk that holds these two files, a fetch at a row
    index whose metadata line is there and decodes reads the file as
    float32: for a dtype of fewer than four bytes an item it raises
    [ValueError], the file being too short; otherwise it returns, as row,
    the float32 items found where row [i] of a float32 array would be.
    That row is row [i] of the saved array exactly when the dtype of the
    saved array is float32. *)
Theorem sidecar_has_no_dtype (a : ndarray) (file_name : string)
    (fs : gmap string (list byte)) (n : nat) (rest : list nat) :
  nd_wf a →
  nd_shape a = n :: rest →
  nd_nbytes (nd_dtype a) (nd_shape a) ≠ 0%nat →
  let saved := (save_embeddings_to_memmap a file_name fs).1 in
  saved !! shape_path file_name
    = Some (list_byte_of_string (shape_text (nd_shape a)))
  ∧ saved !! file_name = Some (nd_data a)
  ∧ length (nd_data a) = (itemsize (nd_dtype a) * nd_size (nd_shape a))%nat
  ∧ (∀ (json_loads : string → option entry) (metadata_file : string)
       (disk : gmap string (list byte)) (mbytes : list byte) (i : nat)
       (line : string) (m : entry),
      disk !! shape_path file_name = saved !! shape_path file_name →
      disk !! file_name = saved !! file_name →
      disk !! metadata_file = Some mbytes →
      (i < n)%nat →
      stored_lines mbytes !! i = Some line →
      json_loads (py_strip line) = Some m →
      ((itemsize (nd_dtype a) < 4)%nat →
       fetch_embedding_and_metadata json_loads file_name metadata_file
         (Z.of_nat i) disk = (disk, Raise ValueError))
      ∧ ((4 <= itemsize (nd_dtype a))%nat →
         let row :=
           {| nd_dtype := float32; nd_shape := rest;
              nd_data := take (4 * nd_size rest)
                           (drop (i * (4 * nd_size rest)) (nd_data a)) |} in
         fetch_embedding_and_metadata json_loads file_name metadata_file
           (Z.of_nat i) disk = (disk, Ok (row, m))
         ∧ (nd_getitem a (Z.of_nat i) = Ok row ↔ nd_dtype a = float32))).
Proof.
  intros Hwf Hshape Hbytes saved.
  pose proof (shape_path_ne file_name) as Hsp.
  assert (saved !! shape_path file_name
          = Some (list_byte_of_string (shape_text (nd_shape a)))) as Hsidecar.
  { unfold saved. rewrite save_embeddings_to_memmap_ok by done. simpl.
    rewrite lookup_insert_ne by done. by rewrite lookup_insert_eq. }
  assert (saved !! file_name = Some (nd_data a)) as Hfile.
  { unfold saved. rewrite save_embeddings_to_memmap_ok by done. simpl.
    by rewrite lookup_insert_eq. }
  split; [done |]. split; [done |]. split; [exact Hwf |].
  intros json_loads metadata_file disk mbytes i line m Hd1 Hd2 Hmeta Hi
    Hline Hm.
  rewrite Hsidecar in Hd1. rewrite Hfile in Hd2.
  assert (nd_shape a ≠ []) as Hne by (by rewrite Hshape).
  assert (nd_size (nd_shape a) ≠ 0%nat) as Hsize.
  { intros Hz. unfold nd_nbytes in Hbytes. rewrite Hz in Hbytes. lia. }
  unfold nd_wf, nd_nbytes in Hwf.
  split.
  - intros Hnarrow. rewrite fetch_unfold.
    rewrite (load_shape_from_file_ok _ (nd_shape a)) by done. cbn [snd].
    rewrite (np_memmap_r_small _ float32 (nd_shape a) (nd_data a));
      [done.. |].
    right. rewrite Hwf. unfold nd_nbytes. simpl itemsize. nia.
  - intros Hwide row.
    assert (nd_getitem (nd_view_float32 a) (Z.of_nat i) = Ok row) as Hrow.
    { rewrite (nd_getitem_below _ n rest) by (done || lia).
      unfold row, nd_view_float32, nd_nbytes. cbn [nd_dtype nd_data itemsize].
      rewrite Nat2Z.id, Hshape. do 2 f_equal. apply take_drop_take.
      unfold nd_size. cbn [foldr]. fold (nd_size rest). nia. }
    split.
    + rewrite (fetch_from_saved json_loads a); [|done | done | done | |].
      * rewrite Hrow, Hmeta.
        pose proof (scan_metadata_hit json_loads (stored_lines mbytes)
                      line 0 i Hline) as Hscan.
        rewrite Z.add_0_l in Hscan. by rewrite Hscan, Hm.
      * intros Hnil. rewrite Hnil in Hwf. simpl in Hwf.
        pose proof (itemsize_pos (nd_dtype a)). nia.
      * rewrite Hwf. unfold nd_nbytes. simpl itemsize. nia.
    + split.
      * intros Hsame. apply nd_getitem_dtype in Hsame. by simpl in Hsame.
      * intros Hdt. rewrite <- Hrow. f_equal. symmetry.
        apply nd_view_float32_id; [|done]. unfold nd_wf, nd_nbytes. done.
Qed.

Lemma sidecar_has_no_dtype_witness :
  let disk :=
    ((save_embeddings_to_memmap sample_float64 "embeddings.bin";;
      save_metadata_to_file ref_json_dumps (take 1 sample_metadata)
        "metadata.json.gz") ∅).1 in
  disk !! "embeddings.bin.shape" = Some (list_byte_of_string "1,1")
  ∧ disk !! "embeddings.bin" = Some [x01; x02; x03; x04; x05; x06; x07; x08]
  ∧ fetch_embedding_and_metadata ref_json_loads "embeddings.bin"
      "metadata.json.gz" 0 disk
    = (disk,
       Ok ({| nd_dtype := float32; nd_shape := [1%nat];
              nd_data := [x01; x02; x03; x04] |},
           metadata_of_chunk (SInt 1, SStr "A", "first chunk"))).
Proof.
  intros disk.
  destruct (sidecar_has_no_dtype sample_float64 "embeddings.bin" ∅
              1 [1%nat]) as (Hsidecar & Hfile & _ & Hfetch).
  - reflexivity.
  - reflexivity.
  - discriminate.
  - split; [vm_compute; reflexivity |]. split; [vm_compute; reflexivity |].
    destruct (Hfetch ref_json_loads "metadata.json.gz" disk
                (list_byte_of_string
                   (metadata_text ref_json_dumps (take 1 sample_metadata)))
                0%nat
                (ref_json_dumps
                   (metadata_of_chunk (SInt 1, SStr "A", "first chunk"))
                 +:+ String LF EmptyString)
                (metadata_of_chunk (SInt 1, SStr "A", "first chunk")))
      as [_ Hwide].
    + vm_compute. reflexivity.
    + vm_compute. reflexivity.
    + vm_compute. reflexivity.
    + lia.
    + vm_compute. reflexivity.
    + vm_compute. reflexivity.
    + apply (Hwide ltac:(simpl; lia)).
Defined.

(** C5, as stated, fails for an array that is not float32: one row of one
    float64 item is saved with one entry, and the fetch at 0 returns the
    first four of its eight bytes as one float32 item, which is not the
    row that was saved. *)
Lemma float64_row_is_not_returned :
  let saved :=
    (save_embeddings_to_memmap sample_float64 "embeddings.bin";;
     save_metadata_to_file ref_json_dumps (take 1 sample_metadata)
       "metadata.json.gz") ∅ in
  saved.2 = Ok tt
  ∧ nd_getitem sample_float64 0
    = Ok {| nd_dtype := float64; nd_shape := [1%nat];
            nd_data := [x01; x02; x03; x04; x05; x06; x07; x08] |}
  ∧ ∃ row m,
      (fetch_embedding_and_metadata ref_json_loads "embeddings.bin"
         "metadata.json.gz" 0 saved.1).2 = Ok (row, m)
      ∧ row = {| nd_dtype := float32; nd_shape := [1%nat];
                 nd_data := [x01; x02; x03; x04] |}
      ∧ nd_getitem sample_float64 0 ≠ Ok row.
Proof.
  split; [vm_compute; reflexivity |]. split; [vm_compute; reflexivity |].
  eexists _, _. split; [vm_compute; reflexivity |].
  split; [reflexivity | discriminate].
Qed.

(** ** The Stream Reader *)

Section StreamReader.

Context {V : Type}.
Variable json_loads : string → option (json V).

Local Abbreviation parses :=
  (fun (line : string) (e : json V) => json_loads (py_strip line) = Some e).





End StreamReader.




(** ** The Pipeline Driver *)

Lemma member_getitem_has_key {V : Type} (members : list (string * V))
    (key : string) :
  has_key key members = true → ∃ v, member_getitem members key = Ok v.
Proof.
  induction members as [|[k v] members IH]; simpl; [done |].
  destruct (String.eqb k key); [by eexists |]. simpl. exact IH.
Qed.

Lemma dict_getitem_contains {V : Type} (d : json V) (key : string) :
  dict_contains key d = true → ∃ v, dict_getitem d key = Ok v.
Proof.
  destruct d; simpl; try done. apply member_getitem_has_key.
Qed.

Lemma accumulate_ok (st : driver_state) (e : entry) :
  is_document_record e = true →
  ∃ st', accumulate st e = Ok st'
    ∧ length (document_ids st') = S (length (document_ids st)).
Proof.
  unfold is_document_record.
  intros [[Hid Htext]%andb_true_iff Htitle]%andb_true_iff.
  destruct (dict_getitem_contains e _ Hid) as [page_id Hp].
  destruct (dict_getitem_contains e _ Htext) as [text Ht].
  destruct (dict_getitem_contains e _ Htitle) as [title Htl].
  unfold accumulate. rewrite Hp, Ht, Htl. eexists. split; [reflexivity |].
  simpl. rewrite length_app. simpl. lia.
Qed.

Lemma collect_from_app (st : driver_state) (l1 l2 : list entry) :
  collect_from st (l1 ++ l2)
  = st' ← collect_from st l1; collect_from st' l2.
Proof.
  revert st. induction l1 as [|e l1 IH]; intros st; [done |].
  simpl. destruct (accumulate st e) as [st1|err]; [|done]. apply IH.
Qed.

Lemma collect_from_ok (st : driver_state) (l : list entry) :
  Forall (fun e => is_document_record e = true) l →
  ∃ st', collect_from st l = Ok st'
    ∧ length (document_ids st')
      = (length (document_ids st) + length l)%nat.
Proof.
  revert st. induction l as [|e l IH]; intros st Hl.
  - exists st. simpl. split; [done | lia].
  - apply Forall_cons in Hl as [He Hl].
    destruct (accumulate_ok st e He) as (st1 & Hst1 & Hlen1).
    destruct (IH st1 Hl) as (st2 & Hst2 & Hlen2).
    exists st2. simpl. rewrite Hst1. simpl. split; [done |].
    rewrite Hlen2, Hlen1. simpl. lia.
Qed.

Section DriverProperties.

Variable json_dumps : entry → string.
Variable process_documents : list scalar → list scalar → result DataFrame.
Variable encode : list string → ndarray.
Variable chunk_size : Z.
Variable batch_size : Z.
Variable embeddings_output_path : string.
Variable metadata_output_path : string.

Local Abbreviation loop :=
  (driver_loop json_dumps process_documents encode chunk_size batch_size
     embeddings_output_path metadata_output_path).
Local Abbreviation flush_one :=
  (flush_batch json_dumps process_documents encode chunk_size
     embeddings_output_path metadata_output_path).

Lemma driver_loop_cons (st : driver_state) (e : entry)
    (rest : list entry) (fs : gmap string (list byte)) :
  loop st (e :: rest) fs
  = match driver_step json_dumps process_documents encode chunk_size
            batch_size embeddings_output_path metadata_output_path
            st e fs with
    | (fs', Ok st') => loop st' rest fs'
    | (fs', Raise err) => (fs', Raise err)
    end.
Proof. reflexivity. Qed.

(** A step whose count is not [batch_size] only accumulates; one whose
    count is [batch_size] flushes and resets. *)
Lemma driver_step_eq (st st1 : driver_state) (e : entry)
    (fs : gmap string (list byte)) :
  accumulate st e = Ok st1 →
  driver_step json_dumps process_documents encode chunk_size
    batch_size embeddings_output_path metadata_output_path st e fs
  = if Z.of_nat (length (document_ids st1)) =? batch_size
    then match flush json_dumps process_documents encode chunk_size
                 embeddings_output_path metadata_output_path st1 fs with
         | (fs', Ok _) => (fs', Ok driver_init)
         | (fs', Raise err) => (fs', Raise err)
         end
    else (fs, Ok st1).
Proof.
  intros Hacc. unfold driver_step, mbind at 1, IO_bind, io_lift.
  rewrite Hacc. destruct (_ =? _); [|done].
  unfold mbind, IO_bind. by destruct (flush _ _ _ _ _ _ st1 fs) as [? [[]|?]].
Qed.

Lemma driver_loop_app (st : driver_state) (l1 l2 : list entry)
    (fs : gmap string (list byte)) :
  loop st (l1 ++ l2) fs
  = match loop st l1 fs with
    | (fs', Ok st') => loop st' l2 fs'
    | (fs', Raise e) => (fs', Raise e)
    end.
Proof.
  revert st fs. induction l1 as [|e l1 IH]; intros st fs; [done |].
  rewrite <- app_comm_cons, !driver_loop_cons.
  destruct (driver_step _ _ _ _ _ _ _ st e fs) as [fs1 [st1|err]];
    [|done].
  apply IH.
Qed.

(** While no count reaches [batch_size] the driver only accumulates. *)
Lemma driver_loop_accumulating (entries : list entry) (st : driver_state)
    (fs : gmap string (list byte)) :
  Forall (fun e => is_document_record e = true) entries →
  (∀ k, (1 <= k <= length entries)%nat →
        Z.of_nat (length (document_ids st) + k) ≠ batch_size) →
  loop st entries fs = (fs, collect_from st entries).
Proof.
  revert st. induction entries as [|e entries IH]; intros st Hdoc Hsize;
    [done |].
  apply Forall_cons in Hdoc as [He Hdoc].
  destruct (accumulate_ok st e He) as (st1 & Hst1 & Hlen1).
  rewrite driver_loop_cons, (driver_step_eq st st1) by done.
  destruct (Z.eqb_spec (Z.of_nat (length (document_ids st1))) batch_size)
    as [Heq | _].
  { exfalso. apply (Hsize 1%nat); [simpl; lia |]. rewrite <- Heq, Hlen1.
    lia. }
  simpl collect_from. rewrite Hst1. simpl. apply IH; [done |].
  intros k Hk. rewrite Hlen1.
  replace (S (length (document_ids st)) + k)%nat
    with (length (document_ids st) + S k)%nat by lia.
  apply Hsize. simpl. lia.
Qed.

(** A group of exactly [batch_size] records is flushed at its last
    record, and the lists are reset. *)
Lemma driver_loop_full_batch (batch : list entry)
    (fs : gmap string (list byte)) :
  batch ≠ [] →
  Z.of_nat (length batch) = batch_size →
  Forall (fun e => is_document_record e = true) batch →
  loop driver_init batch fs
  = match flush_one batch fs with
    | (fs', Ok _) => (fs', Ok driver_init)
    | (fs', Raise e) => (fs', Raise e)
    end.
Proof.
  intros Hne Hlen Hdoc.
  destruct (exists_last Hne) as (front & last & ->).
  apply Forall_app in Hdoc as [Hfront Hlast].
  rewrite Forall_singleton in Hlast.
  rewrite length_app in Hlen. simpl in Hlen.
  rewrite driver_loop_app.
  rewrite driver_loop_accumulating; [|done |].
  2:{ intros k Hk. simpl. lia. }
  destruct (collect_from_ok driver_init front Hfront)
    as (st1 & Hst1 & Hlen1).
  destruct (accumulate_ok st1 last Hlast) as (st2 & Hst2 & Hlen2).
  rewrite Hst1, driver_loop_cons, (driver_step_eq st1 st2) by done.
  destruct (Z.eqb_spec (Z.of_nat (length (document_ids st2))) batch_size)
    as [_ | Hneq].
  2:{ exfalso. apply Hneq. rewrite Hlen2, Hlen1. simpl. lia. }
  unfold flush_batch, collect.
  rewrite collect_from_app, Hst1. simpl. rewrite Hst2.
  unfold mbind, IO_bind, io_lift, result_bind.
  by destruct (flush _ _ _ _ _ _ st2 fs) as [fs' [[]|err]].
Qed.

(** The driver is the flush of each full batch in turn; it ends with
    the records of the trailing batch in its lists and nothing done
    with them. *)
Lemma driver_loop_batches (fuel : nat) (entries : list entry)
    (fs : gmap string (list byte)) :
  (length entries <= fuel)%nat →
  Forall (fun e => is_document_record e = true) entries →
  loop driver_init entries fs
  = match io_for (full_batches_aux fuel (Z.to_nat batch_size) entries)
            flush_one fs with
    | (fs', Ok _) =>
        (fs',
         collect (trailing_batch_aux fuel (Z.to_nat batch_size) entries))
    | (fs', Raise e) => (fs', Raise e)
    end.
Proof.
  revert entries fs. induction fuel as [|fuel IH]; intros entries fs Hfuel Hdoc.
  { destruct entries; [done | simpl in Hfuel; lia]. }
  simpl.
  destruct (Nat.eqb (Z.to_nat batch_size) 0
            || (length entries <? Z.to_nat batch_size)%nat) eqn:Hsmall.
  - simpl. apply driver_loop_accumulating; [done |].
    intros k Hk. simpl.
    apply orb_true_iff in Hsmall as [Hz | Hlt].
    + apply Nat.eqb_eq in Hz. lia.
    + apply Nat.ltb_lt in Hlt. lia.
  - apply orb_false_iff in Hsmall as [Hz Hlt].
    apply Nat.eqb_neq in Hz. apply Nat.ltb_ge in Hlt.
    rewrite <- (take_drop (Z.to_nat batch_size) entries) at 1.
    rewrite driver_loop_app.
    rewrite driver_loop_full_batch.
    + simpl io_for. unfold mbind at 1, IO_bind.
      destruct (flush_one _ fs) as [fs1 [[]|err]]; [|done].
      apply IH.
      * rewrite length_drop. lia.
      * by apply Forall_drop.
    + intros Hnil. apply (f_equal length) in Hnil.
      rewrite length_take in Hnil. simpl in Hnil. lia.
    + rewrite length_take. lia.
    + by apply Forall_take.
Qed.

(** What one flush leaves on the disk. *)
Lemma flush_batch_ok (batch : list entry) (chunks : list Chunk)
    (fs : gmap string (list byte)) :
  batch_chunks process_documents chunk_size batch = Ok chunks →
  nd_nbytes (nd_dtype (encode (chunk_text <$> chunks)))
    (nd_shape (encode (chunk_text <$> chunks))) ≠ 0%nat →
  metadata_output_path ≠ embeddings_output_path →
  metadata_output_path ≠ shape_path embeddings_output_path →
  flush_one batch fs
  = (<[metadata_output_path :=
         default [] (fs !! metadata_output_path)
         ++ list_byte_of_string
              (metadata_text json_dumps (metadata_of_chunk <$> chunks))]>
       (<[embeddings_output_path :=
            nd_data (encode (chunk_text <$> chunks))]>
          (<[shape_path embeddings_output_path :=
               list_byte_of_string
                 (shape_text
                    (nd_shape (encode (chunk_text <$> chunks))))]> fs)),
     Ok tt).
Proof.
  intros Hchunks Hsize Hne1 Hne2.
  unfold flush_batch, batch_chunks in *.
  destruct (collect batch) as [st|err]; [|done]. simpl in Hchunks.
  unfold mbind at 1, IO_bind, io_lift. unfold flush.
  destruct (process_documents _ _) as [df|err]; [|done].
  simpl in Hchunks. unfold mbind at 1, IO_bind, io_lift.
  unfold mbind at 1, IO_bind. rewrite Hchunks.
  unfold mbind at 1, IO_bind.
  rewrite save_embeddings_to_memmap_ok by done.
  rewrite save_metadata_to_file_ok.
  by rewrite !lookup_insert_ne by done.
Qed.

End DriverProperties.

Lemma trailing_batch_aux_Forall {A : Type} (P : A → Prop) (fuel n : nat)
    (l : list A) :
  Forall P l → Forall P (trailing_batch_aux fuel n l).
Proof.
  revert l. induction fuel as [|fuel IH]; intros l Hl; [done |].
  simpl. destruct (_ || _); [done |]. apply IH. by apply Forall_drop.
Qed.

Lemma metadata_text_app (json_dumps : entry → string)
    (l1 l2 : list entry) :
  metadata_text json_dumps (l1 ++ l2)
  = metadata_text json_dumps l1 +:+ metadata_text json_dumps l2.
Proof.
  induction l1 as [|e l1 IH]; [done |].
  simpl. by rewrite IH, !string_app_assoc.
Qed.

(** C2: when the stream reader yields Document Records and returns, a
    step of the driver flushes exactly when the count of accumulated
    records equals [batch_size], and [main] as a whole is the flush of
    each full group of [batch_size] records, one after the other; the
    records after the last full group are never flushed and raise
    nothing.  With [batch_size = 2] and five records [main] is the flush
    of the first two records followed by the flush of the next two; when
    these flushes have chunks to save, the metadata file grows by the
    entries of the chunks of the first four records and the embedding
    file holds the embeddings of the second batch.  The fifth record
    appears nowhere. *)
Theorem driver_flushes_full_batches_only
    (json_loads : string → option entry) (json_dumps : entry → string)
    (process_documents : list scalar → list scalar → result DataFrame)
    (encode : list string → ndarray) (chunk_size batch_size : Z)
    (embeddings_output_path metadata_output_path file_path : string)
    (fs : gmap string (list byte)) (entries : list entry) :
  let flush_one :=
    flush_batch json_dumps process_documents encode chunk_size
      embeddings_output_path metadata_output_path in
  let run :=
    main json_loads json_dumps process_documents encode chunk_size
      batch_size embeddings_output_path metadata_output_path file_path fs in
  stream_jsonl json_loads file_path fs = (entries, None) →
  Forall (fun e => is_document_record e = true) entries →
  (∀ st st1 e disk,
      accumulate st e = Ok st1 →
      driver_step json_dumps process_documents encode chunk_size
        batch_size embeddings_output_path metadata_output_path st e disk
      = if Z.of_nat (length (document_ids st1)) =? batch_size
        then match flush json_dumps process_documents encode chunk_size
                     embeddings_output_path metadata_output_path st1 disk
             with
             | (disk', Ok _) => (disk', Ok driver_init)
             | (disk', Raise err) => (disk', Raise err)
             end
        else (disk, Ok st1))
  ∧ run = io_for (full_batches batch_size entries) flush_one fs
  ∧ (batch_size = 2 →
     ∀ e1 e2 e3 e4 e5,
       entries = [e1; e2; e3; e4; e5] →
       run = (flush_one [e1; e2];; flush_one [e3; e4]) fs
       ∧ ∀ c12 c34,
           batch_chunks process_documents chunk_size [e1; e2] = Ok c12 →
           batch_chunks process_documents chunk_size [e3; e4] = Ok c34 →
           nd_nbytes (nd_dtype (encode (chunk_text <$> c12)))
             (nd_shape (encode (chunk_text <$> c12))) ≠ 0%nat →
           nd_nbytes (nd_dtype (encode (chunk_text <$> c34)))
             (nd_shape (encode (chunk_text <$> c34))) ≠ 0%nat →
           metadata_output_path ≠ embeddings_output_path →
           metadata_output_path ≠ shape_path embeddings_output_path →
           ∃ fs',
             run = (fs', Ok tt)
             ∧ fs' !! metadata_output_path
               = Some (default [] (fs !! metadata_output_path)
                       ++ list_byte_of_string
                            (metadata_text json_dumps
                               (metadata_of_chunk <$> c12 ++ c34)))
             ∧ fs' !! embeddings_output_path
               = Some (nd_data (encode (chunk_text <$> c34)))).
Proof.
  intros flush_one run Hstream Hdoc.
  assert (run = io_for (full_batches batch_size entries) flush_one fs)
    as Hrun.
  { unfold run, main. rewrite Hstream. simpl fst. simpl snd.
    rewrite (driver_loop_batches _ _ _ _ _ _ _ (length entries))
      by done.
    unfold full_batches. fold flush_one.
    destruct (io_for _ flush_one fs) as [fs' [[]|err]]; [|done].
    destruct (collect_from_ok driver_init
                (trailing_batch_aux (length entries) (Z.to_nat batch_size)
                   entries)) as (st & Hst & _).
    { by apply trailing_batch_aux_Forall. }
    unfold collect. by rewrite Hst. }
  split; [intros st st1 e disk; apply driver_step_eq |].
  split; [done |].
  intros -> e1 e2 e3 e4 e5 ->.
  assert (run = (flush_one [e1; e2];; flush_one [e3; e4]) fs) as Hrun2.
  { rewrite Hrun. unfold full_batches. simpl.
    unfold mbind, IO_bind, mret, IO_ret.
    destruct (flush_one [e1; e2] fs) as [fs1 [[]|err]]; [|done].
    by destruct (flush_one [e3; e4] fs1) as [fs2 [[]|err]]. }
  split; [done |].
  intros c12 c34 H12 H34 Hn12 Hn34 Hne1 Hne2.
  pose proof (shape_path_ne embeddings_output_path) as Hsp.
  eexists. rewrite Hrun2. unfold flush_one.
  rewrite (io_bind_ok _ _ fs _ tt
             (flush_batch_ok _ _ _ _ _ _ [e1; e2] c12 fs
                H12 Hn12 Hne1 Hne2)).
  rewrite (flush_batch_ok _ _ _ _ _ _ [e3; e4] c34) by done.
  split; [reflexivity |]. split.
  - rewrite !lookup_insert_eq. simpl default.
    rewrite fmap_app, metadata_text_app, list_byte_of_string_app.
    by rewrite app_assoc.
  - rewrite lookup_insert_ne by done. by rewrite lookup_insert_eq.
Qed.

Lemma driver_flushes_full_batches_only_witness :
  ∃ fs',
    main ref_json_loads ref_json_dumps one_sentence_per_document
      constant_encode 5 2 "embeddings.bin" "metadata.json.gz"
      "sample.json.gz" {[ "sample.json.gz" := five_records_file ]}
    = (fs', Ok tt)
    ∧ fs' !! "metadata.json.gz"
      = Some (list_byte_of_string
                (metadata_text ref_json_dumps
                   (metadata_of_chunk <$>
                      [(SInt 2, SStr "B", "aaaa");
                       (SInt 2, SStr "B",
                        title_prefixed (SStr "B")
                          (title_prefixed (SStr "B") "bbbb"));
                       (SInt 4, SStr "D", "cccc");
                       (SInt 4, SStr "D",
                        title_prefixed (SStr "D")
                          (title_prefixed (SStr "D") "dddd"))]))).
Proof.
  destruct (driver_flushes_full_batches_only
              ref_json_loads ref_json_dumps one_sentence_per_document
              constant_encode 5 2 "embeddings.bin" "metadata.json.gz"
              "sample.json.gz" {[ "sample.json.gz" := five_records_file ]}
              five_records) as (_ & _ & Hfive).
  - vm_compute. reflexivity.
  - repeat constructor.
  - destruct (Hfive eq_refl _ _ _ _ _ eq_refl) as [_ Hdisk].
    destruct (Hdisk
                [(SInt 2, SStr "B", "aaaa");
                 (SInt 2, SStr "B",
                  title_prefixed (SStr "B")
                    (title_prefixed (SStr "B") "bbbb"))]
                [(SInt 4, SStr "D", "cccc");
                 (SInt 4, SStr "D",
                  title_prefixed (SStr "D")
                    (title_prefixed (SStr "D") "dddd"))])
      as (fs' & Hrun & Hmeta & _).
    + vm_compute. reflexivity.
    + vm_compute. reflexivity.
    + vm_compute. discriminate.
    + vm_compute. discriminate.
    + discriminate.
    + discriminate.
    + exists fs'. split; [exact Hrun | exact Hmeta].
Defined.

(** * Further properties *)

(** ** The Chunker: errors, bounds and what the chunks contain *)

Lemma chunker_step_known (ids_to_titles : gmap scalar scalar)
    (chunk_size : Z) (prepend truncate : bool) (st : chunker_state)
    (row : SentenceRow) :
  is_Some (ids_to_titles !! row_document_id row) →
  ∃ st', chunker_step ids_to_titles chunk_size prepend truncate st row
         = Ok st'.
Proof.
  intros [tl Htl]. unfold chunker_step. rewrite Htl.
  destruct (chunk_size <? _); by eexists.
Qed.

Lemma chunker_loop_known (ids_to_titles : gmap scalar scalar)
    (chunk_size : Z) (prepend truncate : bool) (df : DataFrame)
    (st : chunker_state) :
  Forall (fun row => is_Some (ids_to_titles !! row_document_id row)) df →
  ∃ st', chunker_loop ids_to_titles chunk_size prepend truncate st df
         = Ok st'.
Proof.
  revert st. induction df as [|row df IH]; intros st Hdf; [by eexists |].
  apply Forall_cons in Hdf as [Hrow Hdf].
  destruct (chunker_step_known ids_to_titles chunk_size prepend truncate
              st row Hrow) as [st1 Hst1].
  simpl. rewrite Hst1. simpl. by apply IH.
Qed.

Lemma chunker_loop_unknown (ids_to_titles : gmap scalar scalar)
    (chunk_size : Z) (prepend truncate : bool) (df : DataFrame)
    (st : chunker_state) :
  Exists (fun row => ids_to_titles !! row_document_id row = None) df →
  chunker_loop ids_to_titles chunk_size prepend truncate st df
  = Raise KeyError.
Proof.
  revert st. induction df as [|row df IH]; intros st Hdf.
  { by apply Exists_nil in Hdf. }
  simpl. unfold chunker_step at 1.
  destruct (ids_to_titles !! row_document_id row) as [tl|] eqn:Hrow;
    [|done].
  apply Exists_cons in Hdf as [Hbad | Hdf]; [congruence |].
  destruct (chunk_size <? _); simpl; by apply IH.
Qed.

(** X1: the chunker returns a list of chunks when every row's document
    id has a title in [ids_to_titles], and raises [KeyError] as soon as
    one row's id has none, whatever the sizes and flags and wherever the
    row is. *)
Theorem chunker_raises_iff_title_missing (df : DataFrame)
    (ids_to_titles : gmap scalar scalar) (chunk_size : Z)
    (prepend truncate : bool) :
  (Forall (fun row => is_Some (ids_to_titles !! row_document_id row)) df →
   ∃ out,
     reconstitute_sentences_into_chunks
       df ids_to_titles chunk_size prepend truncate = Ok out)
  ∧ (Exists (fun row => ids_to_titles !! row_document_id row = None) df →
     reconstitute_sentences_into_chunks
       df ids_to_titles chunk_size prepend truncate = Raise KeyError).
Proof.
  split; intros Hdf; unfold reconstitute_sentences_into_chunks.
  - destruct (chunker_loop_known ids_to_titles chunk_size prepend truncate
                df chunker_init Hdf) as [st Hst].
    rewrite Hst. by eexists.
  - by rewrite chunker_loop_unknown.
Qed.

Lemma chunker_raises_iff_title_missing_witness :
  (∃ out,
     reconstitute_sentences_into_chunks
       [mk_row 1 "aaaa"; mk_row 2 "bbbb"] titles_AB 5 true false = Ok out)
  ∧ reconstitute_sentences_into_chunks
      rows_with_unknown_document titles_AB 512 true false = Raise KeyError.
Proof.
  split.
  - apply (chunker_raises_iff_title_missing
             [mk_row 1 "aaaa"; mk_row 2 "bbbb"] titles_AB 5 true false).
    repeat (constructor; [eexists; reflexivity |]). constructor.
  - apply (chunker_raises_iff_title_missing
             rows_with_unknown_document titles_AB 512 true false).
    apply Exists_cons_tl, Exists_cons_hd. reflexivity.
Defined.

(** The list of closed chunks only grows, by at most one chunk a row. *)
Lemma chunker_loop_chunks_grow (ids_to_titles : gmap scalar scalar)
    (chunk_size : Z) (prepend truncate : bool) (df : DataFrame)
    (st st' : chunker_state) :
  chunker_loop ids_to_titles chunk_size prepend truncate st df = Ok st' →
  ∃ more, chunks st' = chunks st ++ more
          ∧ (length more <= length df)%nat.
Proof.
  revert st. induction df as [|row df IH]; intros st Hrun.
  - simpl in Hrun. injection Hrun as <-. exists []. by rewrite app_nil_r.
  - simpl in Hrun.
    destruct (chunker_step _ _ _ _ st row) as [st1|e] eqn:Hstep;
      [|discriminate].
    simpl in Hrun. destruct (IH st1 Hrun) as (more & Hmore & Hlen).
    unfold chunker_step in Hstep.
    destruct (ids_to_titles !! row_document_id row) as [tl|]; [|discriminate].
    destruct (chunk_size <? _); injection Hstep as <-; simpl in Hmore.
    + eexists (_ :: more). rewrite Hmore, <- app_assoc. simpl.
      split; [done | lia].
    + exists more. split; [done |]. simpl. lia.
Qed.

(** X2: the chunker never returns more than one chunk a row plus the one
    it flushes after the loop. *)
Theorem chunker_chunk_count_bound (df : DataFrame)
    (ids_to_titles : gmap scalar scalar) (chunk_size : Z)
    (prepend truncate : bool) (out : list Chunk) :
  reconstitute_sentences_into_chunks
    df ids_to_titles chunk_size prepend truncate = Ok out →
  (length out <= length df + 1)%nat.
Proof.
  unfold reconstitute_sentences_into_chunks.
  destruct (chunker_loop _ _ _ _ chunker_init df) as [st|e] eqn:Hrun;
    [|discriminate].
  simpl. intros [= <-].
  destruct (chunker_loop_chunks_grow _ _ _ _ _ _ _ Hrun)
    as (more & Hmore & Hlen).
  simpl in Hmore. rewrite Hmore, length_app. unfold final_flush.
  destruct (py_bool _); simpl; lia.
Qed.

Lemma chunker_chunk_count_bound_witness :
  (length [(SInt 2, SStr "B", "aaaa");
           (SInt 2, SStr "B",
            title_prefixed (SStr "B") (title_prefixed (SStr "B") "bbbb"))]
   <= length [mk_row 1 "aaaa"; mk_row 2 "bbbb"] + 1)%nat.
Proof.
  apply (chunker_chunk_count_bound
           [mk_row 1 "aaaa"; mk_row 2 "bbbb"] titles_AB 5 true false).
  reflexivity.
Defined.

Lemma py_slice_to_empty (n : Z) : py_slice_to EmptyString n = EmptyString.
Proof.
  unfold py_slice_to. destruct (0 <=? n).
  - by destruct (Z.to_nat n).
  - by destruct (String.length EmptyString - Z.to_nat (- n))%nat.
Qed.

(** X3: when the first sentence alone is longer than [chunk_size], the
    first chunk the chunker returns has an empty text: the first row
    closes the buffer before anything was put in it. *)
Theorem long_first_sentence_gives_empty_chunk (row : SentenceRow)
    (rest : DataFrame) (ids_to_titles : gmap scalar scalar)
    (chunk_size : Z) (prepend truncate : bool) (tl : scalar)
    (out : list Chunk) :
  ids_to_titles !! row_document_id row = Some tl →
  chunk_size < Z.of_nat (String.length (row_text row)) →
  reconstitute_sentences_into_chunks
    (row :: rest) ids_to_titles chunk_size prepend truncate = Ok out →
  ∃ out', out = (row_document_id row, tl, EmptyString) :: out'.
Proof.
  intros Htl Hlong. unfold reconstitute_sentences_into_chunks. simpl.
  destruct (chunker_step_close ids_to_titles chunk_size prepend truncate
              chunker_init row tl Htl) as (st1 & Hst1 & Hchunks & _).
  { simpl. lia. }
  rewrite Hst1. simpl.
  destruct (chunker_loop _ _ _ _ st1 rest) as [st|e] eqn:Hrun;
    [|discriminate].
  simpl. intros [= <-].
  destruct (chunker_loop_chunks_grow _ _ _ _ _ _ _ Hrun)
    as (more & Hmore & _).
  rewrite Hmore, Hchunks. simpl.
  replace (if truncate then py_slice_to EmptyString chunk_size
           else EmptyString) with EmptyString.
  2:{ destruct truncate; [|done]. by rewrite py_slice_to_empty. }
  by eexists.
Qed.

Lemma long_first_sentence_gives_empty_chunk_witness :
  ∃ out',
    [(SInt 1, SStr "A", EmptyString);
     (SInt 1, SStr "A",
      title_prefixed (SStr "A") (title_prefixed (SStr "A") "hello"))]
    = (SInt 1, SStr "A", EmptyString) :: out'.
Proof.
  apply (long_first_sentence_gives_empty_chunk
           (mk_row 1 "hello") [] titles_AB 2 true true (SStr "A")).
  - reflexivity.
  - simpl. lia.
  - reflexivity.
Defined.

Lemma is_substring_refl (s : string) : is_substring s s.
Proof. exists EmptyString, EmptyString. by rewrite string_app_nil_r. Qed.

Lemma is_substring_app_r (s t x : string) :
  is_substring s t → is_substring s (t +:+ x).
Proof.
  intros (pre & post & ->). exists pre, (post +:+ x).
  by rewrite !string_app_assoc.
Qed.

Lemma is_substring_app_l (s t x : string) :
  is_substring s t → is_substring s (x +:+ t).
Proof.
  intros (pre & post & ->). exists (x +:+ pre), post.
  by rewrite !string_app_assoc.
Qed.

Lemma is_substring_empty (s : string) :
  is_substring s EmptyString → s = EmptyString.
Proof.
  intros (pre & post & H). destruct pre; [|discriminate].
  rewrite string_app_nil_l in H. by destruct s.
Qed.

(** Without truncation every sentence seen so far is in a closed chunk
    or in the buffer. *)
Lemma chunker_loop_keeps (ids_to_titles : gmap scalar scalar)
    (chunk_size : Z) (prepend : bool) (df : DataFrame)
    (st st' : chunker_state) (seen : list string) :
  chunker_loop ids_to_titles chunk_size prepend false st df = Ok st' →
  (∀ s, s ∈ seen →
        (∃ c, c ∈ chunks st ∧ is_substring s (chunk_text c))
        ∨ is_substring s (current_chunk st)) →
  ∀ s, s ∈ seen ++ (row_text <$> df) →
       (∃ c, c ∈ chunks st' ∧ is_substring s (chunk_text c))
       ∨ is_substring s (current_chunk st').
Proof.
  revert st seen. induction df as [|row df IH]; intros st seen Hrun Hseen.
  - simpl in Hrun. injection Hrun as <-. by rewrite app_nil_r.
  - simpl in Hrun.
    destruct (chunker_step _ _ _ _ st row) as [st1|e] eqn:Hstep;
      [|discriminate].
    simpl in Hrun. rewrite fmap_cons, cons_middle, app_assoc.
    apply (IH st1); [done |]. clear IH Hrun.
    unfold chunker_step in Hstep.
    destruct (ids_to_titles !! row_document_id row) as [tl|]; [|discriminate].
    intros s [Hs | Hs]%elem_of_app.
    + destruct (chunk_size <? _); injection Hstep as <-; simpl.
      * left. destruct (Hseen s Hs) as [(c & Hc & Hsub) | Hsub].
        -- exists c. split; [|done]. apply elem_of_app. by left.
        -- eexists. split; [apply elem_of_app; right; by left |]. done.
      * destruct (Hseen s Hs) as [Hc | Hsub]; [by left |]. right.
        apply is_substring_app_r.
        destruct (py_bool _); [by apply is_substring_app_r | done].
    + apply list_elem_of_singleton in Hs as ->. right.
      destruct (chunk_size <? _); injection Hstep as <-; simpl.
      * destruct prepend; [|apply is_substring_refl].
        unfold title_prefixed. rewrite <- string_app_assoc.
        apply is_substring_app_l, is_substring_refl.
      * apply is_substring_app_l, is_substring_refl.
Qed.

(** X4: without truncation no sentence is lost: every sentence of the
    dataframe that is not empty occurs in the text of one of the chunks
    the chunker returns. *)
Theorem chunker_keeps_every_sentence (df : DataFrame)
    (ids_to_titles : gmap scalar scalar) (chunk_size : Z) (prepend : bool)
    (out : list Chunk) (row : SentenceRow) :
  reconstitute_sentences_into_chunks
    df ids_to_titles chunk_size prepend false = Ok out →
  row ∈ df →
  row_text row ≠ EmptyString →
  ∃ c, c ∈ out ∧ is_substring (row_text row) (chunk_text c).
Proof.
  unfold reconstitute_sentences_into_chunks.
  destruct (chunker_loop _ _ _ _ chunker_init df) as [st|e] eqn:Hrun;
    [|discriminate].
  simpl. intros [= <-] Hrow Hne.
  destruct (chunker_loop_keeps _ _ _ _ _ _ [] Hrun) with (s := row_text row)
    as [(c & Hc & Hsub) | Hsub].
  - intros s Hs. by apply elem_of_nil in Hs.
  - simpl. by apply list_elem_of_fmap_2.
  - exists c. split; [|done]. apply elem_of_app. by left.
  - unfold final_flush.
    destruct (current_chunk st) as [|a b] eqn:Hbuf.
    { apply is_substring_empty in Hsub. done. }
    simpl. eexists. split; [apply elem_of_app; right; by left |].
    unfold chunk_text, title_prefixed. simpl.
    rewrite <- string_app_assoc. by apply is_substring_app_l.
Qed.

Lemma chunker_keeps_every_sentence_witness :
  ∃ c,
    c ∈ [(SInt 2, SStr "B", "aaaa");
         (SInt 2, SStr "B",
          title_prefixed (SStr "B") (title_prefixed (SStr "B") "bbbb"))]
    ∧ is_substring "aaaa" (chunk_text c).
Proof.
  apply (chunker_keeps_every_sentence
           [mk_row 1 "aaaa"; mk_row 2 "bbbb"] titles_AB 5 true _
           (mk_row 1 "aaaa")).
  - reflexivity.
  - by left.
  - discriminate.
Defined.

Lemma py_bool_title_prefixed (tl : scalar) (body : string) :
  py_bool (title_prefixed tl body) = true.
Proof. unfold title_prefixed. by destruct (py_format tl). Qed.

Lemma title_prefixed_app (tl : scalar) (body x : string) :
  title_prefixed tl body +:+ x = title_prefixed tl (body +:+ x).
Proof. unfold title_prefixed. by rewrite !string_app_assoc. Qed.

(** With the title flag set, once a chunk was closed the buffer starts
    with a title prefix. *)
Lemma chunker_loop_seeded (ids_to_titles : gmap scalar scalar)
    (chunk_size : Z) (truncate : bool) (df : DataFrame)
    (st st' : chunker_state) :
  chunker_loop ids_to_titles chunk_size true truncate st df = Ok st' →
  (chunks st = []
   ∨ ∃ tl body, current_chunk st = title_prefixed tl body) →
  chunks st' = []
  ∨ ∃ tl body, current_chunk st' = title_prefixed tl body.
Proof.
  revert st. induction df as [|row df IH]; intros st Hrun Hst.
  - simpl in Hrun. by injection Hrun as <-.
  - simpl in Hrun.
    destruct (chunker_step _ _ _ _ st row) as [st1|e] eqn:Hstep;
      [|discriminate].
    simpl in Hrun. apply (IH st1); [done |]. clear IH Hrun.
    unfold chunker_step in Hstep.
    destruct (ids_to_titles !! row_document_id row) as [tl|]; [|discriminate].
    destruct (chunk_size <? _); injection Hstep as <-; simpl.
    + right. by eexists _, _.
    + destruct Hst as [Hnil | (tl' & body & Hbuf)]; [by left |]. right.
      rewrite Hbuf, py_bool_title_prefixed, !title_prefixed_app.
      by eexists _, _.
Qed.

(** X5: with [prepend_title_to_each_chunk] set, whenever the chunker
    returns two chunks or more, the text of the last one starts with two
    title prefixes: the one its buffer was seeded with and the one the
    flush after the loop adds. *)
Theorem last_chunk_is_prefixed_twice (df : DataFrame)
    (ids_to_titles : gmap scalar scalar) (chunk_size : Z) (truncate : bool)
    (out : list Chunk) :
  reconstitute_sentences_into_chunks
    df ids_to_titles chunk_size true truncate = Ok out →
  (2 <= length out)%nat →
  ∃ front d tl tl' body,
    out = front ++ [(d, tl, title_prefixed tl (title_prefixed tl' body))].
Proof.
  unfold reconstitute_sentences_into_chunks.
  destruct (chunker_loop _ _ _ _ chunker_init df) as [st|e] eqn:Hrun;
    [|discriminate].
  simpl. intros [= <-] Hlen.
  destruct (chunker_loop_seeded _ _ _ _ _ _ Hrun) as [Hnil | (tl' & body & Hbuf)].
  - by left.
  - rewrite Hnil in Hlen. unfold final_flush in Hlen.
    destruct (py_bool _); simpl in Hlen; lia.
  - unfold final_flush. rewrite Hbuf, py_bool_title_prefixed.
    by eexists _, _, _, _, _.
Qed.

Lemma last_chunk_is_prefixed_twice_witness :
  ∃ front d tl tl' body,
    [(SInt 2, SStr "B", "aaaa");
     (SInt 2, SStr "B",
      title_prefixed (SStr "B") (title_prefixed (SStr "B") "bbbb"))]
    = front ++ [(d, tl, title_prefixed tl (title_prefixed tl' body))].
Proof.
  apply (last_chunk_is_prefixed_twice
           [mk_row 1 "aaaa"; mk_row 2 "bbbb"] titles_AB 5 false).
  - reflexivity.
  - simpl. lia.
Defined.

(** X6: [truncate_long_chunks] changes nothing but the texts of the
    chunks closed in the loop, for every chunk size, negative ones
    included: when the loop ends in state [st0] without it, the chunker
    returns the chunks closed in the loop followed by the chunk flushed
    after it, and with it the same chunks with the same ids and titles in
    the same order, the text of each closed chunk replaced by
    [text[:chunk_size]] and the flushed chunk left as it is. *)
Theorem truncation_only_cuts_closed_chunks (df : DataFrame)
    (ids_to_titles : gmap scalar scalar) (chunk_size : Z) (prepend : bool)
    (st0 : chunker_state) :
  chunker_loop ids_to_titles chunk_size prepend false chunker_init df
    = Ok st0 →
  reconstitute_sentences_into_chunks
    df ids_to_titles chunk_size prepend false
    = Ok (chunks st0 ++ final_flush st0)
  ∧ reconstitute_sentences_into_chunks
      df ids_to_titles chunk_size prepend true
    = Ok (((fun c => (chunk_document_id c, chunk_title c,
                      py_slice_to (chunk_text c) chunk_size))
             <$> chunks st0)
          ++ final_flush st0).
Proof.
  intros Hrun0.
  destruct (chunker_loop_truncation ids_to_titles chunk_size prepend df
              chunker_init chunker_init st0 Hrun0)
    as (st & Hrun & Hsame & Hc); [done | done |].
  unfold reconstitute_sentences_into_chunks. rewrite Hrun, Hrun0. simpl.
  split; [done |].
  rewrite Hc, (final_flush_same_buffer _ _ Hsame). do 2 f_equal.
  apply list_fmap_ext. by intros _ [[d tl] text] _.
Qed.

Lemma truncation_only_cuts_closed_chunks_witness :
  reconstitute_sentences_into_chunks
    [mk_row 1 "hello"; mk_row 1 "world"; mk_row 1 "wide"]
    titles_AB (-2) false true
  = Ok [(SInt 1, SStr "A", EmptyString); (SInt 1, SStr "A", "hel");
        (SInt 1, SStr "A", "wor");
        (SInt 1, SStr "A", title_prefixed (SStr "A") "wide")].
Proof.
  apply (truncation_only_cuts_closed_chunks
           [mk_row 1 "hello"; mk_row 1 "world"; mk_row 1 "wide"]
           titles_AB (-2) false
           {| chunks := [(SInt 1, SStr "A", EmptyString);
                         (SInt 1, SStr "A", "hello");
                         (SInt 1, SStr "A", "world")];
              current_chunk := "wide"; current_length := 4;
              title := SStr "A"; document_id := SInt 1 |}).
  reflexivity.
Defined.

(** ** The stores: composition, frames and failures *)

(** X7: the Metadata Store accumulates: saving two lists of entries one
    after the other to one path leaves the disk that saving their
    concatenation leaves, so the lines of the second list follow those of
    the first. *)
Theorem save_metadata_to_file_accumulates (json_dumps : entry → string)
    (m1 m2 : list entry) (file_name : string)
    (fs : gmap string (list byte)) :
  (save_metadata_to_file json_dumps m1 file_name;;
   save_metadata_to_file json_dumps m2 file_name) fs
  = save_metadata_to_file json_dumps (m1 ++ m2) file_name fs.
Proof.
  rewrite (io_bind_ok _ _ fs _ tt
             (save_metadata_to_file_ok json_dumps m1 file_name fs)).
  rewrite !save_metadata_to_file_ok. rewrite lookup_insert_eq. simpl default.
  rewrite insert_insert_eq, metadata_text_app, list_byte_of_string_app.
  by rewrite app_assoc.
Qed.

(** X8: the sidecar reads back as the shape that was saved, for an
    array of any dtype with at least one axis, whatever the disk held
    before; the sidecar is written first, so this also holds when the
    array has no items and mapping the binary file raises. *)
Theorem saved_shape_reads_back (a : ndarray) (file_name : string)
    (fs : gmap string (list byte)) :
  nd_shape a ≠ [] →
  let saved := (save_embeddings_to_memmap a file_name fs).1 in
  _load_shape_from_file file_name saved
  = (saved, Ok (Z.of_nat <$> nd_shape a)).
Proof.
  intros Hshape saved.
  assert (saved !! shape_path file_name
          = Some (list_byte_of_string (shape_text (nd_shape a)))) as Hsidecar.
  { unfold saved, save_embeddings_to_memmap, mbind, IO_bind, write_text,
      np_memmap_w, memmap_assign. simpl.
    destruct (Nat.eqb _ 0); simpl;
      repeat (rewrite lookup_insert_ne by apply not_eq_sym, shape_path_ne);
      by rewrite lookup_insert_eq. }
  by apply load_shape_from_file_ok.
Qed.

Lemma saved_shape_reads_back_witness :
  _load_shape_from_file "embeddings.bin"
    (save_embeddings_to_memmap sample_float64 "embeddings.bin" ∅).1
  = ((save_embeddings_to_memmap sample_float64 "embeddings.bin" ∅).1,
     Ok [1; 1]).
Proof.
  apply (saved_shape_reads_back sample_float64 "embeddings.bin" ∅).
  discriminate.
Defined.

Lemma save_embeddings_to_memmap_frame (a : ndarray) (file_name : string) :
  io_touches_only [file_name; shape_path file_name]
    (save_embeddings_to_memmap a file_name).
Proof.
  intros fs p Hp.
  assert (p ≠ file_name ∧ p ≠ shape_path file_name) as [H1 H2].
  { split; intros ->; apply Hp; rewrite !elem_of_cons; tauto. }
  unfold save_embeddings_to_memmap, mbind, IO_bind, write_text,
    np_memmap_w, memmap_assign. simpl.
  destruct (Nat.eqb _ 0); simpl; by rewrite !lookup_insert_ne.
Qed.

Lemma save_metadata_to_file_frame (json_dumps : entry → string)
    (metadata : list entry) (file_name : string) :
  io_touches_only [file_name]
    (save_metadata_to_file json_dumps metadata file_name).
Proof.
  intros fs p Hp. rewrite save_metadata_to_file_ok. simpl.
  rewrite lookup_insert_ne; [done |]. intros ->. apply Hp. by left.
Qed.

(** X9: the two saves write to their own files only.  Whatever the
    array, [save_embeddings_to_memmap] leaves every file other than the
    binary file and its sidecar as it was, also when it raises; whatever
    the entries, [save_metadata_to_file] leaves every file other than
    the metadata file as it was. *)
Theorem saves_touch_their_own_files :
  (∀ a file_name,
      io_touches_only [file_name; shape_path file_name]
        (save_embeddings_to_memmap a file_name))
  ∧ (∀ json_dumps metadata file_name,
      io_touches_only [file_name]
        (save_metadata_to_file json_dumps metadata file_name)).
Proof.
  split.
  - apply save_embeddings_to_memmap_frame.
  - apply save_metadata_to_file_frame.
Qed.

Lemma saves_touch_their_own_files_witness :
  (save_embeddings_to_memmap second_embeddings "embeddings.bin"
     sample_store).1 !! "metadata.json.gz"
  = sample_store !! "metadata.json.gz".
Proof.
  apply (proj1 saves_touch_their_own_files second_embeddings
           "embeddings.bin" sample_store "metadata.json.gz").
  intros H. repeat (apply elem_of_cons in H as [H | H]; [discriminate |]).
  by apply elem_of_nil in H.
Defined.

(** X10: [fetch_embedding_and_metadata] never changes the disk, and for
    a negative index it never returns data, whatever the stores hold:
    the row lookup counts from the end, but the line counter starts at
    zero and never equals a negative index. *)
Theorem fetch_reads_only (json_loads : string → option entry)
    (embeddings_file metadata_file : string) (idx : Z)
    (fs : gmap string (list byte)) :
  (fetch_embedding_and_metadata json_loads embeddings_file metadata_file
     idx fs).1 = fs
  ∧ (idx < 0 →
     ∃ e,
       (fetch_embedding_and_metadata json_loads embeddings_file
          metadata_file idx fs).2 = Raise e).
Proof.
  rewrite fetch_unfold.
  destruct (_load_shape_from_file embeddings_file fs).2 as [shape|e];
    [|by split; [|eexists]].
  destruct (np_memmap_r embeddings_file float32 shape fs).2 as [arr|e];
    [|by split; [|eexists]].
  destruct (nd_getitem arr idx) as [row|e]; [|by split; [|eexists]].
  destruct (fs !! metadata_file) as [bytes|]; [|by split; [|eexists]].
  split.
  - by destruct (scan_metadata _ _ _ _) as [[m|]|e].
  - intros Hneg. rewrite scan_metadata_miss by lia. by eexists.
Qed.

Lemma fetch_reads_only_witness :
  ∃ e,
    (fetch_embedding_and_metadata ref_json_loads "embeddings.bin"
       "metadata.json.gz" (-1) sample_store).2 = Raise e.
Proof.
  apply (fetch_reads_only ref_json_loads "embeddings.bin"
           "metadata.json.gz" (-1) sample_store).
  lia.
Defined.

(** X11: an array of a dtype narrower than four bytes cannot be read
    back at all: on a disk that holds its sidecar and its buffer, the
    binary file is smaller than the float32 array the sidecar describes,
    and the fetch raises [ValueError] at every index. *)
Theorem fetch_of_narrow_dtype_raises (json_loads : string → option entry)
    (a : ndarray) (embeddings_file metadata_file : string) (idx : Z)
    (fs : gmap string (list byte)) :
  nd_wf a →
  (itemsize (nd_dtype a) < 4)%nat →
  nd_shape a ≠ [] →
  nd_nbytes (nd_dtype a) (nd_shape a) ≠ 0%nat →
  fs !! shape_path embeddings_file
    = Some (list_byte_of_string (shape_text (nd_shape a))) →
  fs !! embeddings_file = Some (nd_data a) →
  fetch_embedding_and_metadata json_loads embeddings_file metadata_file
    idx fs = (fs, Raise ValueError).
Proof.
  intros Hwf Hnarrow Hshape Hbytes Hsidecar Hfile.
  rewrite fetch_unfold.
  rewrite (load_shape_from_file_ok _ (nd_shape a)) by done. cbn [snd].
  rewrite (np_memmap_r_small _ float32 (nd_shape a) (nd_data a)); [done.. |].
  right. unfold nd_wf in Hwf. rewrite Hwf. unfold nd_nbytes in *.
  simpl itemsize.
  assert (nd_size (nd_shape a) ≠ 0%nat) by (intros Hz; rewrite Hz in Hbytes; lia).
  nia.
Qed.

Lemma fetch_of_narrow_dtype_raises_witness :
  fetch_embedding_and_metadata ref_json_loads "embeddings.bin"
    "metadata.json.gz" 0
    (save_embeddings_to_memmap sample_float16 "embeddings.bin" ∅).1
  = ((save_embeddings_to_memmap sample_float16 "embeddings.bin" ∅).1,
     Raise ValueError).
Proof.
  apply (fetch_of_narrow_dtype_raises ref_json_loads sample_float16).
  - reflexivity.
  - simpl. lia.
  - discriminate.
  - discriminate.
  - vm_compute. reflexivity.
  - vm_compute. reflexivity.
Defined.

(** Reading a store that holds a float32 array and the lines of a list of
    entries. *)
Lemma fetch_from_store (json_loads : string → option entry)
    (json_dumps : entry → string) (a : ndarray) (stored : list entry)
    (embeddings_file metadata_file : string) (fs : gmap string (list byte))
    (n : nat) (rest : list nat) (i : nat) (e : entry) :
  nd_wf a →
  nd_dtype a = float32 →
  nd_shape a = n :: rest →
  nd_size rest ≠ 0%nat →
  fs !! shape_path embeddings_file
    = Some (list_byte_of_string (shape_text (nd_shape a))) →
  fs !! embeddings_file = Some (nd_data a) →
  fs !! metadata_file
    = Some (list_byte_of_string (metadata_text json_dumps stored)) →
  Forall (fun e => single_line (json_dumps e) = true) stored →
  (i < n)%nat →
  stored !! i = Some e →
  json_loads (py_strip (json_dumps e)) = Some e →
  ∃ row,
    fetch_embedding_and_metadata json_loads embeddings_file metadata_file
      (Z.of_nat i) fs = (fs, Ok (row, e))
    ∧ nd_getitem a (Z.of_nat i) = Ok row.
Proof.
  intros Hwf Hdt Hshape Hrest Hsidecar Hfile Hmeta Hlines Hi He Hcodec.
  assert (nd_data a ≠ []) as Hdata.
  { intros Hnil. unfold nd_wf in Hwf. rewrite Hnil, Hshape in Hwf.
    unfold nd_nbytes, nd_size in Hwf. simpl in Hwf.
    pose proof (itemsize_pos (nd_dtype a)). unfold nd_size in Hrest.
    symmetry in Hwf. apply Nat.eq_mul_0 in Hwf as [Hz|Hz]; [lia |].
    apply Nat.eq_mul_0 in Hz as [Hz|Hz]; [lia | done]. }
  eexists. split.
  - rewrite (fetch_from_saved json_loads a); [|done | done | | done |].
    + rewrite (nd_view_float32_id a Hwf Hdt).
      rewrite (nd_getitem_below a n rest) by (done || lia).
      rewrite Hmeta, stored_lines_metadata_text by done.
      pose proof (scan_metadata_hit json_loads
                    ((fun e => json_dumps e +:+ String LF EmptyString)
                       <$> stored)
                    (json_dumps e +:+ String LF EmptyString) 0 i) as Hscan.
      rewrite Z.add_0_l in Hscan. rewrite Hscan.
      2:{ by rewrite list_lookup_fmap, He. }
      rewrite py_strip_app_LF, Hcodec. reflexivity.
    + by rewrite Hshape.
    + unfold nd_wf in Hwf. by rewrite Hwf, Hdt.
  - by rewrite (nd_getitem_below a n rest) by (done || lia).
Qed.

(** X12: after two batches the two stores are out of step.  When a first
    array (with at least one axis and one item) and its entries and then
    a second float32 array and its entries are saved to the same two paths, starting without a metadata
    file, a fetch at an index that is a row of the second array and a
    line of the first list returns that row of the second array together
    with that entry of the first list. *)
Theorem fetch_after_two_batches_mixes_them
    (json_loads : string → option entry) (json_dumps : entry → string)
    (a1 a2 : ndarray) (m1 m2 : list entry)
    (embeddings_file metadata_file : string) (fs : gmap string (list byte))
    (n : nat) (rest : list nat) (i : nat) (e : entry) :
  nd_shape a1 ≠ [] →
  nd_nbytes (nd_dtype a1) (nd_shape a1) ≠ 0%nat →
  nd_wf a2 →
  nd_dtype a2 = float32 →
  nd_shape a2 = n :: rest →
  nd_size rest ≠ 0%nat →
  metadata_file ≠ embeddings_file →
  metadata_file ≠ shape_path embeddings_file →
  default [] (fs !! metadata_file) = [] →
  Forall (fun e => single_line (json_dumps e) = true) (m1 ++ m2) →
  (i < n)%nat →
  m1 !! i = Some e →
  json_loads (py_strip (json_dumps e)) = Some e →
  ∃ fs' row,
    (save_embeddings_to_memmap a1 embeddings_file;;
     save_metadata_to_file json_dumps m1 metadata_file;;
     save_embeddings_to_memmap a2 embeddings_file;;
     save_metadata_to_file json_dumps m2 metadata_file) fs = (fs', Ok tt)
    ∧ fetch_embedding_and_metadata json_loads embeddings_file
        metadata_file (Z.of_nat i) fs' = (fs', Ok (row, e))
    ∧ nd_getitem a2 (Z.of_nat i) = Ok row.
Proof.
  intros _ Hb1 Hwf Hdt Hshape Hrest Hne1 Hne2 Hfresh Hlines Hi He Hcodec.
  pose proof (shape_path_ne embeddings_file) as Hsp.
  assert (nd_nbytes (nd_dtype a2) (nd_shape a2) ≠ 0%nat) as Hb2.
  { rewrite Hshape. unfold nd_nbytes, nd_size. simpl foldr.
    pose proof (itemsize_pos (nd_dtype a2)).
    intros [Hz|Hz]%Nat.eq_mul_0; [lia |].
    apply Nat.eq_mul_0 in Hz as [Hz|Hz]; [lia | done]. }
  destruct (fetch_from_store json_loads json_dumps a2 (m1 ++ m2)
              embeddings_file metadata_file
              (<[metadata_file :=
                   list_byte_of_string
                     (metadata_text json_dumps (m1 ++ m2))]>
                 (<[embeddings_file := nd_data a2]>
                    (<[shape_path embeddings_file :=
                         list_byte_of_string (shape_text (nd_shape a2))]>
                       fs)))
              n rest i e) as (row & Hfetch & Hrow); try done.
  { rewrite !lookup_insert_ne by done. by rewrite lookup_insert_eq. }
  { rewrite lookup_insert_ne by done. by rewrite lookup_insert_eq. }
  { by rewrite lookup_insert_eq. }
  { by apply lookup_app_l_Some. }
  eexists _, row. split; [|split; [exact Hfetch | exact Hrow]].
  rewrite (io_bind_ok _ _ fs _ tt
             (save_embeddings_to_memmap_ok a1 _ fs Hb1)).
  rewrite (io_bind_ok _ _ _ _ tt (save_metadata_to_file_ok _ m1 _ _)).
  rewrite (io_bind_ok _ _ _ _ tt
             (save_embeddings_to_memmap_ok a2 _ _ Hb2)).
  rewrite save_metadata_to_file_ok. f_equal.
  rewrite !(lookup_insert_ne _ embeddings_file metadata_file) by done.
  rewrite !(lookup_insert_ne _ (shape_path embeddings_file) metadata_file)
    by done.
  rewrite lookup_insert_eq. simpl default. rewrite Hfresh, !app_nil_l.
  rewrite metadata_text_app, list_byte_of_string_app.
  apply map_eq. intros p. rewrite !lookup_insert.
  repeat case_decide; congruence.
Qed.

Lemma fetch_after_two_batches_mixes_them_witness :
  ∃ fs' row,
    (save_embeddings_to_memmap sample_embeddings "embeddings.bin";;
     save_metadata_to_file ref_json_dumps sample_metadata "metadata.json.gz";;
     save_embeddings_to_memmap second_embeddings "embeddings.bin";;
     save_metadata_to_file ref_json_dumps second_metadata "metadata.json.gz")
      ∅ = (fs', Ok tt)
    ∧ fetch_embedding_and_metadata ref_json_loads "embeddings.bin"
        "metadata.json.gz" 0 fs'
      = (fs', Ok (row, metadata_of_chunk (SInt 1, SStr "A", "first chunk")))
    ∧ nd_getitem second_embeddings 0 = Ok row.
Proof.
  apply (fetch_after_two_batches_mixes_them ref_json_loads ref_json_dumps
           sample_embeddings second_embeddings sample_metadata
           second_metadata "embeddings.bin" "metadata.json.gz" ∅
           1 [2%nat] 0).
  - discriminate.
  - discriminate.
  - reflexivity.
  - reflexivity.
  - reflexivity.
  - discriminate.
  - discriminate.
  - discriminate.
  - reflexivity.
  - repeat constructor.
  - lia.
  - reflexivity.
  - vm_compute. reflexivity.
Defined.

(** ** The Stream Reader and the Driver: failures, frames and leftovers *)

Lemma stream_jsonl_lines_holds_page_id {V : Type}
    (json_loads : string → option (json V)) (lines : list string) :
  Forall (fun e => holds_page_id e = true)
    (stream_jsonl_lines json_loads lines).1.
Proof.
  induction lines as [|line lines IH]; [by constructor |].
  simpl. destruct (json_loads (py_strip line)) as [e|]; [|by constructor].
  destruct (py_contains "page_id" e) as [found|err] eqn:He;
    [|by constructor].
  destruct found; simpl; [|done].
  constructor; [|done]. unfold holds_page_id. by rewrite He.
Qed.

Lemma stream_jsonl_lines_not_iterable {V : Type}
    (json_loads : string → option (json V)) (good rest : list string)
    (bad : string) (entries : list (json V)) (v : json V) :
  Forall2 (fun line e => json_loads (py_strip line) = Some e) good entries →
  Forall (fun e => is_iterable e = true) entries →
  json_loads (py_strip bad) = Some v →
  is_iterable v = false →
  stream_jsonl_lines json_loads (good ++ bad :: rest)
  = (List.filter holds_page_id entries, Some TypeError).
Proof.
  intros Hgood Hiter Hbad Hv.
  induction Hgood as [|line e good entries Hline _ IH].
  - simpl. rewrite Hbad. by destruct v.
  - apply Forall_cons in Hiter as [He Hiter].
    simpl. rewrite Hline, (IH Hiter). unfold holds_page_id.
    destruct e; try done; simpl;
      by match goal with |- context [negb ?b] => destruct b end.
Qed.

(** X13: what the reader does with lines that are valid JSON without
    being objects.  Whatever the file and the decoder, every value
    [stream_jsonl] yields is an object with the key [page_id], a string
    that contains "page_id" or an array that holds the string "page_id":
    in the driver [entry["page_id"]] gives the field of an object and
    raises [TypeError] for the two others, and never [KeyError].  On an
    ASCII file, the first line that decodes to [null], a boolean or a
    number, after lines that decode to objects, strings and arrays,
    makes the reader raise [TypeError] once it has yielded those of the
    earlier values that hold "page_id". *)
Theorem stream_jsonl_yields_what_holds_page_id {V : Type}
    (json_loads : string → option (json V))
    (file_path : string) (fs : gmap string (list byte)) :
  Forall (fun e =>
            match e with
            | JObject _ => ∃ v, dict_getitem e "page_id" = Ok v
            | JString s =>
                str_contains "page_id" s = true
                ∧ dict_getitem e "page_id" = Raise TypeError
            | JArray items =>
                JString "page_id" ∈ items
                ∧ dict_getitem e "page_id" = Raise TypeError
            | _ => False
            end)
    (stream_jsonl json_loads file_path fs).1
  ∧ (∀ bytes good bad rest entries v,
      fs !! file_path = Some bytes →
      is_ascii_text bytes = true →
      stored_lines bytes = good ++ bad :: rest →
      Forall2 (fun line e => json_loads (py_strip line) = Some e)
        good entries →
      Forall (fun e => is_iterable e = true) entries →
      json_loads (py_strip bad) = Some v →
      is_iterable v = false →
      stream_jsonl json_loads file_path fs
      = (List.filter holds_page_id entries, Some TypeError)).
Proof.
  split.
  - assert (Forall (fun e => holds_page_id e = true)
              (stream_jsonl json_loads file_path fs).1) as Hholds.
    { unfold stream_jsonl.
      destruct (gzip_read_lines file_path fs) as [fs' [lines|e]];
        [|by constructor].
      apply stream_jsonl_lines_holds_page_id. }
    eapply Forall_impl; [exact Hholds |].
    intros e He. unfold holds_page_id in He.
    destruct e as [| | | | s | items | members]; simpl in He; try done.
    + split; [|done].
      apply existsb_exists in He as (item & Hin & Hitem).
      destruct item; try done. apply String.eqb_eq in Hitem as ->.
      by apply list_elem_of_In.
    + by apply member_getitem_has_key.
  - intros bytes good bad rest entries v Hfile _ Hlines Hgood Hiter Hbad Hv.
    unfold stream_jsonl. rewrite (gzip_read_lines_ok _ bytes) by done.
    rewrite Hlines. by apply (stream_jsonl_lines_not_iterable _ _ _ _ _ v).
Qed.

Lemma stream_jsonl_yields_what_holds_page_id_witness :
  stream_jsonl ref_json_loads "sample.json.gz"
    {[ "sample.json.gz" := gzip_of_lines lines_without_objects ]}
  = ([JString "page_id"; JArray [JInt 1; JString "page_id"]],
     Some TypeError).
Proof.
  apply (proj2 (stream_jsonl_yields_what_holds_page_id ref_json_loads
                  "sample.json.gz"
                  {[ "sample.json.gz" := gzip_of_lines lines_without_objects ]})
           (gzip_of_lines lines_without_objects)
           [ref_json_dumps (JString "page_id") +:+ String LF EmptyString;
            ref_json_dumps (JArray [JInt 1; JString "page_id"])
              +:+ String LF EmptyString]
           (ref_json_dumps (JInt 5) +:+ String LF EmptyString)
           [] [JString "page_id"; JArray [JInt 1; JString "page_id"]]
           (JInt 5)).
  - apply lookup_singleton_eq.
  - vm_compute. reflexivity.
  - vm_compute. reflexivity.
  - repeat (constructor; [vm_compute; reflexivity |]). constructor.
  - repeat constructor.
  - vm_compute. reflexivity.
  - reflexivity.
Defined.

Lemma member_getitem_missing {V : Type} (members : list (string * V))
    (key : string) :
  has_key key members = false → member_getitem members key = Raise KeyError.
Proof.
  induction members as [|[k v] members IH]; simpl; [done |].
  destruct (String.eqb k key); [done |]. simpl. exact IH.
Qed.

(** A record without one of the three fields stops the driver with
    [KeyError]; a value that is no record at all, with [TypeError]. *)
Lemma accumulate_missing (st : driver_state) (e : entry) :
  is_document_record e = false →
  accumulate st e = Raise (if is_object e then KeyError else TypeError).
Proof.
  unfold is_document_record, accumulate. intros He.
  destruct e as [| | | | | | members]; try done. simpl in *.
  destruct (has_key "page_id" members) eqn:Hid.
  2:{ by rewrite (member_getitem_missing _ _ Hid). }
  destruct (member_getitem_has_key _ _ Hid) as [v ->]. simpl.
  destruct (has_key "text" members) eqn:Htext.
  2:{ by rewrite (member_getitem_missing _ _ Htext). }
  destruct (member_getitem_has_key _ _ Htext) as [t ->]. simpl.
  destruct (has_key "title" members) eqn:Htitle; [done |].
  by rewrite (member_getitem_missing _ _ Htitle).
Qed.

Lemma full_batches_small {A : Type} (batch_size : Z) (l : list A) :
  batch_size <= 0 ∨ Z.of_nat (length l) < batch_size →
  full_batches batch_size l = [].
Proof.
  intros Hsmall. unfold full_batches. destruct (length l) eqn:Hlen; [done |].
  simpl. replace (_ || _) with true; [done |].
  symmetry. apply orb_true_iff. destruct Hsmall as [Hz | Hlt].
  - left. apply Nat.eqb_eq. lia.
  - right. apply Nat.ltb_lt. lia.
Qed.

Lemma trailing_batch_aux_length {A : Type} (fuel n : nat) (l : list A) :
  (length l <= fuel)%nat → (0 < n)%nat →
  length (trailing_batch_aux fuel n l) = (length l mod n)%nat.
Proof.
  revert l. induction fuel as [|fuel IH]; intros l Hfuel Hn.
  { destruct l; [|simpl in Hfuel; lia]. simpl. by rewrite Nat.Div0.mod_0_l. }
  simpl. destruct (Nat.eqb_spec n 0) as [-> | _]; [lia |]. simpl.
  destruct (Nat.ltb_spec (length l) n) as [Hlt | Hge].
  - by rewrite Nat.mod_small.
  - rewrite IH; [|rewrite length_drop; lia | done].
    rewrite length_drop.
    replace (length l) with ((length l - n) + 1 * n)%nat at 2 by lia.
    by rewrite Nat.Div0.mod_add.
Qed.

Section DriverOutcomes.

Variable json_loads : string → option entry.
Variable json_dumps : entry → string.
Variable process_documents : list scalar → list scalar → result DataFrame.
Variable encode : list string → ndarray.
Variable chunk_size : Z.
Variable batch_size : Z.
Variable embeddings_output_path : string.
Variable metadata_output_path : string.

Local Abbreviation run :=
  (main json_loads json_dumps process_documents encode chunk_size
     batch_size embeddings_output_path metadata_output_path).
Local Abbreviation loop :=
  (driver_loop json_dumps process_documents encode chunk_size batch_size
     embeddings_output_path metadata_output_path).
Local Abbreviation flush_one :=
  (flush_batch json_dumps process_documents encode chunk_size
     embeddings_output_path metadata_output_path).

(** [main] when the reader yields Document Records, however it ends. *)
Lemma main_batches (file_path : string) (fs : gmap string (list byte))
    (entries : list entry) (ending : option exn) :
  stream_jsonl json_loads file_path fs = (entries, ending) →
  Forall (fun e => is_document_record e = true) entries →
  run file_path fs
  = match io_for (full_batches batch_size entries) flush_one fs with
    | (fs', Ok _) =>
        (fs', match ending with None => Ok tt | Some e => Raise e end)
    | (fs', Raise e) => (fs', Raise e)
    end.
Proof.
  intros Hstream Hdoc. unfold main. rewrite Hstream. simpl fst. simpl snd.
  rewrite (driver_loop_batches _ _ _ _ _ _ _ (length entries)) by done.
  unfold full_batches.
  destruct (io_for _ flush_one fs) as [fs' [[]|err]]; [|done].
  destruct (collect_from_ok driver_init
              (trailing_batch_aux (length entries) (Z.to_nat batch_size)
                 entries)) as (st & Hst & _).
  { by apply trailing_batch_aux_Forall. }
  unfold collect. rewrite Hst. by destruct ending.
Qed.

(** X14: when the reader raises after it has yielded Document Records (a
    line that is not JSON, say), [main] has by then flushed every full
    batch of the records yielded before; what these flushes wrote stays
    on the disk, and [main] raises the reader's exception, unless a
    flush raised first. *)
Theorem main_flushes_before_reader_error (file_path : string)
    (fs : gmap string (list byte)) (entries : list entry) (e : exn) :
  stream_jsonl json_loads file_path fs = (entries, Some e) →
  Forall (fun e => is_document_record e = true) entries →
  run file_path fs
  = match io_for (full_batches batch_size entries) flush_one fs with
    | (fs', Ok _) => (fs', Raise e)
    | (fs', Raise e') => (fs', Raise e')
    end.
Proof. intros Hstream Hdoc. by rewrite (main_batches _ _ _ _ Hstream Hdoc). Qed.

(** X15: when the input file does not exist, [main] raises
    [FileNotFoundError] and writes nothing. *)
Theorem main_without_input_file (file_path : string)
    (fs : gmap string (list byte)) :
  fs !! file_path = None →
  main json_loads json_dumps process_documents encode chunk_size batch_size
    embeddings_output_path metadata_output_path file_path fs
  = (fs, Raise FileNotFoundError).
Proof.
  intros Hnone.
  rewrite (main_batches file_path fs [] (Some FileNotFoundError)).
  - reflexivity.
  - unfold stream_jsonl, gzip_read_lines, mbind, IO_bind, read_text.
    by rewrite Hnone.
  - constructor.
Qed.

(** X16: when the reader yields fewer Document Records than
    [batch_size], or [batch_size] is zero or negative, [main] returns
    without having written anything: no file is created or changed. *)
Theorem main_small_input_writes_nothing (file_path : string)
    (fs : gmap string (list byte)) (entries : list entry) :
  stream_jsonl json_loads file_path fs = (entries, None) →
  Forall (fun e => is_document_record e = true) entries →
  batch_size <= 0 ∨ Z.of_nat (length entries) < batch_size →
  run file_path fs = (fs, Ok tt).
Proof.
  intros Hstream Hdoc Hsmall.
  rewrite (main_batches _ _ _ _ Hstream Hdoc).
  by rewrite full_batches_small.
Qed.

(** X17: a yielded value that is not a Document Record stops [main]
    when it reaches it, with [KeyError] when it is a record without
    [text] or [title] and with [TypeError] when it is no record at all
    (a string or an array): the full batches of the records before it
    have been flushed and stay on the disk, and nothing after it is
    looked at. *)
Theorem main_raises_on_missing_field (file_path : string)
    (fs : gmap string (list byte)) (good rest : list entry) (bad : entry)
    (ending : option exn) :
  stream_jsonl json_loads file_path fs = (good ++ bad :: rest, ending) →
  Forall (fun e => is_document_record e = true) good →
  is_document_record bad = false →
  run file_path fs
  = match io_for (full_batches batch_size good) flush_one fs with
    | (fs', Ok _) =>
        (fs', Raise (if is_object bad then KeyError else TypeError))
    | (fs', Raise e) => (fs', Raise e)
    end.
Proof.
  intros Hstream Hgood Hbad. unfold main. rewrite Hstream.
  simpl fst. simpl snd. rewrite driver_loop_app.
  rewrite (driver_loop_batches _ _ _ _ _ _ _ (length good)) by done.
  unfold full_batches.
  destruct (io_for _ flush_one fs) as [fs' [[]|err]]; [|done].
  destruct (collect_from_ok driver_init
              (trailing_batch_aux (length good) (Z.to_nat batch_size) good))
    as (st & Hst & _).
  { by apply trailing_batch_aux_Forall. }
  unfold collect. rewrite Hst, driver_loop_cons.
  unfold driver_step, mbind at 1, IO_bind, io_lift.
  by rewrite accumulate_missing.
Qed.

(** X18: the records the driver is left holding when the input ends,
    which are never flushed, are as many as the remainder of the number
    of records by [batch_size]. *)
Theorem driver_leftover_count (entries : list entry)
    (fs fs' : gmap string (list byte)) (st : driver_state) :
  0 < batch_size →
  Forall (fun e => is_document_record e = true) entries →
  loop driver_init entries fs = (fs', Ok st) →
  length (document_ids st)
  = (length entries mod Z.to_nat batch_size)%nat.
Proof.
  intros Hsize Hdoc Hrun.
  rewrite (driver_loop_batches _ _ _ _ _ _ _ (length entries)) in Hrun
    by done.
  destruct (io_for _ flush_one fs) as [fs1 [[]|err]]; [|discriminate].
  destruct (collect_from_ok driver_init
              (trailing_batch_aux (length entries) (Z.to_nat batch_size)
                 entries)) as (st1 & Hst1 & Hlen).
  { by apply trailing_batch_aux_Forall. }
  unfold collect in Hrun. rewrite Hst1 in Hrun. injection Hrun as _ <-.
  rewrite Hlen. simpl. apply trailing_batch_aux_length; lia.
Qed.

End DriverOutcomes.

Lemma main_flushes_before_reader_error_witness :
  (main ref_json_loads ref_json_dumps one_sentence_per_document
     constant_encode 5 2 "embeddings.bin" "metadata.json.gz"
     "sample.json.gz" {[ "sample.json.gz" := gzip_of_lines mixed_lines ]}).2
  = Raise JSONDecodeError.
Proof.
  rewrite (main_flushes_before_reader_error
             ref_json_loads ref_json_dumps one_sentence_per_document
             constant_encode 5 2 "embeddings.bin" "metadata.json.gz"
             "sample.json.gz"
             {[ "sample.json.gz" := gzip_of_lines mixed_lines ]}
             [sample_record 1 "A" "aaaa"; sample_record 2 "B" "bbbb"]
             JSONDecodeError).
  - vm_compute. reflexivity.
  - vm_compute. reflexivity.
  - repeat constructor.
Defined.

Lemma main_without_input_file_witness :
  main ref_json_loads ref_json_dumps one_sentence_per_document
    constant_encode 5 2 "embeddings.bin" "metadata.json.gz"
    "sample.json.gz" ∅
  = (∅, Raise FileNotFoundError).
Proof.
  apply (main_without_input_file
           ref_json_loads ref_json_dumps one_sentence_per_document
           constant_encode 5 2 "embeddings.bin" "metadata.json.gz"
           "sample.json.gz" ∅).
  reflexivity.
Defined.

Lemma main_small_input_writes_nothing_witness :
  main ref_json_loads ref_json_dumps one_sentence_per_document
    constant_encode 512 128 "embeddings.bin" "metadata.json.gz"
    "sample.json.gz" {[ "sample.json.gz" := five_records_file ]}
  = ({[ "sample.json.gz" := five_records_file ]}, Ok tt).
Proof.
  apply (main_small_input_writes_nothing
           ref_json_loads ref_json_dumps one_sentence_per_document
           constant_encode 512 128 "embeddings.bin" "metadata.json.gz"
           "sample.json.gz" {[ "sample.json.gz" := five_records_file ]}
           five_records).
  - vm_compute. reflexivity.
  - repeat constructor.
  - right. simpl. lia.
Defined.

Lemma main_raises_on_missing_field_witness :
  (main ref_json_loads ref_json_dumps one_sentence_per_document
     constant_encode 5 2 "embeddings.bin" "metadata.json.gz"
     "sample.json.gz" {[ "sample.json.gz" := records_with_gap_file ]}).2
  = Raise KeyError
  ∧ (main ref_json_loads ref_json_dumps one_sentence_per_document
       constant_encode 5 2 "embeddings.bin" "metadata.json.gz"
       "sample.json.gz" {[ "sample.json.gz" := records_with_string_file ]}).2
    = Raise TypeError.
Proof.
  split.
  - rewrite (main_raises_on_missing_field
               ref_json_loads ref_json_dumps one_sentence_per_document
               constant_encode 5 2 "embeddings.bin" "metadata.json.gz"
               "sample.json.gz"
               {[ "sample.json.gz" := records_with_gap_file ]}
               [sample_record 1 "A" "aaaa"; sample_record 2 "B" "bbbb"]
               [sample_record 3 "C" "cccc"] (JObject [("page_id", SInt 9)])
               None).
    + vm_compute. reflexivity.
    + vm_compute. reflexivity.
    + repeat constructor.
    + reflexivity.
  - rewrite (main_raises_on_missing_field
               ref_json_loads ref_json_dumps one_sentence_per_document
               constant_encode 5 2 "embeddings.bin" "metadata.json.gz"
               "sample.json.gz"
               {[ "sample.json.gz" := records_with_string_file ]}
               [sample_record 1 "A" "aaaa"; sample_record 2 "B" "bbbb"]
               [sample_record 3 "C" "cccc"] (JString "no page_id here")
               None).
    + vm_compute. reflexivity.
    + vm_compute. reflexivity.
    + repeat constructor.
    + reflexivity.
Defined.

Lemma driver_leftover_count_witness :
  match (driver_loop ref_json_dumps one_sentence_per_document
           constant_encode 5 2 "embeddings.bin" "metadata.json.gz"
           driver_init five_records ∅).2 with
  | Ok st => length (document_ids st) = 1%nat
  | Raise _ => False
  end.
Proof.
  destruct (driver_loop ref_json_dumps one_sentence_per_document
              constant_encode 5 2 "embeddings.bin" "metadata.json.gz"
              driver_init five_records ∅) as [fs' [st|e]] eqn:Hrun.
  - apply (driver_leftover_count
             ref_json_dumps one_sentence_per_document constant_encode
             5 2 "embeddings.bin" "metadata.json.gz" five_records ∅ fs' st).
    + lia.
    + repeat constructor.
    + exact Hrun.
  - apply (f_equal snd) in Hrun. vm_compute in Hrun. discriminate.
Defined.

(** ** What the driver leaves alone *)

Lemma io_touches_only_bind {A B : Type} (paths : list string)
    (m : IO A) (k : A → IO B) :
  io_touches_only paths m →
  (∀ a, io_touches_only paths (k a)) →
  io_touches_only paths (m ≫= k).
Proof.
  intros Hm Hk fs p Hp. unfold mbind, IO_bind.
  specialize (Hm fs p Hp). destruct (m fs) as [fs1 [a|e]]; simpl in *.
  - by rewrite (Hk a fs1 p Hp).
  - done.
Qed.

Lemma io_touches_only_mono {A : Type} (paths paths' : list string)
    (m : IO A) :
  paths ⊆ paths' → io_touches_only paths m → io_touches_only paths' m.
Proof.
  intros Hsub Hm fs p Hp. apply Hm. intros Hin. apply Hp. by apply Hsub.
Qed.

Lemma io_touches_only_lift {A : Type} (paths : list string) (r : result A) :
  io_touches_only paths (io_lift r).
Proof. by intros fs p _. Qed.

Lemma io_touches_only_ret {A : Type} (paths : list string) (a : A) :
  io_touches_only paths (mret a : IO A).
Proof. by intros fs p _. Qed.

Lemma io_appends_to_bind {A B : Type} (path : string)
    (m : IO A) (k : A → IO B) :
  io_appends_to path m →
  (∀ a, io_appends_to path (k a)) →
  io_appends_to path (m ≫= k).
Proof.
  intros Hm Hk fs. unfold mbind, IO_bind.
  destruct (Hm fs) as [s1 H1]. destruct (m fs) as [fs1 [a|e]]; simpl in *.
  - destruct (Hk a fs1) as [s2 H2]. exists (s1 ++ s2).
    by rewrite H2, H1, app_assoc.
  - by exists s1.
Qed.

Lemma io_appends_to_untouched {A : Type} (paths : list string)
    (path : string) (m : IO A) :
  io_touches_only paths m → path ∉ paths → io_appends_to path m.
Proof.
  intros Hm Hpath fs. exists []. by rewrite (Hm fs path Hpath), app_nil_r.
Qed.

Lemma save_metadata_to_file_appends (json_dumps : entry → string)
    (metadata : list entry) (file_name : string) :
  io_appends_to file_name
    (save_metadata_to_file json_dumps metadata file_name).
Proof.
  intros fs. rewrite save_metadata_to_file_ok. simpl.
  rewrite lookup_insert_eq. by eexists.
Qed.

Section DriverFrames.

Variable json_loads : string → option entry.
Variable json_dumps : entry → string.
Variable process_documents : list scalar → list scalar → result DataFrame.
Variable encode : list string → ndarray.
Variable chunk_size : Z.
Variable batch_size : Z.
Variable embeddings_output_path : string.
Variable metadata_output_path : string.

Local Abbreviation outputs :=
  [embeddings_output_path; shape_path embeddings_output_path;
   metadata_output_path].
Local Abbreviation run :=
  (main json_loads json_dumps process_documents encode chunk_size
     batch_size embeddings_output_path metadata_output_path).
Local Abbreviation loop :=
  (driver_loop json_dumps process_documents encode chunk_size batch_size
     embeddings_output_path metadata_output_path).
Local Abbreviation step :=
  (driver_step json_dumps process_documents encode chunk_size batch_size
     embeddings_output_path metadata_output_path).
Local Abbreviation flush_state :=
  (flush json_dumps process_documents encode chunk_size
     embeddings_output_path metadata_output_path).

Lemma flush_frame (st : driver_state) :
  io_touches_only outputs (flush_state st).
Proof.
  unfold flush.
  apply io_touches_only_bind; [apply io_touches_only_lift |]. intros df.
  apply io_touches_only_bind; [apply io_touches_only_lift |]. intros chunks.
  apply io_touches_only_bind.
  - eapply io_touches_only_mono; [|apply save_embeddings_to_memmap_frame].
    intros x. rewrite !elem_of_cons. tauto.
  - intros _. eapply io_touches_only_mono;
      [|apply save_metadata_to_file_frame].
    intros x. rewrite !elem_of_cons. tauto.
Qed.

Lemma driver_step_frame (st : driver_state) (e : entry) :
  io_touches_only outputs (step st e).
Proof.
  unfold driver_step.
  apply io_touches_only_bind; [apply io_touches_only_lift |]. intros st1.
  destruct (_ =? _); [|apply io_touches_only_ret].
  apply io_touches_only_bind; [apply flush_frame |].
  intros _. apply io_touches_only_ret.
Qed.

Lemma driver_loop_frame (entries : list entry) (st : driver_state) :
  io_touches_only outputs (loop st entries).
Proof.
  revert st. induction entries as [|e entries IH]; intros st.
  - apply io_touches_only_ret.
  - simpl. apply io_touches_only_bind; [apply driver_step_frame |].
    intros st1. apply IH.
Qed.

Lemma main_disk (file_path : string) (fs : gmap string (list byte)) :
  (run file_path fs).1
  = (loop driver_init (stream_jsonl json_loads file_path fs).1 fs).1.
Proof.
  unfold main.
  destruct (driver_loop _ _ _ _ _ _ _ driver_init _ fs) as [fs' [st|e]];
    [|done].
  by destruct (stream_jsonl json_loads file_path fs).2.
Qed.

(** X19: whatever the input, the codec, the sentence splitter and the
    embedder, and whether it returns or raises, [main] leaves every file
    other than the embeddings file, its sidecar and the metadata file as
    it was; in particular it never changes its input file when that is
    none of the three. *)
Theorem main_touches_only_its_outputs (file_path : string) :
  io_touches_only outputs (run file_path).
Proof.
  intros fs p Hp. rewrite main_disk. by apply driver_loop_frame.
Qed.

Lemma flush_appends (st : driver_state) :
  metadata_output_path ≠ embeddings_output_path →
  metadata_output_path ≠ shape_path embeddings_output_path →
  io_appends_to metadata_output_path (flush_state st).
Proof.
  intros Hne1 Hne2. unfold flush.
  apply io_appends_to_bind.
  { apply (io_appends_to_untouched []); [apply io_touches_only_lift |].
    apply not_elem_of_nil. }
  intros df. apply io_appends_to_bind.
  { apply (io_appends_to_untouched []); [apply io_touches_only_lift |].
    apply not_elem_of_nil. }
  intros chunks. apply io_appends_to_bind.
  - eapply io_appends_to_untouched;
      [apply save_embeddings_to_memmap_frame |].
    rewrite !not_elem_of_cons. split; [done |]. split; [done |].
    apply not_elem_of_nil.
  - intros _. apply save_metadata_to_file_appends.
Qed.

Lemma driver_loop_appends (entries : list entry) (st : driver_state) :
  metadata_output_path ≠ embeddings_output_path →
  metadata_output_path ≠ shape_path embeddings_output_path →
  io_appends_to metadata_output_path (loop st entries).
Proof.
  intros Hne1 Hne2. revert st.
  induction entries as [|e entries IH]; intros st.
  - apply (io_appends_to_untouched []); [apply io_touches_only_ret |].
    apply not_elem_of_nil.
  - simpl. apply io_appends_to_bind; [|intros st1; apply IH].
    unfold driver_step. apply io_appends_to_bind.
    { apply (io_appends_to_untouched []); [apply io_touches_only_lift |].
      apply not_elem_of_nil. }
    intros st1. destruct (_ =? _).
    + apply io_appends_to_bind; [by apply flush_appends |].
      intros _. apply (io_appends_to_untouched []);
        [apply io_touches_only_ret | apply not_elem_of_nil].
    + apply (io_appends_to_untouched []); [apply io_touches_only_ret |].
      apply not_elem_of_nil.
Qed.

(** X20: when the metadata path is neither the embeddings path nor its
    sidecar, [main] only ever appends to the metadata file: whatever the
    input and whether [main] returns or raises, what the file held
    before is still the beginning of what it holds after. *)
Theorem main_only_appends_metadata (file_path : string) :
  metadata_output_path ≠ embeddings_output_path →
  metadata_output_path ≠ shape_path embeddings_output_path →
  io_appends_to metadata_output_path (run file_path).
Proof.
  intros Hne1 Hne2 fs. rewrite main_disk.
  by apply driver_loop_appends.
Qed.

End DriverFrames.

Lemma main_touches_only_its_outputs_witness :
  (main ref_json_loads ref_json_dumps one_sentence_per_document
     constant_encode 5 2 "embeddings.bin" "metadata.json.gz"
     "sample.json.gz" {[ "sample.json.gz" := five_records_file ]}).1
    !! "sample.json.gz"
  = Some five_records_file.
Proof.
  rewrite (main_touches_only_its_outputs
             ref_json_loads ref_json_dumps one_sentence_per_document
             constant_encode 5 2 "embeddings.bin" "metadata.json.gz"
             "sample.json.gz").
  - apply lookup_singleton_eq.
  - intros H. repeat (apply elem_of_cons in H as [H | H]; [discriminate |]).
    by apply elem_of_nil in H.
Defined.

Lemma main_only_appends_metadata_witness :
  ∃ suffix,
    default []
      ((main ref_json_loads ref_json_dumps one_sentence_per_document
          constant_encode 5 2 "embeddings.bin" "metadata.json.gz"
          "sample.json.gz" sample_store).1 !! "metadata.json.gz")
    = default [] (sample_store !! "metadata.json.gz") ++ suffix.
Proof.
  apply (main_only_appends_metadata
           ref_json_loads ref_json_dumps one_sentence_per_document
           constant_encode 5 2 "embeddings.bin" "metadata.json.gz"
           "sample.json.gz"); discriminate.
Defined.
